(** * Krio Data Weaver: the correlation analysis engine

    A shallow embedding of [backend/services/correlation_service.py] and of
    the three ORM models it reads and writes
    ([backend/models/weather.py], [stock.py], [correlation.py]).

    Conventions of the embedding.
    - A timestamp is an integer number of seconds ([Z]).
    - A [Decimal] or [float] value is the rational number it denotes ([Q]).
      Where a property depends on what binary64 arithmetic returns, the
      arithmetic is not taken to be exact: a sum, a product or a quotient of
      floats is rounded by a function [fl], of which only the standard
      properties of rounding to nearest are assumed ([rounding]), and the
      scores of [scipy.stats.zscore] are the values scipy returns, of which
      the statements assume at most that they are accurate to a stated
      [delta] ([accurate]).
    - An ORM attribute that may hold Python's [None] is an [option].
    - A [float] that may be NaN (a cell of a DataFrame, a statistic returned
      by scipy) is a [pyfloat]; every comparison with NaN is false.
    - A DataFrame is the list of its rows, each with its index label.
    - A Python [dict] is a [gmap].
    - The database session is the function telling which records it
      stores; log messages are not modelled. *)

From Stdlib Require Import QArith Qabs ZArith Lia Lqa.
From stdpp Require Import gmap strings list sorting.

Open Scope Z_scope.

(** ** Floats *)

Inductive pyfloat : Type :=
  | NaN : pyfloat
  | Fin : Q -> pyfloat.

Definition Qlt_bool (x y : Q) : bool := negb (Qle_bool y x).

(** [a < b], [a > b], [a >= b] on floats: false as soon as one side is NaN. *)
Definition flt_lt (a b : pyfloat) : bool :=
  match a, b with
  | Fin x, Fin y => Qlt_bool x y
  | _, _ => false
  end.

Definition flt_gt (a b : pyfloat) : bool := flt_lt b a.

Definition flt_ge (a b : pyfloat) : bool :=
  match a, b with
  | Fin x, Fin y => Qle_bool y x
  | _, _ => false
  end.

Definition flt_abs (a : pyfloat) : pyfloat :=
  match a with
  | NaN => NaN
  | Fin x => Fin (Qabs x)
  end.

Definition isna (a : pyfloat) : bool :=
  match a with
  | NaN => true
  | Fin _ => false
  end.

(** Truth value of an attribute in [if w.temperature]: [None] and a numeric
    zero are both false. *)
Definition truthy (o : option Q) : bool :=
  match o with
  | Some q => negb (Qeq_bool q 0)
  | None => false
  end.

(** [float(v) if v else None], once pandas has stored it in a float column. *)
Definition float_if_truthy (o : option Q) : pyfloat :=
  match o with
  | Some q => if truthy o then Fin q else NaN
  | None => NaN
  end.

(** An integer attribute stored as it is ([w.humidity], [s.volume]). *)
Definition float_of_int (o : option Z) : pyfloat :=
  match o with
  | Some z => Fin (inject_Z z)
  | None => NaN
  end.

(** The least and the greatest power of 2 among the normal binary64
    numbers. *)
Definition min_normal : Q := 1 # (2 ^ 1022).
Definition max_normal : Q := inject_Z (2 ^ 1023).

(** What the statements assume of [fl], the rounding of an exact result to
    the nearest binary64 where there is one: it is monotone, it leaves the
    integers up to 2^53 and its own values as they are, it commutes with the
    sign, and in the normal range its relative error is at most 2^-53.
    Nothing is assumed of the error below the normal range (underflow) nor
    above it (overflow). *)
Record rounding (fl : Q -> Q) : Prop := mkRounding {
  fl_monotone : forall x y, (x <= y)%Q -> (fl x <= fl y)%Q;
  fl_integer : forall n : Z, Z.abs n <= 2 ^ 53 -> (fl (inject_Z n) == inject_Z n)%Q;
  fl_idempotent : forall x, (fl (fl x) == fl x)%Q;
  fl_opp : forall x, (fl (- x) == - fl x)%Q;
  fl_error : forall x,
    (min_normal <= Qabs x)%Q -> (Qabs x <= max_normal)%Q ->
    (Qabs (fl x - x) <= Qabs x * (1 # 9007199254740992))%Q
}.

(** Exact arithmetic, the one rounding without error. *)
Definition no_rounding (x : Q) : Q := x.

(** ** ORM models *)

Module WeatherData.
Record t : Type := mk {
  timestamp : Z;
  city : string;
  temperature : option Q;
  humidity : option Z;
  precipitation : option Q;
  wind_speed : option Q;
  condition : string
}.
End WeatherData.

Module StockData.
Record t : Type := mk {
  timestamp : Z;
  symbol : string;
  open_price : option Q;
  close_price : option Q;
  high_price : option Q;
  low_price : option Q;
  volume : option Z
}.

(** [volatility]: high - low, or 0.0 when either price is false. *)
Definition volatility (s : t) : Q :=
  match high_price s, low_price s with
  | Some h, Some l =>
      if truthy (Some h) && truthy (Some l) then (h - l)%Q else 0%Q
  | _, _ => 0%Q
  end.

(** [daily_change]: close - open, or 0.0 when either price is false. *)
Definition daily_change (s : t) : Q :=
  match close_price s, open_price s with
  | Some c, Some o =>
      if truthy (Some c) && truthy (Some o) then (c - o)%Q else 0%Q
  | _, _ => 0%Q
  end.
End StockData.

(** One f-string appended to [insights] by [generate_insights]; the numbers
    are kept as values, their rendering ([:.3f], [:.4f]) is not modelled. *)
Inductive Sentence : Type :=
  | Summary (sample_size : nat) (strength direction : string)
            (r : pyfloat) (weather_variable stock_variable : string)
  | Relationship (stock_variable relationship weather_variable : string)
                 (significance : string) (p : pyfloat)
  | SignificantNote
  | NotSignificantNote
  | AnomaliesNote (anomalies_count : nat).

Module CorrelationResult.
Record t : Type := mk {
  city : string;
  symbol : string;
  start_date : Z;
  end_date : Z;
  period_days : Z;
  correlation_value : pyfloat;
  p_value : pyfloat;
  sample_size : nat;
  weather_variable : string;
  stock_variable : string;
  significance_level : string;
  analysis_notes : list Sentence;
  anomalies_detected : nat
}.

(** The CHECK constraints of [__table_args__]; a NaN satisfies none of the
    range constraints. *)
Definition table_args_ok (r : t) : bool :=
  (0 <? period_days r)
  && flt_ge (correlation_value r) (Fin (-1)) && flt_ge (Fin 1) (correlation_value r)
  && flt_ge (p_value r) (Fin 0) && flt_ge (Fin 1) (p_value r)
  && (0 <? sample_size r)%nat
  && (0 <=? anomalies_detected r)%nat.

(** The three categorical helpers, as functions of the attribute they read;
    [None] is Python's [None]. *)
Definition get_significance_category (p_value : option pyfloat) : string :=
  match p_value with
  | None => "unknown"
  | Some p_val =>
      if flt_lt p_val (Fin (1 # 1000)) then "very_high"
      else if flt_lt p_val (Fin (1 # 100)) then "high"
      else if flt_lt p_val (Fin (5 # 100)) then "medium"
      else if flt_lt p_val (Fin (1 # 10)) then "low"
      else "none"
  end.

Definition get_correlation_strength (correlation_value : option pyfloat) : string :=
  match correlation_value with
  | None => "unknown"
  | Some c =>
      let abs_corr := flt_abs c in
      if flt_ge abs_corr (Fin (7 # 10)) then "strong"
      else if flt_ge abs_corr (Fin (4 # 10)) then "moderate"
      else if flt_ge abs_corr (Fin (2 # 10)) then "weak"
      else "very_weak"
  end.

Definition get_correlation_direction (correlation_value : option pyfloat) : string :=
  match correlation_value with
  | None => "none"
  | Some corr_val =>
      if flt_gt corr_val (Fin (5 # 100)) then "positive"
      else if flt_lt corr_val (Fin (-(5 # 100))) then "negative"
      else "none"
  end.
End CorrelationResult.

(** ** DataFrames built by [align_time_series] *)

(** A row of [weather_df] (lines 46-52). *)
Record WeatherRow : Type := mkWeatherRow {
  w_timestamp : Z;
  w_temperature : pyfloat;
  w_humidity : pyfloat;
  w_precipitation : pyfloat;
  w_wind_speed : pyfloat
}.

(** A row of [stock_df] (lines 54-60). *)
Record StockRow : Type := mkStockRow {
  s_timestamp : Z;
  s_close_price : pyfloat;
  s_volume : pyfloat;
  s_volatility : pyfloat;
  s_daily_change : pyfloat
}.

(** A row of the merged frame: the columns of both, one timestamp. *)
Record AlignedRow : Type := mkAlignedRow {
  timestamp : Z;
  temperature : pyfloat;
  humidity : pyfloat;
  precipitation : pyfloat;
  wind_speed : pyfloat;
  close_price : pyfloat;
  volume : pyfloat;
  volatility : pyfloat;
  daily_change : pyfloat
}.

(** The numeric columns of the merged frame.  A variable of the analysis is
    one of them; another name makes [aligned_df[name]] raise a KeyError or
    select the timestamps, which is outside this model. *)
Inductive Column : Type :=
  | Temperature | Humidity | Precipitation | WindSpeed
  | ClosePrice | Volume | Volatility | DailyChange.

Definition column_name (c : Column) : string :=
  match c with
  | Temperature => "temperature"
  | Humidity => "humidity"
  | Precipitation => "precipitation"
  | WindSpeed => "wind_speed"
  | ClosePrice => "close_price"
  | Volume => "volume"
  | Volatility => "volatility"
  | DailyChange => "daily_change"
  end.

Definition cell (c : Column) (row : AlignedRow) : pyfloat :=
  match c with
  | Temperature => temperature row
  | Humidity => humidity row
  | Precipitation => precipitation row
  | WindSpeed => wind_speed row
  | ClosePrice => close_price row
  | Volume => volume row
  | Volatility => volatility row
  | DailyChange => daily_change row
  end.

Definition all_columns : list Column :=
  [Temperature; Humidity; Precipitation; WindSpeed;
   ClosePrice; Volume; Volatility; DailyChange].

(** A frame of aligned rows, each with its index label; a numeric Series; a
    frame seen as its named numeric columns. *)
Definition AlignedFrame : Type := list (nat * AlignedRow).
Definition Series : Type := list (nat * pyfloat).

Definition weather_row (w : WeatherData.t) : WeatherRow :=
  {| w_timestamp := WeatherData.timestamp w;
     w_temperature := float_if_truthy (WeatherData.temperature w);
     w_humidity := float_of_int (WeatherData.humidity w);
     w_precipitation :=
       match WeatherData.precipitation w with
       | Some q => if truthy (Some q) then Fin q else Fin 0
       | None => Fin 0
       end;
     w_wind_speed := float_if_truthy (WeatherData.wind_speed w) |}.

Definition stock_row (s : StockData.t) : StockRow :=
  {| s_timestamp := StockData.timestamp s;
     s_close_price := float_if_truthy (StockData.close_price s);
     s_volume := float_of_int (StockData.volume s);
     s_volatility := Fin (StockData.volatility s);
     s_daily_change := Fin (StockData.daily_change s) |}.

(** [sort_index]: rows in ascending order of their key.  Rows of equal key
    are left in their input order, as pandas leaves them when its sort is
    stable or the index is sorted already. *)
Fixpoint insert_sorted {A : Type} (key : A -> Z) (x : A) (l : list A) : list A :=
  match l with
  | [] => [x]
  | y :: l' =>
      if key x <=? key y then x :: y :: l'
      else y :: insert_sorted key x l'
  end.

Definition sort_index {A : Type} (key : A -> Z) (l : list A) : list A :=
  foldr (insert_sorted key) [] l.

(** [pd.Timedelta(hours=12)], in seconds. *)
Definition tolerance : Z := 12 * 3600.

(** [pandas.merge_asof(left, right, on='timestamp', direction='nearest',
    tolerance=...)] on frames sorted by timestamp.  For a left key [t]:
    the backward candidate is the last right row with key <= [t], the forward
    candidate the first right row with key >= [t]; a candidate further than
    the tolerance is no candidate; of two candidates the backward one is
    taken unless the forward one is strictly closer. *)
Definition asof_backward (right : list StockRow) (t : Z) : option StockRow :=
  match last (filter (fun s => s_timestamp s <= t) right) with
  | Some s => if bool_decide (t - s_timestamp s > tolerance) then None else Some s
  | None => None
  end.

Definition asof_forward (right : list StockRow) (t : Z) : option StockRow :=
  match head (filter (fun s => t <= s_timestamp s) right) with
  | Some s => if bool_decide (s_timestamp s - t > tolerance) then None else Some s
  | None => None
  end.

Definition asof_nearest (right : list StockRow) (t : Z) : option StockRow :=
  match asof_backward right t, asof_forward right t with
  | Some b, Some f =>
      if bool_decide (t - s_timestamp b <= s_timestamp f - t) then Some b else Some f
  | Some b, None => Some b
  | None, f => f
  end.

(** The merged row of a left row: its own columns, and the columns of its
    partner, NaN where it has none (a left join). *)
Definition merge_row (w : WeatherRow) (o : option StockRow) : AlignedRow :=
  {| timestamp := w_timestamp w;
     temperature := w_temperature w;
     humidity := w_humidity w;
     precipitation := w_precipitation w;
     wind_speed := w_wind_speed w;
     close_price := from_option s_close_price NaN o;
     volume := from_option s_volume NaN o;
     volatility := from_option s_volatility NaN o;
     daily_change := from_option s_daily_change NaN o |}.

Definition merge_asof (left : list WeatherRow) (right : list StockRow) : AlignedFrame :=
  imap (fun i w => (i, merge_row w (asof_nearest right (w_timestamp w)))) left.

(** [dropna(subset=['temperature', 'close_price'])]: labels are kept. *)
Definition critical (row : AlignedRow) : Prop :=
  isna (temperature row) = false /\ isna (close_price row) = false.

#[global] Instance critical_dec (row : AlignedRow) : Decision (critical row).
Proof. unfold critical. apply _. Defined.

Definition dropna_critical (df : AlignedFrame) : AlignedFrame :=
  filter (fun r => critical r.2) df.

(** The frame before the final [dropna] (lines 66-81). *)
Definition merged_frame (weather_data : list WeatherData.t)
    (stock_data : list StockData.t) : AlignedFrame :=
  merge_asof (sort_index w_timestamp (map weather_row weather_data))
             (sort_index s_timestamp (map stock_row stock_data)).

(** [CorrelationService.align_time_series] (lines 30-87). *)
Definition align_time_series (weather_data : list WeatherData.t)
    (stock_data : list StockData.t) : AlignedFrame :=
  match weather_data, stock_data with
  | [], _ | _, [] => []
  | _, _ => dropna_critical (merged_frame weather_data stock_data)
  end.

(** [df[col]] and [series.dropna()]. *)
Definition column (c : Column) (df : AlignedFrame) : Series :=
  map (fun r => (r.1, cell c r.2)) df.

Definition dropna (s : Series) : list (nat * Q) :=
  omap (fun e => match e.2 with Fin q => Some (e.1, q) | NaN => None end) s.

(** The named numeric columns of a frame ([data.columns], [data[col]]). *)
Definition to_frame (df : AlignedFrame) : gmap string Series :=
  list_to_map (map (fun c => (column_name c, column c df)) all_columns).

(** ** Statistics *)

Definition Qsum (a : list Q) : Q := foldr Qplus 0%Q a.

Definition mean (a : list Q) : Q := (Qsum a / inject_Z (Z.of_nat (length a)))%Q.

(** Variance with [ddof] delta degrees of freedom: the squared deviations
    from the mean, summed, over [n - ddof]. *)
Definition variance (ddof : nat) (a : list Q) : Q :=
  (Qsum (map (fun v => (v - mean a) * (v - mean a)) a)
   / inject_Z (Z.of_nat (length a - ddof)))%Q.

(** In exact arithmetic: whether the Z-score [(x - mean) / std] of [x] in
    [a] exceeds [threshold] in absolute value, the standard deviation taken
    with [ddof] degrees of freedom.  For a threshold >= 0 this is the
    comparison of the squares written here.  It is the notion the
    specification is read with; the code compares the scores that scipy
    computes in binary64 ([score], [zscore] below). *)
Definition abs_zscore_gt (ddof : nat) (a : list Q) (threshold x : Q) : bool :=
  Qlt_bool (threshold * threshold * variance ddof a)
           ((x - mean a) * (x - mean a)).

(** An element of the array that [scipy.stats.zscore] returns: a binary64
    value, that is NaN, an infinity, or the rational a finite float
    denotes. *)
Inductive score : Type :=
  | Undefined : score
  | Infinite : score
  | Score : Q -> score.

(** [np.abs(z) > threshold] on such an element: false for NaN, true for an
    infinity. *)
Definition abs_gt (z : score) (threshold : Q) : bool :=
  match z with
  | Undefined => false
  | Infinite => true
  | Score q => Qlt_bool threshold (Qabs q)
  end.

(** [(x == x[0]).all()]. *)
Definition is_constant (a : list Q) : bool :=
  match a with
  | [] => true
  | x0 :: _ => forallb (fun v => Qeq_bool v x0) a
  end.

Inductive exn : Type := ValueError.

(** [x[mask]] for a boolean mask over the same index. *)
Fixpoint boolean_index {A : Type} (l : list A) (mask : list bool) : list A :=
  match l, mask with
  | x :: l', b :: mask' =>
      if b then x :: boolean_index l' mask' else boolean_index l' mask'
  | _, _ => []
  end.

(** [str.upper] on ASCII text, which is what a ticker symbol is: the letters
    a-z are mapped to A-Z.  Python's [upper] also maps letters outside
    ASCII, which this function leaves as they are; the statements that
    depend on it are about ASCII strings ([is_ascii]). *)
Definition upper_ascii (c : Ascii.ascii) : Ascii.ascii :=
  let n := Ascii.nat_of_ascii c in
  if ((97 <=? n) && (n <=? 122))%nat then Ascii.ascii_of_nat (n - 32) else c.

Fixpoint upper (s : string) : string :=
  match s with
  | EmptyString => EmptyString
  | String c s' => String (upper_ascii c) (upper s')
  end.

(** A string of ASCII characters. *)
Fixpoint is_ascii (s : string) : bool :=
  match s with
  | EmptyString => true
  | String c s' => (Ascii.nat_of_ascii c <? 128)%nat && is_ascii s'
  end.

(** A string without any of the letters a-z. *)
Fixpoint no_lower (s : string) : bool :=
  match s with
  | EmptyString => true
  | String c s' =>
      negb ((97 <=? Ascii.nat_of_ascii c) && (Ascii.nat_of_ascii c <=? 122))%nat
      && no_lower s'
  end.

Fixpoint minimum (d : Z) (l : list Z) : Z :=
  match l with
  | [] => d
  | x :: l' => Z.min x (minimum x l')
  end.

Fixpoint maximum (d : Z) (l : list Z) : Z :=
  match l with
  | [] => d
  | x :: l' => Z.max x (maximum x l')
  end.

(** [Timedelta.days] of a difference of [seconds] seconds. *)
Definition days (seconds : Z) : Z := seconds / 86400.

(** ** The service *)

Section CorrelationService.

(** The Pearson coefficient and its two-sided p-value as scipy computes them
    on two non-constant samples of one length: floats, so rationals, but not
    rational functions of the data. *)
Variable pearson_statistic : list Q -> list Q -> Q.
Variable pearson_pvalue : list Q -> list Q -> Q.

(** [scipy.stats.zscore] with its default [ddof=0]: [zscore a i] is element
    [i] of the array it returns for the values [a], an array of the shape of
    [a].  The scores are computed in binary64: they are close to the exact
    [(x - mean) / std], not equal to them. *)
Variable zscore : list Q -> nat -> score.

(** The outcome of [db.session.add(result); db.session.commit()]: [true] when
    the row is stored, [false] when an exception is raised. *)
Variable commit : CorrelationResult.t -> bool.

(** [scipy.stats.pearsonr]: a ValueError unless the samples have one length,
    at least 2; (nan, nan), with a warning and no exception, when a sample
    is constant. *)
Definition pearsonr (x y : list Q) : exn + pyfloat * pyfloat :=
  if negb (length x =? length y)%nat then inl ValueError
  else if (length x <? 2)%nat then inl ValueError
  else if is_constant x || is_constant y then inr (NaN, NaN)
  else inr (Fin (pearson_statistic x y), Fin (pearson_pvalue x y)).

Definition min_sample_size : nat := 10.
Definition significance_threshold : Q := 5 # 100.
Definition anomaly_threshold : Q := 3.

(** [CorrelationService.calculate_correlation] (lines 89-124), on two
    series over one index, as two columns of one frame are: position [i] of
    [x] pairs with position [i] of [y].  On series over different indexes
    pandas aligns the mask by label, which is outside this model. *)
Definition calculate_correlation (x y : Series) : pyfloat * pyfloat :=
  if ((length x <? min_sample_size) || (length y <? min_sample_size))%nat
  then (Fin 0, Fin 1)
  else
    let mask := zip_with (fun a b => negb (isna a.2 || isna b.2)) x y in
    let x_clean := boolean_index x mask in
    let y_clean := boolean_index y mask in
    if (length x_clean <? min_sample_size)%nat
    then (Fin 0, Fin 1)
    else
      match pearsonr (dropna x_clean).*2 (dropna y_clean).*2 with
      | inr (corr_coef, p_value) => (corr_coef, p_value)
      | inl _ => (Fin 0, Fin 1)
      end.

(** One turn of the loop of [detect_anomalies] on a column found in the
    frame (lines 147-160): the labels to record, if any. *)
Definition anomaly_indices (full : Series) : option (list nat) :=
  let series := dropna full in
  if (length series <? 10)%nat then None
  else
    let z_scores := zscore series.*2 in
    let anomaly_mask :=
      imap (fun i _ => abs_gt (z_scores i) anomaly_threshold) series in
    match (boolean_index series anomaly_mask).*1 with
    | [] => None
    | indices => Some indices
    end.

(** [CorrelationService.detect_anomalies] (lines 126-162). *)
Definition detect_anomalies (data : gmap string Series) (columns : list string)
    : gmap string (list nat) :=
  foldl (fun anomalies col =>
           match data !! col with
           | None => anomalies
           | Some full =>
               match anomaly_indices full with
               | Some indices => <[col := indices]> anomalies
               | None => anomalies
               end
           end) ∅ columns.

(** The three classifications of [generate_insights] (lines 189-221). *)
Definition strength_of (correlation_value : pyfloat) : string :=
  let abs_corr := flt_abs correlation_value in
  if flt_ge abs_corr (Fin (7 # 10)) then "strong"
  else if flt_ge abs_corr (Fin (4 # 10)) then "moderate"
  else if flt_ge abs_corr (Fin (2 # 10)) then "weak"
  else "very weak".

Definition direction_of (correlation_value : pyfloat) : string * string :=
  if flt_gt correlation_value (Fin (5 # 100)) then ("positive", "increases with")
  else if flt_lt correlation_value (Fin (-(5 # 100))) then ("negative", "decreases with")
  else ("negligible", "shows no clear relationship with").

Definition significance_of (p_value : pyfloat) : string :=
  if flt_lt p_value (Fin (1 # 1000)) then "very highly significant"
  else if flt_lt p_value (Fin (1 # 100)) then "highly significant"
  else if flt_lt p_value (Fin (5 # 100)) then "significant"
  else if flt_lt p_value (Fin (1 # 10)) then "marginally significant"
  else "not statistically significant".

(** [CorrelationService.generate_insights] (lines 164-251): the sentences in
    the order they are appended. *)
Definition generate_insights (correlation_value p_value : pyfloat)
    (weather_variable stock_variable : string)
    (sample_size anomalies_count : nat) : list Sentence :=
  let strength := strength_of correlation_value in
  let '(direction, relationship) := direction_of correlation_value in
  let significance := significance_of p_value in
  [Summary sample_size strength direction correlation_value
           weather_variable stock_variable;
   Relationship stock_variable relationship weather_variable significance p_value]
  ++ [if flt_lt p_value (Fin (5 # 100)) then SignificantNote else NotSignificantNote]
  ++ (if (0 <? anomalies_count)%nat then [AnomaliesNote anomalies_count] else []).

(** The label stored in [significance_level] (lines 313-321). *)
Definition significance_level_of (p_value : pyfloat) : string :=
  if flt_lt p_value (Fin (1 # 1000)) then "p < 0.001"
  else if flt_lt p_value (Fin (1 # 100)) then "p < 0.01"
  else if flt_lt p_value (Fin (5 # 100)) then "p < 0.05"
  else "not significant".

(** [analyze_correlation] up to the record it builds (lines 276-338);
    [None] is the early [return None] on an empty alignment. *)
Definition build_result (city symbol : string)
    (weather_data : list WeatherData.t) (stock_data : list StockData.t)
    (weather_variable stock_variable : Column) : option CorrelationResult.t :=
  let aligned_df := align_time_series weather_data stock_data in
  match aligned_df with
  | [] => None
  | first :: _ =>
      let '(corr_value, p_value) :=
        calculate_correlation (column weather_variable aligned_df)
                              (column stock_variable aligned_df) in
      let anomalies :=
        detect_anomalies (to_frame aligned_df)
          [column_name weather_variable; column_name stock_variable] in
      let anomalies_count :=
        map_fold (fun _ indices n => (length indices + n)%nat) 0%nat anomalies in
      let stamps := map (fun r => timestamp r.2) aligned_df in
      let start_date := minimum (timestamp first.2) stamps in
      let end_date := maximum (timestamp first.2) stamps in
      let period_days := days (end_date - start_date) in
      let insights :=
        generate_insights corr_value p_value
          (column_name weather_variable) (column_name stock_variable)
          (length aligned_df) anomalies_count in
      Some {| CorrelationResult.city := city;
              CorrelationResult.symbol := upper symbol;
              CorrelationResult.start_date := start_date;
              CorrelationResult.end_date := end_date;
              CorrelationResult.period_days := period_days;
              CorrelationResult.correlation_value := corr_value;
              CorrelationResult.p_value := p_value;
              CorrelationResult.sample_size := length aligned_df;
              CorrelationResult.weather_variable := column_name weather_variable;
              CorrelationResult.stock_variable := column_name stock_variable;
              CorrelationResult.significance_level := significance_level_of p_value;
              CorrelationResult.analysis_notes := insights;
              CorrelationResult.anomalies_detected := anomalies_count |}
  end.

(** [CorrelationService.analyze_correlation] (lines 253-349): the record is
    returned when it is stored, and [None] when storing it raises. *)
Definition analyze_correlation (city symbol : string)
    (weather_data : list WeatherData.t) (stock_data : list StockData.t)
    (weather_variable stock_variable : Column) : option CorrelationResult.t :=
  match build_result city symbol weather_data stock_data
          weather_variable stock_variable with
  | None => None
  | Some result => if commit result then Some result else None
  end.

End CorrelationService.

(** ** The specification's reading of three operations

    Written from the words of the specification, to be compared with the
    definitions above. *)

(** Aligner, as specified: the market series is the primary one; the partner
    of a market sample at [t] is the weather sample nearest to [t] among
    those with timestamp <= [t], the earlier of two equally near ones, and
    only if it is at most 12 hours away. *)
Fixpoint nearest_before (weather : list WeatherRow) (t : Z)
    (best : option WeatherRow) : option WeatherRow :=
  match weather with
  | [] => best
  | w :: rest =>
      if decide (w_timestamp w <= t) then
        match best with
        | Some b =>
            if decide (w_timestamp b < w_timestamp w)
            then nearest_before rest t (Some w)
            else nearest_before rest t best
        | None => nearest_before rest t (Some w)
        end
      else nearest_before rest t best
  end.

Definition spec_row (m : StockRow) (w : WeatherRow) : AlignedRow :=
  {| timestamp := s_timestamp m;
     temperature := w_temperature w;
     humidity := w_humidity w;
     precipitation := w_precipitation w;
     wind_speed := w_wind_speed w;
     close_price := s_close_price m;
     volume := s_volume m;
     volatility := s_volatility m;
     daily_change := s_daily_change m |}.

Definition align_spec (weather_data : list WeatherData.t)
    (stock_data : list StockData.t) : list AlignedRow :=
  let weather := sort_index w_timestamp (map weather_row weather_data) in
  let market := sort_index s_timestamp (map stock_row stock_data) in
  filter critical
    (omap (fun m =>
             match nearest_before weather (s_timestamp m) None with
             | Some w =>
                 if decide (s_timestamp m - w_timestamp w <= tolerance)
                 then Some (spec_row m w) else None
             | None => None
             end) market).

(** Aligner, as specified: after matching, the rows dropped are those
    missing a field of the chosen pair of variables. *)
Definition required_present (weather_variable stock_variable : Column)
    (row : AlignedRow) : Prop :=
  isna (cell weather_variable row) = false /\ isna (cell stock_variable row) = false.

#[global] Instance required_present_dec wv sv row : Decision (required_present wv sv row).
Proof. unfold required_present. apply _. Defined.

Definition drop_missing_required (weather_variable stock_variable : Column)
    (df : AlignedFrame) : AlignedFrame :=
  filter (fun r => required_present weather_variable stock_variable r.2) df.

(** Anomaly Detector, as specified: the Z-score is taken in units of the
    sample standard deviation (divisor [n - 1]). *)
Definition anomalous_spec (a : list Q) (x : Q) : bool :=
  abs_zscore_gt 1 a 3 x.

(** ** Further notions used in the statements *)

(** The market partner of a weather sample taken at [t]. *)
Definition partner (stock_data : list StockData.t) (t : Z) : option StockRow :=
  asof_nearest (sort_index s_timestamp (map stock_row stock_data)) t.

(** Rows in ascending order of their key. *)
Definition key_le {A : Type} (key : A -> Z) (a b : A) : Prop := key a <= key b.

(** A point [x] of the sample [a] lies beyond [c] standard deviations, for
    [c >= 0], when its squared deviation from the mean exceeds [c * c] times
    the variance; the standard deviation is the one over all [n] points
    (divisor [n]), and the arithmetic is exact. *)
Definition beyond (c : Q) (a : list Q) (x : Q) : Prop :=
  (c * c * variance 0 a < (x - mean a) * (x - mean a))%Q.

(** The scores [z] of the values [a] are accurate to [delta]: the absolute
    value of each is within [delta] of the exact [|x - mean| / std], with
    the standard deviation over all [n] points; where the deviation is zero
    the score is zero or NaN.  The two bounds are stated on squares, without
    the root: [|x - mean| <= (|z| + delta) * std] and, unless
    [|z| <= delta], [(|z| - delta) * std <= |x - mean|] with [std > 0]. *)
Definition accurate (delta : Q) (a : list Q) (z : nat -> score) : Prop :=
  forall k x, a !! k = Some x ->
    match z k with
    | Score q =>
        ((x - mean a) * (x - mean a)
         <= (Qabs q + delta) * (Qabs q + delta) * variance 0 a)%Q
        /\ ((Qabs q <= delta)%Q
            \/ ((0 < variance 0 a)%Q
                /\ ((Qabs q - delta) * (Qabs q - delta) * variance 0 a
                    <= (x - mean a) * (x - mean a))%Q))
    | Undefined => ((x - mean a) * (x - mean a) == 0)%Q
    | Infinite => False
    end.

(** The label [l] belongs to a value of the column whose score, as scipy
    returns it for the values present, exceeds 3.0 in absolute value. *)
Definition flagged (zscore : list Q -> nat -> score) (full : Series) (l : nat) : Prop :=
  exists k x,
    dropna full !! k = Some (l, x)
    /\ abs_gt (zscore (dropna full).*2 k) 3 = true.

(** The absolute time gap between a market row and an instant. *)
Definition gap (s : StockRow) (t : Z) : Z := Z.abs (s_timestamp s - t).


(** The pairs of values left by paired removal of missing values. *)
Definition both_present (e : (nat * pyfloat) * (nat * pyfloat)) : Prop :=
  isna e.1.2 = false /\ isna e.2.2 = false.

#[global] Instance both_present_dec e : Decision (both_present e).
Proof. unfold both_present. apply _. Defined.

Definition paired (x y : Series) : list ((nat * pyfloat) * (nat * pyfloat)) :=
  filter both_present (zip x y).

(** The values of [x], and of [y], among these pairs. *)
Definition clean_x (x y : Series) : list Q := (dropna (paired x y).*1).*2.
Definition clean_y (x y : Series) : list Q := (dropna (paired x y).*2).*2.

(** ** Sample data *)

Definition hour : Z := 3600.

Definition sample_weather (t : Z) (temp wind : Q) : WeatherData.t :=
  WeatherData.mk t "New York" (Some temp) (Some 50) (Some 0%Q) (Some wind) "Clear".

Definition sample_stock (t : Z) (close : Q) : StockData.t :=
  StockData.mk t "AAPL" (Some close) (Some close) (Some (close + 1)%Q)
               (Some (close - 1)%Q) (Some 1000).

Definition sample_row (t : Z) (temp wind close : Q) : AlignedRow :=
  {| timestamp := t; temperature := Fin temp; humidity := Fin 50;
     precipitation := Fin 0; wind_speed := Fin wind; close_price := Fin close;
     volume := Fin 1000; volatility := Fin 2; daily_change := Fin 0 |}.

(** Two weather samples a little more than a day apart, each an hour after
    a market sample, and the record the analysis builds from them. *)
Definition two_day_weather : list WeatherData.t :=
  [sample_weather (100 * hour + hour) 20 3; sample_weather (130 * hour) 21 3].

Definition two_day_stock : list StockData.t :=
  [sample_stock (100 * hour) 100; sample_stock (124 * hour) 101].

Definition two_day_result : CorrelationResult.t :=
  {| CorrelationResult.city := "New York";
     CorrelationResult.symbol := "AAPL";
     CorrelationResult.start_date := 363600;
     CorrelationResult.end_date := 468000;
     CorrelationResult.period_days := 1;
     CorrelationResult.correlation_value := Fin 0;
     CorrelationResult.p_value := Fin 1;
     CorrelationResult.sample_size := 2;
     CorrelationResult.weather_variable := "temperature";
     CorrelationResult.stock_variable := "close_price";
     CorrelationResult.significance_level := "not significant";
     CorrelationResult.analysis_notes :=
       [Summary 2 "very weak" "negligible" (Fin 0) "temperature" "close_price";
        Relationship "close_price" "shows no clear relationship with"
          "temperature" "not statistically significant" (Fin 1);
        NotSignificantNote];
     CorrelationResult.anomalies_detected := 0 |}.

(** A stand-in for scipy's two statistics, for runs that do not reach them. *)
Definition unused_statistic (x y : list Q) : Q := 0%Q.

(** A stand-in for scipy's scores: the exact deviation over a root of the
    variance taken to six decimals; NaN on a sample without spread. *)
Definition approx_sqrt (v : Q) : Q :=
  (inject_Z (Z.sqrt (Qnum v * 10 ^ 12 / Zpos (Qden v))) / inject_Z (10 ^ 6))%Q.

Definition approx_zscore (a : list Q) (k : nat) : score :=
  match a !! k with
  | Some x =>
      if Qeq_bool (variance 0 a) 0 then Undefined
      else Score ((x - mean a) / approx_sqrt (variance 0 a))%Q
  | None => Undefined
  end.

(** Eleven days of weather, each sample an hour after a market sample; the
    last temperature is far from the others. *)
Definition eleven_day_weather : list WeatherData.t :=
  imap (fun i temp => sample_weather (100 * hour + hour + Z.of_nat i * 24 * hour) temp 3)
    [21; 19; 20; 20; 20; 20; 20; 20; 20; 20; 25]%Q.

Definition eleven_day_stock : list StockData.t :=
  imap (fun i close => sample_stock (100 * hour + Z.of_nat i * 24 * hour) close)
    [100; 101; 102; 103; 104; 105; 106; 107; 108; 109; 110]%Q.

(** A market sample that opens at its high and closes at its low. *)
Definition falling_stock : StockData.t :=
  StockData.mk 0 "AAPL" (Some 1%Q) (Some (1 # 2)%Q) (Some 1%Q) (Some (1 # 2)%Q)
    (Some 10).

(** A database that stores what satisfies its constraints, and one that is
    down. *)
Definition storage_up : CorrelationResult.t -> bool := CorrelationResult.table_args_ok.
Definition storage_down : CorrelationResult.t -> bool := fun _ => false.

Definition series_of (a : list Q) : Series := imap (fun i v => (i, Fin v)) a.

(** Eleven values, the last one far from the others. *)
Definition spread_values : list Q := [1; -1; 0; 0; 0; 0; 0; 0; 0; 0; 5]%Q.

(** Ten values, the first one missing. *)
Definition gappy_series : Series :=
  imap (fun i v => (i, v))
    [NaN; Fin 2; Fin 3; Fin 4; Fin 5; Fin 6; Fin 7; Fin 8; Fin 9; Fin 10].

(** Ten days of a flat temperature against a rising price. *)
Definition flat_values : list Q := [20; 20; 20; 20; 20; 20; 20; 20; 20; 20]%Q.
Definition rising_values : list Q := [1; 2; 3; 4; 5; 6; 7; 8; 9; 10]%Q.

(** ** Notions used in further properties *)

(** Two rows of a frame in the order of their labels and of their
    timestamps. *)
Definition in_order (r1 r2 : nat * AlignedRow) : Prop :=
  (r1.1 < r2.1)%nat /\ timestamp r1.2 <= timestamp r2.2.

(** ** The market model: what [models/stock.py] adds *)

(** [StockData.daily_change_percent] (lines 70-74):
    [((float(close) - float(open)) / float(open)) * 100], each conversion
    and each operation rounded. *)
Definition daily_change_percent (fl : Q -> Q) (s : StockData.t) : Q :=
  match StockData.open_price s, StockData.close_price s with
  | Some o, Some c =>
      if truthy (Some o) && truthy (Some c) && Qlt_bool 0 o
      then fl (fl (fl (fl c - fl o) / fl o) * 100)%Q else 0%Q
  | _, _ => 0%Q
  end.

(** A value of a [Numeric(12, 4)] column: a multiple of 0.0001 of at most 12
    digits. *)
Definition numeric_12_4 (q : Q) : Prop :=
  exists n : Z, (q == inject_Z n / 10000)%Q /\ Z.abs n < 10 ^ 12.

(** The four prices of a stored row are such values. *)
Definition stock_columns_ok (s : StockData.t) : Prop :=
  from_option numeric_12_4 False (StockData.open_price s)
  /\ from_option numeric_12_4 False (StockData.close_price s)
  /\ from_option numeric_12_4 False (StockData.high_price s)
  /\ from_option numeric_12_4 False (StockData.low_price s).

(** The constraints of the [stock_data] table: no column is null
    ([nullable=False]) and the CHECK constraints of [__table_args__] hold. *)
Definition stock_table_args_ok (s : StockData.t) : bool :=
  match StockData.open_price s, StockData.close_price s,
        StockData.high_price s, StockData.low_price s, StockData.volume s with
  | Some o, Some c, Some h, Some l, Some v =>
      Qlt_bool 0 o && Qlt_bool 0 c && Qlt_bool 0 h && Qlt_bool 0 l
      && (0 <=? v)
      && Qle_bool l o && Qle_bool l c && Qle_bool o h && Qle_bool c h
  | _, _, _, _, _ => false
  end.

(** ** The rule-based insight of [services/ai_insights.py] *)

(** The dictionary read by [_generate_fallback_insight]; [None] is an absent
    key, for which [data.get] supplies a default. *)
Record InsightData : Type := mkInsightData {
  d_correlation_value : option pyfloat;
  d_p_value : option pyfloat;
  d_sample_size : option nat;
  d_city : option string;
  d_symbol : option string;
  d_weather_variable : option string;
  d_stock_variable : option string
}.

(** The four texts returned, each as the template chosen and the values
    interpolated in it; the rendering of numbers is not modelled. *)
Inductive StatisticalText : Type :=
  | Statistical (strength direction : string) (r : pyfloat)
                (weather_var city symbol stock_var : string)
                (sample_size : nat) (significant : bool) (p : pyfloat).

Inductive ExplanationsText : Type :=
  | SeveralFactors (weather_var symbol city : string)
  | MinimalImpact (weather_var symbol : string).

Inductive ImplicationsText : Type :=
  | NoteRelationship (abs_corr variance_percent : pyfloat)
  | NoInfluence (non_significant : bool) (symbol : string).

Inductive RecommendationsText : Type :=
  | FollowUp (symbol : string).

Record Insight : Type := mkInsight {
  statistical : StatisticalText;
  explanations : ExplanationsText;
  implications : ImplicationsText;
  recommendations : RecommendationsText
}.

Definition flt_mul (a b : pyfloat) : pyfloat :=
  match a, b with
  | Fin x, Fin y => Fin (x * y)
  | _, _ => NaN
  end.

(** [AIInsightsService._generate_fallback_insight] (lines 182-240). *)
Definition generate_fallback_insight (data : InsightData) : Insight :=
  let correlation_value := default (Fin 0) (d_correlation_value data) in
  let p_value := default (Fin 1) (d_p_value data) in
  let sample_size := default 0%nat (d_sample_size data) in
  let city := default "Unknown" (d_city data) in
  let symbol := default "Unknown" (d_symbol data) in
  let weather_var := default "temperature" (d_weather_variable data) in
  let stock_var := default "close_price" (d_stock_variable data) in
  let abs_corr := flt_abs correlation_value in
  let strength :=
    if flt_gt abs_corr (Fin (7 # 10)) then "strong"
    else if flt_gt abs_corr (Fin (4 # 10)) then "moderate"
    else if flt_gt abs_corr (Fin (2 # 10)) then "weak"
    else "very weak" in
  let direction :=
    if flt_gt correlation_value (Fin 0) then "positive" else "negative" in
  let significant := flt_lt p_value (Fin (5 # 100)) in
  {| statistical :=
       Statistical strength direction correlation_value weather_var city symbol
                   stock_var sample_size significant p_value;
     explanations :=
       if flt_gt abs_corr (Fin (3 # 10))
       then SeveralFactors weather_var symbol city
       else MinimalImpact weather_var symbol;
     implications :=
       if significant && flt_gt abs_corr (Fin (4 # 10))
       then NoteRelationship abs_corr
              (flt_mul (flt_mul abs_corr abs_corr) (Fin 100))
       else NoInfluence (negb significant) symbol;
     recommendations := FollowUp symbol |}.

(** The strength and the direction written in the statistical text. *)
Definition stated_strength (t : StatisticalText) : string :=
  match t with Statistical strength _ _ _ _ _ _ _ _ _ => strength end.

Definition stated_direction (t : StatisticalText) : string :=
  match t with Statistical _ direction _ _ _ _ _ _ _ _ => direction end.

(** ** The MCP client of [services/mcp_client.py] *)

Module MCPClient.

(** An entry of [mcpServers] that has its command. *)
Record ServerConfig : Type := mkServerConfig {
  command : string;
  args : list string
}.

(** The mutable part of the client, [retry_count], with two counters that
    record its effects: the seconds spent in [time.sleep] and the number of
    calls of [subprocess.run] so far. *)
Record State : Type := mkState {
  retry_count : nat;
  clock : nat;
  commands : nat
}.

Definition max_retries : nat := 3.

(** The seconds slept by [k] retries in a row that start with the counter at
    [c]: [2 ** (c + 1) + ... + 2 ** (c + k)]. *)
Fixpoint backoff (c k : nat) : nat :=
  match k with
  | O => 0
  | S k' => 2 ^ S c + backoff (S c) k'
  end.

(** The exceptions that leave [get_weather_data] and [get_stock_data]: they
    are raised outside the [try] of [_execute_mcp_command]. *)
Inductive Error : Type :=
  | AttributeError
  | TypeError.

(** What a call gives: the value it returns, or the exception it raises. *)
Inductive Outcome (V : Type) : Type :=
  | Return (data : option V)
  | Raise (e : Error).

(** The [result] member of a reply: a JSON object, or another JSON value (a
    string, a number, a boolean or an array), of which only the truth value
    matters. *)
Inductive Result (V : Type) : Type :=
  | Object (members : gmap string V)
  | Value (truth : bool).

Arguments Return {V} data.
Arguments Raise {V} e.
Arguments Object {V} members.
Arguments Value {V} truth.

Section Client.

(** The JSON values of the members of a result, of which [empty_list] is
    [[]]; [sized v] tells whether [len(v)] is defined: for a string, an
    array and an object, not for a number, a boolean or [null]. *)
Variable V : Type.
Variable empty_list : V.
Variable sized : V -> bool.

(** [self.config['mcpServers']]. *)
Variable config : gmap string ServerConfig.

(** The world: the [result] member in the reply of the [n]-th subprocess
    started, for the server, method and parameters it is given; [None] when
    the process cannot be started, fails, times out, prints no JSON object,
    or one without [result] or with [null] for it. *)
Variable run :
  nat -> ServerConfig -> string -> list (string * string) -> option (Result V).

Variable isoformat : Z -> string.

(** [MCPClient._get_server_config] (lines 45-48). *)
Definition get_server_config (server_name : string) : option ServerConfig :=
  config !! server_name.

(** [MCPClient._execute_mcp_command] (lines 50-112): without a configuration
    for the server no subprocess is started. *)
Definition execute_mcp_command (server_name method : string)
    (params : list (string * string)) (st : State)
    : option (Result V) * State :=
  match get_server_config server_name with
  | None => (None, st)
  | Some server_config =>
      (run (commands st) server_config method params,
       mkState (retry_count st) (clock st) (S (commands st)))
  end.

(** [if result]: the result when it is true, that is an object with at least
    one member or another value that is true. *)
Definition usable (result : option (Result V)) : option (Result V) :=
  match result with
  | Some (Object r) => if (size r =? 0)%nat then None else Some (Object r)
  | Some (Value true) => Some (Value true)
  | Some (Value false) => None
  | None => None
  end.

(** The two lines under [if result] (lines 141-143): [result.get('data', [])]
    is evaluated for the log line, under [len], and again for the value
    returned.  A result that is not an object has no [get]; a [data] member
    that is a number, a boolean or [null] has no [len]. *)
Definition deliver (result : Result V) : Outcome V :=
  match result with
  | Object r =>
      match r !! "data" with
      | None => Return (Some empty_list)
      | Some data => if sized data then Return (Some data) else Raise TypeError
      end
  | Value _ => Raise AttributeError
  end.

(** The body shared by [get_weather_data] and [get_stock_data] (lines
    133-153 and 174-194): one attempt, then either the data, or a retry
    after a sleep of [2 ** retry_count] seconds, or the reset of the counter
    and [None].  [fuel] bounds the depth of the recursive calls; the outer
    [None] is its exhaustion. *)
Fixpoint get_data (fuel : nat) (server_name method : string)
    (params : list (string * string)) (st : State) : option (Outcome V * State) :=
  match fuel with
  | O => None
  | S fuel' =>
      let '(result, st1) := execute_mcp_command server_name method params st in
      match usable result with
      | Some r => Some (deliver r, st1)
      | None =>
          if (retry_count st1 <? max_retries)%nat then
            let count := S (retry_count st1) in
            get_data fuel' server_name method params
              (mkState count (clock st1 + 2 ^ count) (commands st1))
          else
            Some (Return None, mkState 0 (clock st1) (commands st1))
      end
  end.

(** [MCPClient.get_weather_data] (lines 114-153). *)
Definition get_weather_data (city : string) (start_date end_date : Z)
    (st : State) : option (Outcome V * State) :=
  get_data (S max_retries) "weather" "get_weather"
    [("city", city); ("start_date", isoformat start_date);
     ("end_date", isoformat end_date)] st.

(** [MCPClient.get_stock_data] (lines 155-194). *)
Definition get_stock_data (symbol : string) (start_date end_date : Z)
    (st : State) : option (Outcome V * State) :=
  get_data (S max_retries) "stock" "get_stock"
    [("symbol", upper symbol); ("start_date", isoformat start_date);
     ("end_date", isoformat end_date)] st.

End Client.

End MCPClient.

(** ** Sample servers *)

Definition sample_server : MCPClient.ServerConfig :=
  MCPClient.mkServerConfig "uvx" ["mcp-server"].

Definition sample_config : gmap string MCPClient.ServerConfig :=
  {[ "weather" := sample_server; "stock" := sample_server ]}.

(** JSON values cut down to what the samples need: numbers, without a
    length, and arrays of numbers. *)
Inductive SampleValue : Type :=
  | Number (n : nat)
  | Array (items : list nat).

Definition sample_sized (v : SampleValue) : bool :=
  match v with Number _ => false | Array _ => true end.

(** A world in which the fourth subprocess is the only one to answer, with
    one data point. *)
Definition sample_reply : gmap string SampleValue := {[ "data" := Array [7%nat] ]}.

Definition flaky_run (n : nat) (server : MCPClient.ServerConfig) (method : string)
    (params : list (string * string)) : option (MCPClient.Result SampleValue) :=
  if (n =? 3)%nat then Some (MCPClient.Object sample_reply) else None.

(** A world in which every subprocess answers with a number for [data]. *)
Definition count_run (n : nat) (server : MCPClient.ServerConfig) (method : string)
    (params : list (string * string)) : option (MCPClient.Result SampleValue) :=
  Some (MCPClient.Object {[ "data" := Number 7 ]}).

Definition plain_isoformat (t : Z) : string := "2024-01-01T00:00:00".

Definition fresh_client : MCPClient.State := MCPClient.mkState 0 0 0.

(** ** Fetching and validating: [services/direct_api_client.py] and
    [services/data_service.py] *)

(** A weather data point as a dictionary; [None] is an absent key.  The
    numeric members are numbers, and [timestamp] stands for the time that
    its ISO string denotes: [datetime.fromisoformat] inverts
    [datetime.isoformat]. *)
Record WeatherItem : Type := mkWeatherItem {
  i_timestamp : option Z;
  i_temperature : option Q;
  i_humidity : option Z;
  i_precipitation : option Q;
  i_wind_speed : option Q;
  i_condition : option string
}.

(** A market data point as a dictionary. *)
Record StockItem : Type := mkStockItem {
  k_timestamp : option Z;
  k_open_price : option Q;
  k_close_price : option Q;
  k_high_price : option Q;
  k_low_price : option Q;
  k_volume : option Z
}.

Module DirectAPIClient.

(** The members of the OpenWeatherMap reply that [get_weather_data] reads:
    [main.temp], [main.humidity], [rain.1h] when present, [wind.speed] and
    [weather[0].main]. *)
Record CurrentWeather : Type := mkCurrentWeather {
  main_temp : Q;
  main_humidity : Z;
  rain_1h : option Q;
  wind_speed : Q;
  weather_main : string
}.

(** [(i % 7 - 3) * 2] (line 60). *)
Definition temp_variation (i : Z) : Z := (i mod 7 - 3) * 2.

(** The dictionary appended for day [i] (lines 58-69).  The temperature is
    a sum of floats and the wind speed a product by the float [3.6]: both
    are rounded, as is the literal. *)
Definition weather_record (fl : Q -> Q) (data : CurrentWeather) (start_date i : Z)
    : WeatherItem :=
  {| i_timestamp := Some (start_date + i * 86400);
     i_temperature := Some (fl (main_temp data + inject_Z (temp_variation i)))%Q;
     i_humidity := Some (main_humidity data);
     i_precipitation := Some (default 0%Q (rain_1h data));
     i_wind_speed := Some (fl (wind_speed data * fl (36 # 10)))%Q;
     i_condition := Some (weather_main data) |}.

(** [range(n)] for an integer [n]: empty when [n <= 0]. *)
Definition range (n : Z) : list Z := Z.of_nat <$> seq 0 (Z.to_nat n).

(** [DirectAPIClient.get_weather_data] (lines 28-79).  [requests_get city
    key] is the reply to the request, [None] when the request fails or the
    reply lacks one of the members read, which the function catches. *)
Definition get_weather_data (fl : Q -> Q) (weather_api_key : option string)
    (requests_get : string -> string -> option CurrentWeather)
    (city : string) (start_date end_date : Z) : list WeatherItem :=
  match weather_api_key with
  | None => []
  | Some key =>
      if String.eqb key "" then []
      else
        match requests_get city key with
        | None => []
        | Some data =>
            let days := days (end_date - start_date) in
            weather_record fl data start_date <$> range (Z.min days 30)
        end
  end.

End DirectAPIClient.

Module DataService.

(** [DataService._validate_weather_data] (lines 87-109). *)
Definition validate_weather_data (data : WeatherItem) : bool :=
  match i_timestamp data, i_temperature data, i_humidity data,
        i_wind_speed data, i_condition data with
  | Some _, Some temperature, Some humidity, Some wind_speed, Some _ =>
      if negb (Qle_bool (-100) temperature && Qle_bool temperature 60) then false
      else if negb ((0 <=? humidity) && (humidity <=? 100)) then false
      else if negb (Qle_bool 0 wind_speed && Qle_bool wind_speed 200) then false
      else true
  | _, _, _, _, _ => false
  end.

(** [DataService._validate_stock_data] (lines 111-133). *)
Definition validate_stock_data (data : StockItem) : bool :=
  match k_timestamp data, k_open_price data, k_close_price data,
        k_high_price data, k_low_price data, k_volume data with
  | Some _, Some open_price, Some close_price, Some high_price, Some low_price,
    Some volume =>
      if negb (Qle_bool low_price open_price && Qle_bool open_price high_price)
      then false
      else if negb (Qle_bool low_price close_price && Qle_bool close_price high_price)
      then false
      else if volume <? 0 then false
      else true
  | _, _, _, _, _, _ => false
  end.

(** The record created in [fetch_and_store_weather] (lines 189-197); [None]
    is the [KeyError] of a member that is read and absent. *)
Definition new_weather (city : string) (item : WeatherItem) : option WeatherData.t :=
  match i_timestamp item, i_temperature item, i_humidity item,
        i_wind_speed item, i_condition item with
  | Some timestamp, Some temperature, Some humidity, Some wind_speed, Some condition =>
      Some (WeatherData.mk timestamp city (Some temperature) (Some humidity)
              (Some (default 0%Q (i_precipitation item))) (Some wind_speed)
              condition)
  | _, _, _, _, _ => None
  end.

(** The record created in [fetch_and_store_stock] (lines 274-282). *)
Definition new_stock (symbol : string) (item : StockItem) : option StockData.t :=
  match k_timestamp item, k_open_price item, k_close_price item,
        k_high_price item, k_low_price item, k_volume item with
  | Some timestamp, Some open_price, Some close_price, Some high_price,
    Some low_price, Some volume =>
      Some (StockData.mk timestamp symbol (Some open_price) (Some close_price)
              (Some high_price) (Some low_price) (Some volume))
  | _, _, _, _, _, _ => None
  end.

End DataService.

(** The constraints of the [weather_data] table: [temperature], [humidity]
    and [wind_speed] are not null, and the CHECK constraints of
    [__table_args__] hold, which a null [precipitation] satisfies. *)
Definition weather_table_args_ok (w : WeatherData.t) : bool :=
  match WeatherData.temperature w, WeatherData.humidity w,
        WeatherData.wind_speed w with
  | Some _, Some humidity, Some wind_speed =>
      (0 <=? humidity) && (humidity <=? 100)
      && from_option (Qle_bool 0) true (WeatherData.precipitation w)
      && Qle_bool 0 wind_speed
  | _, _, _ => false
  end.

(** ** Sample replies *)

Definition sample_current : DirectAPIClient.CurrentWeather :=
  DirectAPIClient.mkCurrentWeather (185 # 10) 62 None (5 # 1) "Clouds".

Definition sample_requests_get (city key : string)
    : option DirectAPIClient.CurrentWeather :=
  Some sample_current.

Definition sample_weather_item : WeatherItem :=
  mkWeatherItem (Some 0) (Some (185 # 10)) (Some 62) (Some (-(1 # 2))%Q)
    (Some 18%Q) (Some "Clouds").

Definition sample_stock_item : StockItem :=
  mkStockItem (Some 0) (Some 0%Q) (Some 0%Q) (Some 1%Q) (Some 0%Q) (Some 10).

(** * Properties *)

(** ** Comparisons of rationals and floats *)

Lemma Qlt_bool_iff (x y : Q) : Qlt_bool x y = true <-> (x < y)%Q.
Proof.
  unfold Qlt_bool. rewrite negb_true_iff. split.
  - intros H. apply Qnot_le_lt. intros Hle.
    apply Qle_bool_iff in Hle. congruence.
  - intros H. destruct (Qle_bool y x) eqn:E; [|reflexivity].
    apply Qle_bool_iff in E. exfalso. exact (Qlt_not_le _ _ H E).
Qed.

Lemma Qlt_bool_false_iff (x y : Q) : Qlt_bool x y = false <-> (y <= x)%Q.
Proof.
  unfold Qlt_bool. rewrite negb_false_iff. apply Qle_bool_iff.
Qed.

Lemma Qle_bool_false_iff (x y : Q) : Qle_bool x y = false <-> (y < x)%Q.
Proof.
  rewrite <- Qlt_bool_iff. unfold Qlt_bool.
  destruct (Qle_bool x y); simpl; split; congruence.
Qed.

Lemma flt_lt_Fin (x y : Q) : flt_lt (Fin x) (Fin y) = true <-> (x < y)%Q.
Proof. apply Qlt_bool_iff. Qed.

Lemma flt_ge_Fin (x y : Q) : flt_ge (Fin x) (Fin y) = true <-> (y <= x)%Q.
Proof. apply Qle_bool_iff. Qed.

(** Turns every boolean comparison of rationals in the goal into a case
    distinction on the order of the two sides. *)
Ltac case_order :=
  repeat match goal with
    | |- context [Qle_bool ?a ?b] =>
        let E := fresh "E" in
        destruct (Qle_bool a b) eqn:E;
        [apply Qle_bool_iff in E | apply Qle_bool_false_iff in E]
    end.

(** ** Insight generator *)

Lemma strength_of_buckets (r : Q) :
  ((7 # 10 <= Qabs r)%Q -> strength_of (Fin r) = "strong")
  /\ ((4 # 10 <= Qabs r)%Q /\ (Qabs r < 7 # 10)%Q -> strength_of (Fin r) = "moderate")
  /\ ((2 # 10 <= Qabs r)%Q /\ (Qabs r < 4 # 10)%Q -> strength_of (Fin r) = "weak")
  /\ ((Qabs r < 2 # 10)%Q -> strength_of (Fin r) = "very weak").
Proof.
  unfold strength_of, flt_ge, flt_abs.
  repeat split; intros H; case_order; try reflexivity; exfalso; lra.
Qed.

Lemma direction_of_buckets (r : Q) :
  ((5 # 100 < r)%Q -> direction_of (Fin r) = ("positive", "increases with"))
  /\ ((r < -(5 # 100))%Q -> direction_of (Fin r) = ("negative", "decreases with"))
  /\ ((-(5 # 100) <= r)%Q /\ (r <= 5 # 100)%Q ->
      direction_of (Fin r) = ("negligible", "shows no clear relationship with")).
Proof.
  unfold direction_of, flt_gt, flt_lt, Qlt_bool.
  repeat split; intros H; case_order; try reflexivity; exfalso; simpl in *; lra.
Qed.

Lemma significance_of_buckets (p : Q) :
  ((p < 1 # 1000)%Q -> significance_of (Fin p) = "very highly significant")
  /\ ((1 # 1000 <= p)%Q /\ (p < 1 # 100)%Q -> significance_of (Fin p) = "highly significant")
  /\ ((1 # 100 <= p)%Q /\ (p < 5 # 100)%Q -> significance_of (Fin p) = "significant")
  /\ ((5 # 100 <= p)%Q /\ (p < 1 # 10)%Q -> significance_of (Fin p) = "marginally significant")
  /\ ((1 # 10 <= p)%Q -> significance_of (Fin p) = "not statistically significant").
Proof.
  unfold significance_of, flt_lt, Qlt_bool.
  repeat split; intros H; case_order; try reflexivity; exfalso; simpl in *; lra.
Qed.

Lemma significance_category_buckets (p : Q) :
  let category := CorrelationResult.get_significance_category (Some (Fin p)) in
  ((p < 1 # 1000)%Q -> category = "very_high")
  /\ ((1 # 1000 <= p)%Q /\ (p < 1 # 100)%Q -> category = "high")
  /\ ((1 # 100 <= p)%Q /\ (p < 5 # 100)%Q -> category = "medium")
  /\ ((5 # 100 <= p)%Q /\ (p < 1 # 10)%Q -> category = "low")
  /\ ((1 # 10 <= p)%Q -> category = "none").
Proof.
  unfold CorrelationResult.get_significance_category, flt_lt, Qlt_bool.
  repeat split; intros H; case_order; try reflexivity; exfalso; simpl in *; lra.
Qed.

(** C8.  The narrative of [generate_insights] opens with a sentence carrying
    a strength and a direction that are functions of r alone, followed by a
    sentence carrying a significance that is a function of p alone.  The
    strength is "strong" for |r| >= 0.7, "moderate" for 0.4 <= |r| < 0.7,
    "weak" for 0.2 <= |r| < 0.4 and "very weak" below; the direction is
    positive for r > 0.05, negative for r < -0.05 and negligible in between;
    the significance falls in the buckets p < 0.001, p < 0.01, p < 0.05,
    p < 0.1 and the rest, in the narrative and in
    [get_significance_category] alike.  A NaN falls in the last bucket of
    each classification. *)
Theorem insight_classification (r p : Q) (wv sv : string) (n a : nat) :
  (exists rest,
     generate_insights (Fin r) (Fin p) wv sv n a =
       Summary n (strength_of (Fin r)) (direction_of (Fin r)).1 (Fin r) wv sv
       :: Relationship sv (direction_of (Fin r)).2 wv (significance_of (Fin p)) (Fin p)
       :: rest)
  /\ (((7 # 10 <= Qabs r)%Q -> strength_of (Fin r) = "strong")
      /\ ((4 # 10 <= Qabs r)%Q /\ (Qabs r < 7 # 10)%Q -> strength_of (Fin r) = "moderate")
      /\ ((2 # 10 <= Qabs r)%Q /\ (Qabs r < 4 # 10)%Q -> strength_of (Fin r) = "weak")
      /\ ((Qabs r < 2 # 10)%Q -> strength_of (Fin r) = "very weak"))
  /\ (((5 # 100 < r)%Q -> (direction_of (Fin r)).1 = "positive")
      /\ ((r < -(5 # 100))%Q -> (direction_of (Fin r)).1 = "negative")
      /\ ((-(5 # 100) <= r)%Q /\ (r <= 5 # 100)%Q ->
          (direction_of (Fin r)).1 = "negligible"))
  /\ (((p < 1 # 1000)%Q ->
       significance_of (Fin p) = "very highly significant"
       /\ CorrelationResult.get_significance_category (Some (Fin p)) = "very_high")
      /\ ((1 # 1000 <= p)%Q /\ (p < 1 # 100)%Q ->
          significance_of (Fin p) = "highly significant"
          /\ CorrelationResult.get_significance_category (Some (Fin p)) = "high")
      /\ ((1 # 100 <= p)%Q /\ (p < 5 # 100)%Q ->
          significance_of (Fin p) = "significant"
          /\ CorrelationResult.get_significance_category (Some (Fin p)) = "medium")
      /\ ((5 # 100 <= p)%Q /\ (p < 1 # 10)%Q ->
          significance_of (Fin p) = "marginally significant"
          /\ CorrelationResult.get_significance_category (Some (Fin p)) = "low")
      /\ ((1 # 10 <= p)%Q ->
          significance_of (Fin p) = "not statistically significant"
          /\ CorrelationResult.get_significance_category (Some (Fin p)) = "none"))
  /\ (strength_of NaN = "very weak"
      /\ (direction_of NaN).1 = "negligible"
      /\ significance_of NaN = "not statistically significant"
      /\ CorrelationResult.get_significance_category (Some NaN) = "none").
Proof.
  split; [|split; [|split; [|split]]]; [| | | |repeat split].
  - unfold generate_insights.
    destruct (direction_of (Fin r)) as [direction relationship].
    eexists. reflexivity.
  - apply strength_of_buckets.
  - destruct (direction_of_buckets r) as (Hpos & Hneg & Hmid).
    repeat split; intros H;
      [rewrite Hpos | rewrite Hneg | rewrite Hmid]; auto.
  - destruct (significance_of_buckets p) as (H1 & H2 & H3 & H4 & H5).
    destruct (significance_category_buckets p) as (K1 & K2 & K3 & K4 & K5).
    repeat split; auto.
Qed.

(** ** Correlation calculator *)

Section Calculator.

Variable pearson_statistic : list Q -> list Q -> Q.
Variable pearson_pvalue : list Q -> list Q -> Q.

Abbreviation mask x y := (zip_with (fun a b => negb (isna a.2 || isna b.2)) x y).

Lemma boolean_index_paired_l (x y : Series) :
  boolean_index x (mask x y) = (paired x y).*1.
Proof.
  unfold paired. revert y.
  induction x as [|a x IH]; intros [|b y]; simpl; try reflexivity.
  rewrite filter_cons. case_decide as Hd.
  - destruct Hd as [Ha Hb]. simpl in Ha, Hb. rewrite Ha, Hb. simpl.
    now rewrite IH.
  - rewrite IH.
    destruct (isna a.2) eqn:Ea, (isna b.2) eqn:Eb; simpl; try reflexivity.
    exfalso. apply Hd. split; assumption.
Qed.

Lemma boolean_index_paired_r (x y : Series) :
  boolean_index y (mask x y) = (paired x y).*2.
Proof.
  unfold paired. revert y.
  induction x as [|a x IH]; intros [|b y]; simpl; try reflexivity.
  rewrite filter_cons. case_decide as Hd.
  - destruct Hd as [Ha Hb]. simpl in Ha, Hb. rewrite Ha, Hb. simpl.
    now rewrite IH.
  - rewrite IH.
    destruct (isna a.2) eqn:Ea, (isna b.2) eqn:Eb; simpl; try reflexivity.
    exfalso. apply Hd. split; assumption.
Qed.

Lemma length_dropna_present (s : Series) :
  Forall (fun e => isna e.2 = false) s -> length (dropna s) = length s.
Proof.
  induction 1 as [|[i v] s Hv _ IH]; [reflexivity|].
  simpl in Hv. destruct v; [discriminate|].
  change (dropna ((i, Fin q) :: s)) with ((i, q) :: dropna s).
  simpl. now rewrite IH.
Qed.

Lemma paired_present_l (x y : Series) :
  Forall (fun e => isna e.2 = false) (paired x y).*1.
Proof.
  apply Forall_fmap, Forall_forall. intros e He.
  apply list_elem_of_filter in He. exact (proj1 (proj1 He)).
Qed.

Lemma paired_present_r (x y : Series) :
  Forall (fun e => isna e.2 = false) (paired x y).*2.
Proof.
  apply Forall_fmap, Forall_forall. intros e He.
  apply list_elem_of_filter in He. exact (proj2 (proj1 He)).
Qed.


(** C4.  [calculate_correlation] returns exactly (0.0, 1.0) as soon as one
    of the two series has fewer than 10 values, or fewer than 10 pairs are
    left once every index where either value is missing has been removed
    from both. *)
Theorem calculate_correlation_insufficient (x y : Series) :
  (length x < 10)%nat \/ (length y < 10)%nat \/ (length (paired x y) < 10)%nat ->
  calculate_correlation pearson_statistic pearson_pvalue x y = (Fin 0, Fin 1).
Proof.
  intros H. unfold calculate_correlation, min_sample_size.
  destruct (length x <? 10)%nat eqn:Ex; [reflexivity|].
  destruct (length y <? 10)%nat eqn:Ey; [reflexivity|].
  apply Nat.ltb_ge in Ex, Ey. simpl.
  rewrite boolean_index_paired_l, length_fmap.
  destruct H as [H|[H|H]]; try lia.
  apply Nat.ltb_lt in H. now rewrite H.
Qed.

(** C3, on the code.  With at least 10 pairs left, a constant series on
    either side makes [calculate_correlation] return (NaN, NaN) and not
    (0.0, 1.0): scipy warns and returns NaN, nothing is raised, and the
    [except] branch is not taken. *)
Theorem calculate_correlation_constant (x y : Series) :
  (10 <= length x)%nat -> (10 <= length y)%nat ->
  (10 <= length (paired x y))%nat ->
  is_constant (clean_x x y) = true \/ is_constant (clean_y x y) = true ->
  calculate_correlation pearson_statistic pearson_pvalue x y = (NaN, NaN).
Proof.
  intros Hx Hy Hp Hc. unfold clean_x, clean_y in Hc.
  unfold calculate_correlation, min_sample_size.
  apply Nat.ltb_ge in Hx, Hy. rewrite Hx, Hy. simpl.
  rewrite boolean_index_paired_l, boolean_index_paired_r, length_fmap.
  apply Nat.ltb_ge in Hp. rewrite Hp. apply Nat.ltb_ge in Hp.
  unfold pearsonr. rewrite !length_fmap.
  rewrite (length_dropna_present _ (paired_present_l x y)).
  rewrite (length_dropna_present _ (paired_present_r x y)).
  rewrite !length_fmap, Nat.eqb_refl. simpl.
  destruct (length (paired x y) <? 2)%nat eqn:E2;
    [apply Nat.ltb_lt in E2; lia|].
  destruct Hc as [Hc|Hc]; rewrite Hc; [reflexivity|].
  now rewrite orb_true_r.
Qed.

End Calculator.

(** Ten values against ten, the first pair with a missing value: nine pairs
    are left. *)
Lemma calculate_correlation_insufficient_witness :
  (length (paired gappy_series (series_of rising_values)) < 10)%nat
  /\ calculate_correlation unused_statistic unused_statistic
       gappy_series (series_of rising_values) = (Fin 0, Fin 1).
Proof.
  assert (H : (length (paired gappy_series (series_of rising_values)) < 10)%nat)
    by (vm_compute; lia).
  split; [exact H|].
  apply calculate_correlation_insufficient. right. right. exact H.
Defined.

(** A flat temperature over ten days against a rising price. *)
Lemma calculate_correlation_constant_witness :
  calculate_correlation unused_statistic unused_statistic
    (series_of flat_values) (series_of rising_values) = (NaN, NaN).
Proof.
  apply calculate_correlation_constant.
  - vm_compute. lia.
  - vm_compute. lia.
  - vm_compute. lia.
  - left. vm_compute. reflexivity.
Defined.

(** ** Sorting by timestamp *)

Section SortIndex.

Context {A : Type} (key : A -> Z).

Lemma insert_sorted_elem_of (x y : A) (l : list A) :
  y ∈ insert_sorted key x l <-> y = x \/ y ∈ l.
Proof.
  induction l as [|z l IH]; simpl.
  - rewrite list_elem_of_singleton, elem_of_nil. tauto.
  - destruct (key x <=? key z); rewrite !elem_of_cons; [tauto|].
    rewrite IH. tauto.
Qed.

Lemma sort_index_elem_of (y : A) (l : list A) :
  y ∈ sort_index key l <-> y ∈ l.
Proof.
  induction l as [|x l IH]; simpl; [reflexivity|].
  rewrite insert_sorted_elem_of, IH, elem_of_cons. tauto.
Qed.

Lemma insert_sorted_sorted (x : A) (l : list A) :
  StronglySorted (key_le key) l -> StronglySorted (key_le key) (insert_sorted key x l).
Proof.
  induction 1 as [|z l Hl IH Hz]; simpl.
  - repeat constructor.
  - destruct (key x <=? key z) eqn:E.
    + apply Z.leb_le in E. constructor; [now constructor|].
      constructor; [exact E|].
      eapply Forall_impl; [exact Hz|]. unfold key_le. intros; lia.
    + apply Z.leb_gt in E. constructor; [exact IH|].
      apply Forall_forall. intros y Hy.
      apply insert_sorted_elem_of in Hy. destruct Hy as [->|Hy].
      * unfold key_le. lia.
      * rewrite Forall_forall in Hz. now apply Hz.
Qed.

Lemma sort_index_sorted (l : list A) : StronglySorted (key_le key) (sort_index key l).
Proof.
  induction l as [|x l IH]; simpl; [constructor|].
  now apply insert_sorted_sorted.
Qed.




End SortIndex.



(** ** The as-of merge *)

Section Asof.

Context {A : Type} (key : A -> Z).

Lemma last_filter_sorted (P : A -> Prop) `{!forall a, Decision (P a)} (l : list A) :
  StronglySorted (key_le key) l ->
  match last (filter P l) with
  | Some b => b ∈ l /\ P b /\ forall s, s ∈ l -> P s -> key s <= key b
  | None => forall s, s ∈ l -> ~ P s
  end.
Proof.
  induction 1 as [|z l Hl IH Hz]; simpl.
  - intros s Hs. now apply elem_of_nil in Hs.
  - rewrite Forall_forall in Hz. rewrite filter_cons.
    destruct (decide (P z)) as [Pz|Pz].
    + rewrite last_cons. destruct (last (filter P l)) as [b|].
      * destruct IH as (Hb & Pb & Hmax). repeat split; [set_solver|exact Pb|].
        intros s Hs Ps. apply elem_of_cons in Hs. destruct Hs as [->|Hs].
        -- now apply Hz.
        -- now apply Hmax.
      * repeat split; [set_solver|exact Pz|].
        intros s Hs Ps. apply elem_of_cons in Hs. destruct Hs as [->|Hs]; [lia|].
        now destruct (IH s Hs).
    + destruct (last (filter P l)) as [b|].
      * destruct IH as (Hb & Pb & Hmax). repeat split; [set_solver|exact Pb|].
        intros s Hs Ps. apply elem_of_cons in Hs. destruct Hs as [->|Hs]; [done|].
        now apply Hmax.
      * intros s Hs. apply elem_of_cons in Hs. destruct Hs as [->|Hs]; [done|].
        now apply IH.
Qed.

Lemma head_filter_sorted (P : A -> Prop) `{!forall a, Decision (P a)} (l : list A) :
  StronglySorted (key_le key) l ->
  match head (filter P l) with
  | Some f => f ∈ l /\ P f /\ forall s, s ∈ l -> P s -> key f <= key s
  | None => forall s, s ∈ l -> ~ P s
  end.
Proof.
  induction 1 as [|z l Hl IH Hz]; simpl.
  - intros s Hs. now apply elem_of_nil in Hs.
  - rewrite Forall_forall in Hz. rewrite filter_cons.
    destruct (decide (P z)) as [Pz|Pz]; simpl.
    + repeat split; [set_solver|exact Pz|].
      intros s Hs Ps. apply elem_of_cons in Hs. destruct Hs as [->|Hs]; [lia|].
      now apply Hz.
    + destruct (head (filter P l)) as [f|].
      * destruct IH as (Hf & Pf & Hmin). repeat split; [set_solver|exact Pf|].
        intros s Hs Ps. apply elem_of_cons in Hs. destruct Hs as [->|Hs]; [done|].
        now apply Hmin.
      * intros s Hs. apply elem_of_cons in Hs. destruct Hs as [->|Hs]; [done|].
        now apply IH.
Qed.

End Asof.

(** The partner chosen by the nearest-direction merge on a sorted right
    frame: a row of the frame, within the tolerance, no further from [t]
    than any other row, and the earlier one of two equally near rows; no
    partner exactly when every row is beyond the tolerance. *)
Lemma asof_nearest_spec (right : list StockRow) (t : Z) :
  StronglySorted (key_le s_timestamp) right ->
  match asof_nearest right t with
  | Some s =>
      s ∈ right /\ gap s t <= tolerance
      /\ forall s', s' ∈ right ->
           gap s t <= gap s' t
           /\ (gap s' t = gap s t -> s_timestamp s <= s_timestamp s')
  | None => forall s', s' ∈ right -> tolerance < gap s' t
  end.
Proof.
  intros Hsorted.
  pose proof (last_filter_sorted s_timestamp (fun s => s_timestamp s <= t) right Hsorted) as HB.
  pose proof (head_filter_sorted s_timestamp (fun s => t <= s_timestamp s) right Hsorted) as HF.
  unfold asof_nearest, asof_backward, asof_forward, gap.
  destruct (last (filter _ right)) as [b|]; destruct (head (filter _ right)) as [f|];
    [destruct HB as (Hb & Pb & Hmax) | destruct HB as (Hb & Pb & Hmax) | | ];
    try destruct HF as (Hf & Pf & Hmin);
    repeat case_bool_decide;
    try (split; [assumption|split; [lia|]]);
    intros s' Hs';
    destruct (decide (s_timestamp s' <= t)) as [Hle|Hgt];
    try (specialize (Hmax s' Hs'));
    try (specialize (Hmin s' Hs'));
    try (specialize (HB s' Hs'));
    try (specialize (HF s' Hs'));
    lia.
Qed.

Lemma partner_spec (stock_data : list StockData.t) (t : Z) :
  match partner stock_data t with
  | Some s =>
      s ∈ stock_row <$> stock_data /\ gap s t <= tolerance
      /\ forall s', s' ∈ stock_row <$> stock_data ->
           gap s t <= gap s' t
           /\ (gap s' t = gap s t -> s_timestamp s <= s_timestamp s')
  | None => forall s', s' ∈ stock_row <$> stock_data -> tolerance < gap s' t
  end.
Proof.
  unfold partner.
  pose proof (asof_nearest_spec _ t (sort_index_sorted s_timestamp (map stock_row stock_data))) as H.
  destruct (asof_nearest _ t) as [s|].
  - destruct H as (Hs & Hgap & Hnear). rewrite sort_index_elem_of in Hs.
    repeat split; try assumption; apply Hnear; now rewrite sort_index_elem_of.
  - intros s' Hs'. apply H. now rewrite sort_index_elem_of.
Qed.

(** ** Aligner *)

Lemma filter_none {A : Type} (P : A -> Prop) `{!forall a, Decision (P a)} (l : list A) :
  (forall x, x ∈ l -> ~ P x) -> filter P l = [].
Proof.
  intros Hnone. apply elem_of_nil_inv. intros x Hx.
  apply list_elem_of_filter in Hx. destruct Hx as [Px Hx]. exact (Hnone x Hx Px).
Qed.

(** The early return on an empty input agrees with the general path: with
    no weather there is no row, with no market no row has a close price. *)
Lemma align_time_series_eq (weather_data : list WeatherData.t)
    (stock_data : list StockData.t) :
  align_time_series weather_data stock_data =
    dropna_critical (merged_frame weather_data stock_data).
Proof.
  destruct weather_data as [|w ws]; [reflexivity|].
  destruct stock_data as [|s ss]; [|reflexivity].
  symmetry. apply filter_none. intros [i row] Hrow [_ Hclose].
  apply elem_of_lookup_imap_1 in Hrow. destruct Hrow as (j & y & Heq & _).
  injection Heq as _ ->. discriminate Hclose.
Qed.

Lemma rows_of_filter_imap {A : Type} (P : AlignedRow -> Prop)
    `{!forall r, Decision (P r)} (g : A -> AlignedRow) (h : nat -> nat) (l : list A) :
  (filter (fun r : nat * AlignedRow => P r.2) (imap (fun i w => (h i, g w)) l)).*2
  = filter P (g <$> l).
Proof.
  revert h. induction l as [|x l IH]; intros h; [reflexivity|].
  rewrite imap_cons, fmap_cons, !filter_cons. simpl.
  specialize (IH (h ∘ S)).
  destruct (decide (P (g x))); simpl; now rewrite <- IH.
Qed.

Lemma align_rows (weather_data : list WeatherData.t) (stock_data : list StockData.t) :
  (align_time_series weather_data stock_data).*2 =
    filter critical
      ((fun w => merge_row w (partner stock_data (w_timestamp w)))
         <$> sort_index w_timestamp (weather_row <$> weather_data)).
Proof.
  rewrite align_time_series_eq. unfold dropna_critical, merged_frame, merge_asof.
  apply (rows_of_filter_imap critical _ id).
Qed.

(** C2, as the code has it.  The weather series is the primary one: each
    weather sample, in timestamp order, gives one candidate row, joined with
    its market partner.  The partner is the market sample nearest in absolute
    time, before or after the weather sample, the earlier of two equally
    near ones, and only if it is at most 12 hours away; when every market
    sample is further away there is no partner, the row has no close price
    and is dropped. *)
Theorem align_matches_nearest_market (weather_data : list WeatherData.t)
    (stock_data : list StockData.t) :
  align_time_series weather_data stock_data =
    dropna_critical
      (imap (fun i w => (i, merge_row w (partner stock_data (w_timestamp w))))
            (sort_index w_timestamp (weather_row <$> weather_data)))
  /\ (forall w, close_price (merge_row w None) = NaN)
  /\ forall t,
       match partner stock_data t with
       | Some s =>
           s ∈ stock_row <$> stock_data /\ gap s t <= tolerance
           /\ forall s', s' ∈ stock_row <$> stock_data ->
                gap s t <= gap s' t
                /\ (gap s' t = gap s t -> s_timestamp s <= s_timestamp s')
       | None => forall s', s' ∈ stock_row <$> stock_data -> tolerance < gap s' t
       end.
Proof.
  split; [apply align_time_series_eq|].
  split; [reflexivity|]. apply partner_spec.
Qed.

(** The scenario of the specification: a market sample at T, weather
    samples at T - 1h and T + 13h.  The row of the first weather sample is
    kept with the market sample as its partner; the second one is 13 hours
    from its nearest market sample and is dropped. *)
Example align_scenario :
  (align_time_series
     [sample_weather (100 * hour - hour) 20 3; sample_weather (100 * hour + 13 * hour) 21 3]
     [sample_stock (100 * hour) 100]).*2
  = [sample_row (100 * hour - hour) 20 3 100].
Proof. vm_compute. reflexivity. Qed.

(** C2, as the specification has it, fails: a market sample at T and one
    weather sample at T + 1h.  The specified aligner finds no weather sample
    at or before T and returns nothing; the code pairs the two. *)
Lemma align_spec_counterexample :
  (align_time_series [sample_weather (100 * hour + hour) 20 3]
                     [sample_stock (100 * hour) 100]).*2
    = [sample_row (100 * hour + hour) 20 3 100]
  /\ align_spec [sample_weather (100 * hour + hour) 20 3]
                [sample_stock (100 * hour) 100] = [].
Proof. split; vm_compute; reflexivity. Qed.

(** C5, as the code has it.  The rows dropped after matching are exactly
    those without a temperature or without a close price, whatever pair of
    variables is analysed: the aligner is not told the pair. *)
Theorem align_drops_missing_critical (weather_data : list WeatherData.t)
    (stock_data : list StockData.t) (r : nat * AlignedRow) :
  r ∈ align_time_series weather_data stock_data <->
  r ∈ merged_frame weather_data stock_data
  /\ isna (temperature r.2) = false /\ isna (close_price r.2) = false.
Proof.
  rewrite align_time_series_eq. unfold dropna_critical.
  rewrite list_elem_of_filter. unfold critical. tauto.
Qed.

(** C5, as the specification has it, fails in both directions.  For the pair
    (humidity, volume), a row with both present and no temperature is
    dropped; for the pair (wind_speed, close_price), a row without wind speed
    is kept. *)
Lemma align_required_counterexample :
  (align_time_series [sample_weather (100 * hour) 0 3] [sample_stock (100 * hour) 100] = []
   /\ (drop_missing_required Humidity Volume
         (merged_frame [sample_weather (100 * hour) 0 3] [sample_stock (100 * hour) 100])).*1
      = [0%nat])
  /\ ((align_time_series [sample_weather (100 * hour) 20 0] [sample_stock (100 * hour) 100]).*1
      = [0%nat]
      /\ drop_missing_required WindSpeed ClosePrice
           (merged_frame [sample_weather (100 * hour) 20 0] [sample_stock (100 * hour) 100])
         = []).
Proof. repeat split; vm_compute; reflexivity. Qed.




(** ** Orchestrator *)

Lemma minimum_spec (d : Z) (l : list Z) :
  l <> [] -> minimum d l ∈ l /\ forall x, x ∈ l -> minimum d l <= x.
Proof.
  revert d. induction l as [|x l IH]; intros d Hne; [done|]. simpl.
  destruct l as [|y l].
  - simpl. rewrite Z.min_id. split; [apply list_elem_of_here|].
    intros z Hz. apply list_elem_of_singleton in Hz. lia.
  - destruct (IH x) as [Hin Hlow]; [done|]. split.
    + destruct (Z.min_spec x (minimum x (y :: l))) as [[_ ->]|[_ ->]];
        [apply list_elem_of_here|now apply list_elem_of_further].
    + intros z Hz. apply elem_of_cons in Hz. destruct Hz as [->|Hz]; [lia|].
      specialize (Hlow z Hz). lia.
Qed.

Lemma maximum_spec (d : Z) (l : list Z) :
  l <> [] -> maximum d l ∈ l /\ forall x, x ∈ l -> x <= maximum d l.
Proof.
  revert d. induction l as [|x l IH]; intros d Hne; [done|]. simpl.
  destruct l as [|y l].
  - simpl. rewrite Z.max_id. split; [apply list_elem_of_here|].
    intros z Hz. apply list_elem_of_singleton in Hz. lia.
  - destruct (IH x) as [Hin Hup]; [done|]. split.
    + destruct (Z.max_spec x (maximum x (y :: l))) as [[_ ->]|[_ ->]];
        [now apply list_elem_of_further|apply list_elem_of_here].
    + intros z Hz. apply elem_of_cons in Hz. destruct Hz as [->|Hz]; [lia|].
      specialize (Hup z Hz). lia.
Qed.

Section Orchestrator.

Variable pearson_statistic : list Q -> list Q -> Q.
Variable pearson_pvalue : list Q -> list Q -> Q.
Variable zscore : list Q -> nat -> score.
Variable commit : CorrelationResult.t -> bool.

Abbreviation build := (build_result pearson_statistic pearson_pvalue zscore).
Abbreviation analyze := (analyze_correlation pearson_statistic pearson_pvalue zscore commit).

(** What the record built from a non-empty alignment holds. *)
Lemma build_result_Some (city symbol : string) (ws : list WeatherData.t)
    (ss : list StockData.t) (wv sv : Column) (r : CorrelationResult.t) :
  build city symbol ws ss wv sv = Some r ->
  let aligned := align_time_series ws ss in
  let stamps := (fun e : nat * AlignedRow => timestamp e.2) <$> aligned in
  aligned <> []
  /\ CorrelationResult.sample_size r = length aligned
  /\ (CorrelationResult.correlation_value r, CorrelationResult.p_value r)
     = calculate_correlation pearson_statistic pearson_pvalue
         (column wv aligned) (column sv aligned)
  /\ CorrelationResult.start_date r ∈ stamps
  /\ (forall t, t ∈ stamps -> CorrelationResult.start_date r <= t)
  /\ CorrelationResult.end_date r ∈ stamps
  /\ (forall t, t ∈ stamps -> t <= CorrelationResult.end_date r)
  /\ CorrelationResult.period_days r
     = days (CorrelationResult.end_date r - CorrelationResult.start_date r).
Proof.
  intros H aligned stamps. unfold build_result in H. fold aligned in H.
  destruct aligned as [|first rest] eqn:E; [discriminate|].
  destruct (calculate_correlation _ _ _ _) as [c p] eqn:Ec.
  injection H as <-. simpl.
  assert (Hne : stamps <> []) by done.
  destruct (minimum_spec (timestamp first.2) stamps Hne) as [Hmin Hlow].
  destruct (maximum_spec (timestamp first.2) stamps Hne) as [Hmax Hup].
  repeat split; try done.
Qed.

Lemma analyze_correlation_Some (city symbol : string) (ws : list WeatherData.t)
    (ss : list StockData.t) (wv sv : Column) (r : CorrelationResult.t) :
  analyze city symbol ws ss wv sv = Some r ->
  build city symbol ws ss wv sv = Some r /\ commit r = true.
Proof.
  unfold analyze_correlation.
  destruct (build city symbol ws ss wv sv) as [r'|]; [|discriminate].
  destruct (commit r') eqn:E; [|discriminate].
  intros [= <-]. now split.
Qed.



(** C7, as the code has it.  When the record has been built and storing it
    fails, [analyze_correlation] returns [None], which is also what it
    returns for any input whose alignment is empty. *)
Theorem persistence_failure_returns_none (city symbol : string)
    (ws : list WeatherData.t) (ss : list StockData.t) (wv sv : Column)
    (r : CorrelationResult.t) :
  build city symbol ws ss wv sv = Some r ->
  commit r = false ->
  analyze city symbol ws ss wv sv = None
  /\ forall ws' ss',
       align_time_series ws' ss' = [] ->
       analyze city symbol ws' ss' wv sv = analyze city symbol ws ss wv sv.
Proof.
  intros Hbuild Hcommit.
  assert (Hnone : analyze city symbol ws ss wv sv = None).
  { unfold analyze_correlation. now rewrite Hbuild, Hcommit. }
  split; [exact Hnone|].
  intros ws' ss' Hempty. rewrite Hnone.
  unfold analyze_correlation, build_result. now rewrite Hempty.
Qed.

(** C9.  In a record returned by [analyze_correlation], [start_date] and
    [end_date] are the least and the greatest timestamp of the aligned rows,
    and [period_days] is their difference in whole days, which is not
    negative. *)
Theorem analyze_period_days (city symbol : string) (ws : list WeatherData.t)
    (ss : list StockData.t) (wv sv : Column) (r : CorrelationResult.t) :
  analyze city symbol ws ss wv sv = Some r ->
  let rows := (align_time_series ws ss).*2 in
  (exists row, row ∈ rows /\ timestamp row = CorrelationResult.start_date r)
  /\ (forall row, row ∈ rows -> CorrelationResult.start_date r <= timestamp row)
  /\ (exists row, row ∈ rows /\ timestamp row = CorrelationResult.end_date r)
  /\ (forall row, row ∈ rows -> timestamp row <= CorrelationResult.end_date r)
  /\ CorrelationResult.period_days r
     = (CorrelationResult.end_date r - CorrelationResult.start_date r) `div` 86400
  /\ 0 <= CorrelationResult.period_days r.
Proof.
  intros H rows. apply analyze_correlation_Some in H. destruct H as [H _].
  apply build_result_Some in H.
  destruct H as (_ & _ & _ & Hmin & Hlow & Hmax & Hup & Hdays).
  assert (Hstamp : forall t,
             t ∈ (fun e : nat * AlignedRow => timestamp e.2) <$> align_time_series ws ss
             <-> exists row, row ∈ rows /\ timestamp row = t).
  { intros t. unfold rows. rewrite list_elem_of_fmap. split.
    - intros (e & -> & He). exists e.2. split; [|reflexivity].
      apply list_elem_of_fmap. now exists e.
    - intros (row & Hrow & <-). apply list_elem_of_fmap in Hrow.
      destruct Hrow as (e & -> & He). now exists e. }
  split; [now apply Hstamp|]. split.
  { intros row Hrow. apply Hlow, Hstamp. now exists row. }
  split; [now apply Hstamp|]. split.
  { intros row Hrow. apply Hup, Hstamp. now exists row. }
  split; [exact Hdays|].
  rewrite Hdays. unfold days. apply Z.div_pos; [|lia].
  specialize (Hlow _ Hmax). lia.
Qed.

End Orchestrator.

(** The analysis of the two-day sample, stored by a database that is up. *)
Lemma two_day_analysis :
  analyze_correlation unused_statistic unused_statistic approx_zscore storage_up
    "New York" "aapl" two_day_weather two_day_stock Temperature ClosePrice
  = Some two_day_result.
Proof. vm_compute. reflexivity. Qed.

Lemma two_day_build :
  build_result unused_statistic unused_statistic approx_zscore
    "New York" "aapl" two_day_weather two_day_stock Temperature ClosePrice
  = Some two_day_result.
Proof. vm_compute. reflexivity. Qed.



(** C7, as the specification has it, fails: the record of the two-day sample
    is built, the database is down, and the caller receives [None], as it
    does for empty inputs. *)
Lemma persistence_failure_counterexample :
  build_result unused_statistic unused_statistic approx_zscore
    "New York" "aapl" two_day_weather two_day_stock Temperature ClosePrice
  = Some two_day_result
  /\ storage_down two_day_result = false
  /\ analyze_correlation unused_statistic unused_statistic approx_zscore storage_down
       "New York" "aapl" two_day_weather two_day_stock Temperature ClosePrice = None
  /\ analyze_correlation unused_statistic unused_statistic approx_zscore storage_down
       "New York" "aapl" [] [] Temperature ClosePrice = None.
Proof.
  split; [apply two_day_build|].
  repeat split; vm_compute; reflexivity.
Qed.

(** The two-day sample with the database down. *)
Lemma persistence_failure_returns_none_witness :
  analyze_correlation unused_statistic unused_statistic approx_zscore storage_down
    "New York" "aapl" two_day_weather two_day_stock Temperature ClosePrice = None
  /\ forall ws' ss',
       align_time_series ws' ss' = [] ->
       analyze_correlation unused_statistic unused_statistic approx_zscore storage_down
         "New York" "aapl" ws' ss' Temperature ClosePrice
       = analyze_correlation unused_statistic unused_statistic approx_zscore storage_down
           "New York" "aapl" two_day_weather two_day_stock Temperature ClosePrice.
Proof.
  apply (persistence_failure_returns_none unused_statistic unused_statistic
           approx_zscore storage_down "New York" "aapl" two_day_weather two_day_stock
           Temperature ClosePrice two_day_result).
  - apply two_day_build.
  - reflexivity.
Defined.

(** The two-day sample: 29 hours between the first and the last aligned
    row, one whole day. *)
Lemma analyze_period_days_witness :
  CorrelationResult.period_days two_day_result
  = (CorrelationResult.end_date two_day_result
     - CorrelationResult.start_date two_day_result) `div` 86400
  /\ 0 <= CorrelationResult.period_days two_day_result.
Proof.
  apply (analyze_period_days unused_statistic unused_statistic approx_zscore storage_up
           "New York" "aapl" two_day_weather two_day_stock Temperature ClosePrice
           two_day_result two_day_analysis).
Defined.

(** ** Anomaly detector *)

Lemma Qsum_nonneg (a : list Q) : Forall (fun v => (0 <= v)%Q) a -> (0 <= Qsum a)%Q.
Proof.
  induction 1 as [|v a Hv _ IH]; simpl; [apply Qle_refl|].
  change (0 <= v + Qsum a)%Q. lra.
Qed.

Lemma square_nonneg (x : Q) : (0 <= x * x)%Q.
Proof. nra. Qed.

Lemma variance_nonneg (ddof : nat) (a : list Q) : (0 <= variance ddof a)%Q.
Proof.
  unfold variance.
  assert (Hs : (0 <= Qsum (map (fun v => (v - mean a) * (v - mean a)) a))%Q).
  { apply Qsum_nonneg, Forall_fmap, Forall_forall. intros v _. apply square_nonneg. }
  set (S := Qsum _) in *. set (n := (length a - ddof)%nat).
  destruct n as [|n].
  - change (inject_Z (Z.of_nat 0)) with 0%Q. unfold Qdiv.
    change (/ 0)%Q with 0%Q. lra.
  - apply Qle_shift_div_l; [|lra].
    change 0%Q with (inject_Z 0). rewrite <- Zlt_Qlt. lia.
Qed.

(** Selecting by a mask that is computed position by position. *)
Lemma elem_of_boolean_index_imap {A : Type} (f : nat -> A -> bool) (l : list A) (e : A) :
  e ∈ boolean_index l (imap f l) <-> exists k, l !! k = Some e /\ f k e = true.
Proof.
  revert f. induction l as [|x l IH]; intros f; simpl.
  - split; [intros H; by apply elem_of_nil in H|intros (k & H & _); discriminate].
  - destruct (f 0%nat x) eqn:E0.
    + rewrite elem_of_cons, IH. split.
      * intros [->|(k & Hk & Hf)]; [by exists 0%nat|by exists (S k)].
      * intros ([|k] & Hk & Hf); [left; simpl in Hk; congruence|].
        right. by exists k.
    + rewrite IH. split.
      * intros (k & Hk & Hf). by exists (S k).
      * intros ([|k] & Hk & Hf); [simpl in Hk; congruence|]. by exists k.
Qed.

Lemma length_boolean_index_imap {A : Type} (f : nat -> A -> bool) (P : A -> Prop)
    `{!forall a, Decision (P a)} (l : list A) :
  (forall k e, l !! k = Some e -> f k e = true -> P e) ->
  (length (boolean_index l (imap f l)) <= length (filter P l))%nat.
Proof.
  revert f. induction l as [|x l IH]; intros f Hf; simpl; [lia|].
  rewrite filter_cons.
  assert (Hrest : (length (boolean_index l (imap (f ∘ S) l)) <= length (filter P l))%nat).
  { apply IH. intros k e Hk Hfk. exact (Hf (S k) e Hk Hfk). }
  destruct (f 0%nat x) eqn:E0.
  - rewrite decide_True by (exact (Hf 0%nat x eq_refl E0)). simpl. lia.
  - destruct (decide (P x)); simpl; lia.
Qed.

(** What scores accurate to [delta] let the comparison with 3.0 decide. *)
Lemma accurate_flags (delta : Q) (a : list Q) (z : nat -> score) (k : nat) (x : Q) :
  (0 <= delta)%Q -> accurate delta a z -> a !! k = Some x ->
  beyond (3 + delta) a x -> abs_gt (z k) anomaly_threshold = true.
Proof.
  intros Hd Hacc Hk Hx. specialize (Hacc k x Hk). unfold beyond in Hx.
  pose proof (variance_nonneg 0 a) as Hv. unfold abs_gt, anomaly_threshold.
  set (v := variance 0 a) in *. set (d2 := ((x - mean a) * (x - mean a))%Q) in *.
  destruct (z k) as [| |q].
  - exfalso. assert (0 <= (3 + delta) * (3 + delta) * v)%Q; [|lra].
    apply Qmult_le_0_compat; [nra|exact Hv].
  - reflexivity.
  - destruct Hacc as [Hup _]. apply Qlt_bool_iff.
    pose proof (Qabs_nonneg q) as Hq. set (A := Qabs q) in *.
    destruct (Qlt_le_dec 3 A) as [Hlt|Hle]; [exact Hlt|]. exfalso.
    assert (0 <= ((3 + delta) * (3 + delta) - (A + delta) * (A + delta)) * v)%Q
      by (apply Qmult_le_0_compat; [nra|exact Hv]).
    lra.
Qed.

Lemma accurate_flagged (delta : Q) (a : list Q) (z : nat -> score) (k : nat) (x : Q) :
  (0 <= delta)%Q -> (delta <= 3)%Q -> accurate delta a z -> a !! k = Some x ->
  abs_gt (z k) anomaly_threshold = true ->
  (0 < variance 0 a)%Q /\ beyond (3 - delta) a x.
Proof.
  intros Hd Hd3 Hacc Hk Hz. specialize (Hacc k x Hk). unfold beyond.
  unfold abs_gt, anomaly_threshold in Hz.
  set (v := variance 0 a) in *. set (d2 := ((x - mean a) * (x - mean a))%Q) in *.
  destruct (z k) as [| |q]; [discriminate|contradiction|].
  apply Qlt_bool_iff in Hz. set (A := Qabs q) in *.
  destruct Hacc as [_ [Hsmall|[Hv Hlow]]]; [lra|].
  split; [exact Hv|].
  assert (0 < ((A - delta) * (A - delta) - (3 - delta) * (3 - delta)) * v)%Q
    by (apply Qmult_lt_0_compat; [nra|exact Hv]).
  lra.
Qed.

Section Detector.

Variable zscore : list Q -> nat -> score.

(** The entry recorded for a requested column, if any. *)
Lemma detect_anomalies_lookup_acc (data : gmap string Series)
    (columns : list string) (acc : gmap string (list nat)) (col : string) :
  foldl (fun anomalies c =>
           match data !! c with
           | None => anomalies
           | Some full =>
               match anomaly_indices zscore full with
               | Some indices => <[c := indices]> anomalies
               | None => anomalies
               end
           end) acc columns !! col
  = match (if decide (col ∈ columns)
           then data !! col ≫= anomaly_indices zscore else None) with
    | Some indices => Some indices
    | None => acc !! col
    end.
Proof.
  revert acc. induction columns as [|c columns IH]; intros acc; simpl.
  - reflexivity.
  - rewrite IH. clear IH.
    destruct (decide (col ∈ columns)) as [Hin|Hin].
    + rewrite decide_True by (now apply list_elem_of_further).
      destruct (data !! col ≫= anomaly_indices zscore) as [indices|] eqn:E;
        [reflexivity|].
      destruct (data !! c) as [full|] eqn:Ec; [|reflexivity].
      destruct (anomaly_indices zscore full) as [indices|] eqn:Ei; [|reflexivity].
      destruct (decide (c = col)) as [->|Hne].
      * rewrite Ec in E. simpl in E. congruence.
      * now rewrite lookup_insert_ne.
    + destruct (decide (c = col)) as [->|Hne].
      * rewrite decide_True by apply list_elem_of_here.
        destruct (data !! col) as [full|]; simpl; [|reflexivity].
        destruct (anomaly_indices zscore full) as [indices|]; [|reflexivity].
        now rewrite lookup_insert_eq.
      * rewrite decide_False.
        2:{ intros Hc. apply elem_of_cons in Hc. destruct Hc; congruence. }
        destruct (data !! c) as [full|]; [|reflexivity].
        destruct (anomaly_indices zscore full) as [indices|]; [|reflexivity].
        now rewrite lookup_insert_ne.
Qed.

Lemma detect_anomalies_lookup (data : gmap string Series) (columns : list string)
    (col : string) :
  detect_anomalies zscore data columns !! col
  = if decide (col ∈ columns) then data !! col ≫= anomaly_indices zscore else None.
Proof.
  unfold detect_anomalies. rewrite detect_anomalies_lookup_acc.
  destruct (if decide (col ∈ columns) then _ else _); [reflexivity|].
  apply lookup_empty.
Qed.

Lemma anomaly_indices_Some (full : Series) (indices : list nat) :
  anomaly_indices zscore full = Some indices ->
  (10 <= length (dropna full))%nat
  /\ indices <> []
  /\ forall l, l ∈ indices <-> flagged zscore full l.
Proof.
  unfold anomaly_indices, flagged, anomaly_threshold.
  destruct (length (dropna full) <? 10)%nat eqn:E; [discriminate|].
  apply Nat.ltb_ge in E.
  destruct ((boolean_index _ _).*1) as [|i0 rest] eqn:Ef; [discriminate|].
  intros [= <-]. split; [exact E|]. split; [discriminate|].
  intros l. rewrite <- Ef, list_elem_of_fmap. split.
  - intros ([j x] & -> & Hx). apply elem_of_boolean_index_imap in Hx.
    destruct Hx as (k & Hk & Hz). by exists k, x.
  - intros (k & x & Hk & Hz). exists (l, x). split; [reflexivity|].
    apply elem_of_boolean_index_imap. by exists k.
Qed.

Lemma anomaly_indices_is_Some (full : Series) :
  is_Some (anomaly_indices zscore full) <->
  (10 <= length (dropna full))%nat /\ exists l, flagged zscore full l.
Proof.
  split.
  - intros [indices H]. apply anomaly_indices_Some in H.
    destruct H as (Hlen & Hne & Hflag). split; [exact Hlen|].
    destruct indices as [|l rest]; [done|].
    exists l. apply Hflag, list_elem_of_here.
  - intros (Hlen & l & k & x & Hk & Hz). unfold anomaly_indices.
    apply Nat.ltb_ge in Hlen. rewrite Hlen.
    destruct ((boolean_index _ _).*1) as [|i0 rest] eqn:Ef; [|by eexists].
    exfalso. apply fmap_nil_inv in Ef.
    assert (Hin : (l, x) ∈ boolean_index (dropna full)
              (imap (fun i (_ : nat * Q) =>
                       abs_gt (zscore (dropna full).*2 i) anomaly_threshold)
                 (dropna full))).
    { apply elem_of_boolean_index_imap. by exists k. }
    rewrite Ef in Hin. now apply elem_of_nil in Hin.
Qed.

(** C6, as the code has it.  A point is flagged when the score that
    [scipy.stats.zscore] returns for it, over the values of the variable
    that are present, exceeds 3.0 in absolute value.  An entry recorded for
    a variable belongs to a requested column of the frame with at least 10
    values present, is not empty, and lists the labels of exactly the
    flagged points; a variable has an entry exactly when it is requested, is
    a column with at least 10 values present, and has a flagged point.  The
    standard deviation of these scores is the one over all [n] points
    (divisor [n], not [n - 1]): when the scores are accurate to [delta],
    every point beyond [3 + delta] such standard deviations is flagged, and
    every flagged point lies beyond [3 - delta] of them. *)
Theorem detect_anomalies_flags (data : gmap string Series) (columns : list string)
    (col : string) :
  (forall indices,
     detect_anomalies zscore data columns !! col = Some indices ->
     col ∈ columns /\ indices <> []
     /\ exists full,
          data !! col = Some full /\ (10 <= length (dropna full))%nat
          /\ (forall l, l ∈ indices <-> flagged zscore full l)
          /\ forall delta,
               (0 <= delta)%Q -> (delta <= 3)%Q ->
               accurate delta (dropna full).*2 (zscore (dropna full).*2) ->
               (forall k l x,
                  dropna full !! k = Some (l, x) ->
                  beyond (3 + delta) (dropna full).*2 x -> l ∈ indices)
               /\ (forall l,
                     l ∈ indices ->
                     exists k x,
                       dropna full !! k = Some (l, x)
                       /\ beyond (3 - delta) (dropna full).*2 x))
  /\ (is_Some (detect_anomalies zscore data columns !! col) <->
      col ∈ columns
      /\ exists full,
           data !! col = Some full /\ (10 <= length (dropna full))%nat
           /\ exists l, flagged zscore full l).
Proof.
  rewrite detect_anomalies_lookup. split.
  - intros indices H. destruct (decide (col ∈ columns)) as [Hin|]; [|discriminate].
    destruct (data !! col) as [full|]; [|discriminate]. simpl in H.
    apply anomaly_indices_Some in H. destruct H as (Hlen & Hne & Hflag).
    split; [exact Hin|]. split; [exact Hne|]. exists full.
    split; [reflexivity|]. split; [exact Hlen|]. split; [exact Hflag|].
    intros delta Hd Hd3 Hacc. split.
    + intros k l x Hk Hx. apply Hflag. exists k, x. split; [exact Hk|].
      apply (accurate_flags delta _ _ k x Hd Hacc); [|exact Hx].
      rewrite list_lookup_fmap, Hk. reflexivity.
    + intros l Hl. apply Hflag in Hl. destruct Hl as (k & x & Hk & Hz).
      exists k, x. split; [exact Hk|].
      apply (accurate_flagged delta _ _ k x Hd Hd3 Hacc); [|exact Hz].
      rewrite list_lookup_fmap, Hk. reflexivity.
  - destruct (decide (col ∈ columns)) as [Hin|Hin].
    + destruct (data !! col) as [full|]; simpl.
      * rewrite anomaly_indices_is_Some. split.
        -- intros [Hlen Hex]. split; [exact Hin|]. now exists full.
        -- intros (_ & full' & [= <-] & Hlen & Hex). now split.
      * split; [intros [? ?]; discriminate|].
        intros (_ & full' & ? & _). discriminate.
    + split; [intros [? ?]; discriminate|]. intros [? _]. contradiction.
Qed.

End Detector.

Lemma accurate_decides (delta : Q) (a : list Q) (z : nat -> score) (k : nat) (x : Q) :
  (0 <= delta)%Q -> (delta <= 3)%Q -> accurate delta a z -> a !! k = Some x ->
  (beyond (3 + delta) a x -> abs_gt (z k) anomaly_threshold = true)
  /\ (~ beyond (3 - delta) a x -> abs_gt (z k) anomaly_threshold = false).
Proof.
  intros Hd Hd3 Hacc Hk. split.
  - apply (accurate_flags delta a z k x Hd Hacc Hk).
  - intros Hnot. destruct (abs_gt (z k) anomaly_threshold) eqn:E; [|reflexivity].
    exfalso. apply Hnot.
    exact (proj2 (accurate_flagged delta a z k x Hd Hd3 Hacc Hk E)).
Qed.

(** Decides a comparison of two rationals that are given. *)
Ltac by_computation :=
  first [ apply Qlt_bool_iff; vm_compute; reflexivity
        | apply Qle_bool_iff; vm_compute; reflexivity
        | let H := fresh in
          intros H; apply Qlt_bool_iff in H; vm_compute in H; discriminate H
        | let H := fresh in
          intros H; apply Qle_bool_iff in H; vm_compute in H; discriminate H ].

(** The stand-in for scipy's scores is accurate to a hundredth on the eleven
    values. *)
Lemma approx_zscore_spread :
  accurate (1 # 100) spread_values (approx_zscore spread_values).
Proof.
  intros k x Hk.
  do 11 (destruct k as [|k];
         [injection Hk as <-;
          match goal with
          | |- context [approx_zscore ?a ?i] =>
              let v := eval vm_compute in (approx_zscore a i) in
              change (approx_zscore a i) with v
          end;
          cbv beta iota; split; [by_computation|right; split; by_computation]|]).
  discriminate Hk.
Qed.

(** On the eleven values, scores accurate to a hundredth flag the last value
    and no other. *)
Lemma spread_values_flagged (z : nat -> score) :
  accurate (1 # 100) spread_values z ->
  imap (fun i (_ : nat * Q) => abs_gt (z i) anomaly_threshold)
    (dropna (series_of spread_values))
  = imap (fun i _ => Nat.eqb i 10) (dropna (series_of spread_values)).
Proof.
  intros Hacc. apply imap_ext. intros k e Hk.
  assert (Hd : (0 <= 1 # 100)%Q) by by_computation.
  assert (Hd3 : (1 # 100 <= 3)%Q) by by_computation.
  do 11 (destruct k as [|k];
         [match goal with
          | |- abs_gt (z ?i) _ = _ =>
              destruct (accurate_decides (1 # 100) spread_values z i _
                          Hd Hd3 Hacc eq_refl) as [Hyes Hno]
          end;
          first [ apply Hno; unfold beyond; by_computation
                | apply Hyes; unfold beyond; by_computation ]|]).
  discriminate Hk.
Qed.

(** C6, as the specification has it, fails: of eleven values the last one is
    flagged by the code, for any scores accurate to a hundredth, while its
    Z-score in units of the sample standard deviation (divisor [n - 1]) does
    not exceed 3. *)
Lemma sample_deviation_counterexample :
  series_of spread_values !! 10%nat = Some (10%nat, Fin 5)
  /\ anomalous_spec spread_values 5 = false
  /\ accurate (1 # 100) spread_values (approx_zscore spread_values)
  /\ forall zscore,
       accurate (1 # 100) spread_values (zscore spread_values) ->
       detect_anomalies zscore {[ "values" := series_of spread_values ]} ["values"]
         !! "values" = Some [10%nat].
Proof.
  split; [reflexivity|]. split; [vm_compute; reflexivity|].
  split; [apply approx_zscore_spread|].
  intros zscore Hacc. rewrite detect_anomalies_lookup.
  rewrite decide_True by apply list_elem_of_here.
  rewrite lookup_singleton_eq. simpl. unfold anomaly_indices.
  change ((dropna (series_of spread_values)).*2) with spread_values.
  rewrite (spread_values_flagged _ Hacc). reflexivity.
Qed.

(** * Further properties *)

(** ** Aligner: shape of the output *)

Lemma StronglySorted_filter {A : Type} (R : relation A) (P : A -> Prop)
    `{!forall a, Decision (P a)} (l : list A) :
  StronglySorted R l -> StronglySorted R (filter P l).
Proof.
  induction 1 as [|x l Hl IH Hx]; [constructor|].
  rewrite filter_cons. destruct (decide (P x)); [|exact IH].
  constructor; [exact IH|].
  apply Forall_forall. intros y Hy. apply list_elem_of_filter in Hy.
  rewrite Forall_forall in Hx. apply Hx, Hy.
Qed.

Lemma merge_asof_in_order (right : list StockRow) (left : list WeatherRow) (k : nat) :
  StronglySorted (key_le w_timestamp) left ->
  StronglySorted in_order
    (imap (fun i w => ((k + i)%nat, merge_row w (asof_nearest right (w_timestamp w)))) left).
Proof.
  intros Hsorted. revert k.
  induction Hsorted as [|x l Hl IH Hx]; intros k; [constructor|].
  rewrite imap_cons. constructor.
  - rewrite (imap_ext _ (fun i w =>
               ((S k + i)%nat, merge_row w (asof_nearest right (w_timestamp w))))).
    + apply IH.
    + intros i w _. simpl. f_equal. lia.
  - apply Forall_forall. intros r Hr.
    apply elem_of_lookup_imap_1 in Hr. destruct Hr as (i & w & -> & Hw).
    rewrite Forall_forall in Hx. apply list_elem_of_lookup_2 in Hw.
    specialize (Hx w Hw). unfold in_order, key_le in *. simpl. lia.
Qed.

(** X1.  The aligned frame is in ascending order of time, and its index
    labels increase strictly along it. *)
Theorem align_time_series_in_order (weather_data : list WeatherData.t)
    (stock_data : list StockData.t) :
  StronglySorted in_order (align_time_series weather_data stock_data).
Proof.
  rewrite align_time_series_eq. unfold dropna_critical, merged_frame, merge_asof.
  apply StronglySorted_filter.
  apply (merge_asof_in_order _ _ 0), sort_index_sorted.
Qed.

Lemma align_row_origin (weather_data : list WeatherData.t)
    (stock_data : list StockData.t) (row : AlignedRow) :
  row ∈ (align_time_series weather_data stock_data).*2 <->
  exists w, w ∈ weather_data
    /\ row = merge_row (weather_row w)
               (partner stock_data (WeatherData.timestamp w))
    /\ critical row.
Proof.
  rewrite align_rows, list_elem_of_filter, list_elem_of_fmap. split.
  - intros (Hcrit & wr & -> & Hwr).
    apply sort_index_elem_of, list_elem_of_fmap in Hwr.
    destruct Hwr as (w & -> & Hw). now exists w.
  - intros (w & Hw & -> & Hcrit). split; [exact Hcrit|].
    exists (weather_row w). split; [reflexivity|].
    apply sort_index_elem_of, list_elem_of_fmap. now exists w.
Qed.

(** X2.  The aligner neither invents nor multiplies rows: it returns at
    most one row per weather sample, and every row joins the columns of a
    weather sample of the input that has a temperature with those of a
    market sample of the input that has a close price and lies at most 12
    hours from it. *)
Theorem align_time_series_sound (weather_data : list WeatherData.t)
    (stock_data : list StockData.t) :
  (length (align_time_series weather_data stock_data) <= length weather_data)%nat
  /\ forall row, row ∈ (align_time_series weather_data stock_data).*2 ->
       exists w s,
         w ∈ weather_data /\ s ∈ stock_data
         /\ row = merge_row (weather_row w) (Some (stock_row s))
         /\ truthy (WeatherData.temperature w) = true
         /\ truthy (StockData.close_price s) = true
         /\ Z.abs (StockData.timestamp s - WeatherData.timestamp w) <= 12 * 3600.
Proof.
  split.
  - rewrite align_time_series_eq. unfold dropna_critical, merged_frame, merge_asof.
    etransitivity; [apply length_filter|].
    rewrite length_imap. unfold sort_index.
    induction weather_data as [|w ws IH]; [reflexivity|]. simpl.
    assert (Hins : forall (x : WeatherRow) l,
               length (insert_sorted w_timestamp x l) = S (length l)).
    { intros x l. induction l as [|y l IHl]; simpl; [reflexivity|].
      destruct (w_timestamp x <=? w_timestamp y); simpl; [reflexivity|].
      now rewrite IHl. }
    rewrite Hins. simpl in IH. lia.
  - intros row Hrow. apply align_row_origin in Hrow.
    destruct Hrow as (w & Hw & -> & Htemp & Hclose).
    pose proof (partner_spec stock_data (WeatherData.timestamp w)) as Hp.
    destruct (partner stock_data (WeatherData.timestamp w)) as [sr|];
      [|discriminate Hclose].
    destruct Hp as (Hsr & Hgap & _).
    apply list_elem_of_fmap in Hsr. destruct Hsr as (s & -> & Hs).
    exists w, s. repeat split; try assumption.
    + simpl in Htemp. unfold float_if_truthy in Htemp.
      destruct (WeatherData.temperature w) as [q|]; [|discriminate].
      destruct (truthy (Some q)); [reflexivity|discriminate].
    + simpl in Hclose. unfold float_if_truthy in Hclose.
      destruct (StockData.close_price s) as [q|]; [|discriminate].
      destruct (truthy (Some q)); [reflexivity|discriminate].
Qed.

(** X3.  The alignment is not empty exactly when some weather sample has a
    temperature and its market partner, the nearest market sample within 12
    hours, has a close price. *)
Theorem align_time_series_nonempty (weather_data : list WeatherData.t)
    (stock_data : list StockData.t) :
  align_time_series weather_data stock_data <> [] <->
  exists w s,
    w ∈ weather_data
    /\ truthy (WeatherData.temperature w) = true
    /\ partner stock_data (WeatherData.timestamp w) = Some s
    /\ isna (s_close_price s) = false.
Proof.
  split.
  - intros Hne.
    destruct (align_time_series weather_data stock_data) as [|r rest] eqn:E; [done|].
    assert (Hrow : r.2 ∈ (align_time_series weather_data stock_data).*2).
    { rewrite E. apply list_elem_of_here. }
    apply align_row_origin in Hrow. destruct Hrow as (w & Hw & Heq & Htemp & Hclose).
    rewrite Heq in Htemp, Hclose. simpl in Htemp, Hclose.
    destruct (partner stock_data (WeatherData.timestamp w)) as [s|] eqn:Hp;
      [|discriminate Hclose].
    exists w, s. repeat split; try assumption.
    unfold float_if_truthy in Htemp.
    destruct (WeatherData.temperature w) as [q|]; [|discriminate].
    destruct (truthy (Some q)); [reflexivity|discriminate].
  - intros (w & s & Hw & Htemp & Hpartner & Hclose) Hempty.
    assert (Hrow : merge_row (weather_row w) (Some s)
                   ∈ (align_time_series weather_data stock_data).*2).
    { apply align_row_origin. exists w. split; [exact Hw|].
      rewrite Hpartner. split; [reflexivity|]. split; [|exact Hclose].
      simpl. unfold float_if_truthy.
      destruct (WeatherData.temperature w) as [q|]; [|discriminate].
      now rewrite Htemp. }
    rewrite Hempty in Hrow. now apply elem_of_nil in Hrow.
Qed.

(** ** Orchestrator: the record and its narrative *)

Section Record.

Variable pearson_statistic : list Q -> list Q -> Q.
Variable pearson_pvalue : list Q -> list Q -> Q.
Variable zscore : list Q -> nat -> score.
Variable commit : CorrelationResult.t -> bool.

Abbreviation build' := (build_result pearson_statistic pearson_pvalue zscore).
Abbreviation analyze' := (analyze_correlation pearson_statistic pearson_pvalue zscore commit).

(** The fields of a built record that are derived from its other fields or
    from the arguments. *)
Lemma build_result_fields (city symbol : string) (ws : list WeatherData.t)
    (ss : list StockData.t) (wv sv : Column) (r : CorrelationResult.t) :
  build' city symbol ws ss wv sv = Some r ->
  CorrelationResult.city r = city
  /\ CorrelationResult.symbol r = upper symbol
  /\ CorrelationResult.weather_variable r = column_name wv
  /\ CorrelationResult.stock_variable r = column_name sv
  /\ CorrelationResult.significance_level r
     = significance_level_of (CorrelationResult.p_value r)
  /\ CorrelationResult.analysis_notes r
     = generate_insights (CorrelationResult.correlation_value r)
         (CorrelationResult.p_value r) (CorrelationResult.weather_variable r)
         (CorrelationResult.stock_variable r) (CorrelationResult.sample_size r)
         (CorrelationResult.anomalies_detected r)
  /\ CorrelationResult.anomalies_detected r
     = map_fold (fun _ indices n => (length indices + n)%nat) 0%nat
         (detect_anomalies zscore (to_frame (align_time_series ws ss))
            [column_name wv; column_name sv]).
Proof.
  unfold build_result. intros H.
  destruct (align_time_series ws ss) as [|first rest] eqn:E; [discriminate|].
  destruct (calculate_correlation _ _ _ _) as [c p] eqn:Ec.
  injection H as <-. simpl. repeat split; reflexivity.
Qed.

Lemma significance_level_of_not_significant (p : pyfloat) :
  significance_level_of p = "not significant" <-> flt_lt p (Fin (5 # 100)) = false.
Proof.
  unfold significance_level_of. destruct p as [|q]; simpl; [tauto|].
  unfold Qlt_bool. case_order; simpl; split; try discriminate; try reflexivity;
    intros _; exfalso; lra.
Qed.

(** Splits a membership in a list given by its elements into one case per
    element, dropping the cases where the two sides differ by their head
    constructor. *)
Ltac elem_cases H :=
  repeat (apply elem_of_cons in H; destruct H as [H|H]; [try discriminate H|]);
  try (apply elem_of_nil in H; destruct H).

Lemma generate_insights_significant (c p : pyfloat) (wv sv : string) (n a : nat) :
  (SignificantNote ∈ generate_insights c p wv sv n a <->
   flt_lt p (Fin (5 # 100)) = true)
  /\ (NotSignificantNote ∈ generate_insights c p wv sv n a <->
      flt_lt p (Fin (5 # 100)) = false).
Proof.
  unfold generate_insights. destruct (direction_of c) as [direction relationship].
  destruct (flt_lt p (Fin (5 # 100))), (0 <? a)%nat; simpl; split; split;
    intros H; try reflexivity; try discriminate H; try (elem_cases H; fail).
  all: do 2 apply list_elem_of_further; apply list_elem_of_here.
Qed.

Lemma generate_insights_anomalies (c p : pyfloat) (wv sv : string) (n a m : nat) :
  AnomaliesNote m ∈ generate_insights c p wv sv n a <-> m = a /\ (0 < m)%nat.
Proof.
  unfold generate_insights. destruct (direction_of c) as [direction relationship].
  destruct (0 <? a)%nat eqn:Ea;
    [apply Nat.ltb_lt in Ea | apply Nat.ltb_ge in Ea]; simpl; split.
  - intros H. destruct (flt_lt p (Fin (5 # 100))); elem_cases H;
      injection H as ->; (split; [reflexivity|lia]).
  - intros [-> _]. do 3 apply list_elem_of_further. apply list_elem_of_here.
  - intros H. destruct (flt_lt p (Fin (5 # 100))); elem_cases H.
  - intros [-> Hpos]. lia.
Qed.

(** X4.  In a record returned by [analyze_correlation] the narrative and the
    stored labels agree: the narrative is the one generated from the
    record's own statistics, names, sample size and anomaly count; it says
    that the correlation is statistically significant exactly when the
    stored significance level is not "not significant"; and it mentions
    anomalies exactly when the stored count is positive, with that count. *)
Theorem analyze_narrative_consistent (city symbol : string)
    (ws : list WeatherData.t) (ss : list StockData.t) (wv sv : Column)
    (r : CorrelationResult.t) :
  analyze' city symbol ws ss wv sv = Some r ->
  let notes := CorrelationResult.analysis_notes r in
  notes = generate_insights (CorrelationResult.correlation_value r)
            (CorrelationResult.p_value r) (CorrelationResult.weather_variable r)
            (CorrelationResult.stock_variable r) (CorrelationResult.sample_size r)
            (CorrelationResult.anomalies_detected r)
  /\ (SignificantNote ∈ notes <->
      CorrelationResult.significance_level r <> "not significant")
  /\ (NotSignificantNote ∈ notes <->
      CorrelationResult.significance_level r = "not significant")
  /\ (forall n, AnomaliesNote n ∈ notes <->
        n = CorrelationResult.anomalies_detected r /\ (0 < n)%nat).
Proof.
  intros H notes. apply analyze_correlation_Some in H. destruct H as [H _].
  apply build_result_fields in H.
  destruct H as (_ & _ & _ & _ & Hlevel & Hnotes & _).
  split; [exact Hnotes|]. subst notes. rewrite Hnotes, Hlevel.
  rewrite significance_level_of_not_significant.
  destruct (generate_insights_significant
              (CorrelationResult.correlation_value r) (CorrelationResult.p_value r)
              (CorrelationResult.weather_variable r) (CorrelationResult.stock_variable r)
              (CorrelationResult.sample_size r) (CorrelationResult.anomalies_detected r))
    as [Hsig Hnot].
  split; [|split; [exact Hnot|]].
  - rewrite Hsig. now destruct (flt_lt _ _).
  - intros n. apply generate_insights_anomalies.
Qed.

End Record.

(** ** Orchestrator: the symbol *)

Lemma upper_ascii_idempotent (c : Ascii.ascii) :
  upper_ascii (upper_ascii c) = upper_ascii c.
Proof.
  destruct c as [b0 b1 b2 b3 b4 b5 b6 b7].
  destruct b0, b1, b2, b3, b4, b5, b6, b7; vm_compute; reflexivity.
Qed.

Lemma upper_idempotent (s : string) : upper (upper s) = upper s.
Proof.
  induction s as [|c s IH]; simpl; [reflexivity|].
  now rewrite upper_ascii_idempotent, IH.
Qed.

Lemma upper_ascii_range (c : Ascii.ascii) :
  (Ascii.nat_of_ascii c <? 128)%nat = true ->
  (Ascii.nat_of_ascii (upper_ascii c) <? 128)%nat = true
  /\ negb ((97 <=? Ascii.nat_of_ascii (upper_ascii c))
           && (Ascii.nat_of_ascii (upper_ascii c) <=? 122))%nat = true.
Proof.
  destruct c as [b0 b1 b2 b3 b4 b5 b6 b7].
  destruct b0, b1, b2, b3, b4, b5, b6, b7; vm_compute; intros H;
    first [discriminate H | split; reflexivity].
Qed.

Lemma upper_range (s : string) :
  is_ascii s = true -> is_ascii (upper s) = true /\ no_lower (upper s) = true.
Proof.
  induction s as [|c s IH]; [split; reflexivity|].
  cbn [is_ascii no_lower upper].
  intros H. apply andb_prop in H. destruct H as [Hc Hs].
  destruct (upper_ascii_range c Hc) as [H1 H2]. destruct (IH Hs) as [H3 H4].
  rewrite H1, H2, H3, H4. split; reflexivity.
Qed.

(** X5.  For a symbol of ASCII characters the analysis does not depend on
    its letter case: the symbol passed and its upper-case form give the same
    outcome, and a record returned stores the symbol in upper case, an ASCII
    string without lower-case letters. *)
Theorem analyze_symbol_case (pearson_statistic pearson_pvalue : list Q -> list Q -> Q)
    (zscore : list Q -> nat -> score) (commit : CorrelationResult.t -> bool)
    (city symbol : string)
    (ws : list WeatherData.t) (ss : list StockData.t) (wv sv : Column) :
  is_ascii symbol = true ->
  analyze_correlation pearson_statistic pearson_pvalue zscore commit
    city (upper symbol) ws ss wv sv
  = analyze_correlation pearson_statistic pearson_pvalue zscore commit
      city symbol ws ss wv sv
  /\ forall r,
       analyze_correlation pearson_statistic pearson_pvalue zscore commit
         city symbol ws ss wv sv = Some r ->
       CorrelationResult.symbol r = upper symbol
       /\ upper (CorrelationResult.symbol r) = CorrelationResult.symbol r
       /\ is_ascii (CorrelationResult.symbol r) = true
       /\ no_lower (CorrelationResult.symbol r) = true.
Proof.
  intros Hascii. split.
  - unfold analyze_correlation, build_result.
    destruct (align_time_series ws ss) as [|first rest]; [reflexivity|].
    destruct (calculate_correlation _ _ _ _) as [c p].
    now rewrite upper_idempotent.
  - intros r H. apply analyze_correlation_Some in H. destruct H as [H _].
    apply build_result_fields in H. destruct H as (_ & Hsym & _).
    rewrite Hsym. split; [reflexivity|]. split; [apply upper_idempotent|].
    apply upper_range, Hascii.
Qed.

Lemma analyze_symbol_case_witness :
  CorrelationResult.symbol two_day_result = upper "aapl"
  /\ upper (CorrelationResult.symbol two_day_result)
     = CorrelationResult.symbol two_day_result
  /\ is_ascii (CorrelationResult.symbol two_day_result) = true
  /\ no_lower (CorrelationResult.symbol two_day_result) = true.
Proof.
  destruct (analyze_symbol_case unused_statistic unused_statistic approx_zscore
              storage_up "New York" "aapl" two_day_weather two_day_stock
              Temperature ClosePrice eq_refl) as [_ H].
  apply H. apply two_day_analysis.
Defined.

(** ** Orchestrator: what a stored record satisfies *)

(** X6.  When the database stores only what satisfies the CHECK constraints
    of the table, a record returned by [analyze_correlation] spans at least
    one whole day between its first and last aligned row, and its
    coefficient and p-value are numbers, between -1 and 1 and between 0 and
    1: an analysis whose aligned rows lie within 24 hours, or whose
    statistics are NaN, returns nothing. *)
Theorem analyze_stored_within_constraints
    (pearson_statistic pearson_pvalue : list Q -> list Q -> Q)
    (zscore : list Q -> nat -> score) (commit : CorrelationResult.t -> bool)
    (city symbol : string)
    (ws : list WeatherData.t) (ss : list StockData.t) (wv sv : Column)
    (r : CorrelationResult.t) :
  (forall r', commit r' = true -> CorrelationResult.table_args_ok r' = true) ->
  analyze_correlation pearson_statistic pearson_pvalue zscore commit
    city symbol ws ss wv sv = Some r ->
  86400 <= CorrelationResult.end_date r - CorrelationResult.start_date r
  /\ (exists c, CorrelationResult.correlation_value r = Fin c
                /\ (-1 <= c)%Q /\ (c <= 1)%Q)
  /\ (exists p, CorrelationResult.p_value r = Fin p
                /\ (0 <= p)%Q /\ (p <= 1)%Q).
Proof.
  intros Hdb H. apply analyze_correlation_Some in H. destruct H as [Hbuild Hcommit].
  apply Hdb in Hcommit. unfold CorrelationResult.table_args_ok in Hcommit.
  repeat (apply andb_prop in Hcommit; destruct Hcommit as [Hcommit ?]).
  apply build_result_Some in Hbuild.
  destruct Hbuild as (_ & _ & _ & _ & _ & _ & _ & Hdays).
  split; [|split].
  - apply Z.ltb_lt in Hcommit. rewrite Hdays in Hcommit. unfold days in Hcommit.
    destruct (Z_lt_le_dec
                (CorrelationResult.end_date r - CorrelationResult.start_date r) 86400)
      as [Hlt|Hle]; [|exact Hle].
    exfalso.
    destruct (Z_lt_le_dec
                (CorrelationResult.end_date r - CorrelationResult.start_date r) 0)
      as [Hneg|Hpos].
    + assert ((CorrelationResult.end_date r - CorrelationResult.start_date r)
                `div` 86400 < 0) by (apply Z.div_lt_upper_bound; lia). lia.
    + rewrite Z.div_small in Hcommit by lia. lia.
  - destruct (CorrelationResult.correlation_value r) as [|c]; [discriminate|].
    exists c. split; [reflexivity|]. split; now apply Qle_bool_iff.
  - destruct (CorrelationResult.p_value r) as [|p]; [discriminate|].
    exists p. split; [reflexivity|]. split; now apply Qle_bool_iff.
Qed.

Lemma analyze_stored_within_constraints_witness :
  86400 <= CorrelationResult.end_date two_day_result
           - CorrelationResult.start_date two_day_result
  /\ (exists c, CorrelationResult.correlation_value two_day_result = Fin c
                /\ (-1 <= c)%Q /\ (c <= 1)%Q)
  /\ (exists p, CorrelationResult.p_value two_day_result = Fin p
                /\ (0 <= p)%Q /\ (p <= 1)%Q).
Proof.
  apply (analyze_stored_within_constraints unused_statistic unused_statistic
           approx_zscore storage_up "New York" "aapl" two_day_weather two_day_stock
           Temperature ClosePrice two_day_result).
  - intros r' Hr'. exact Hr'.
  - apply two_day_analysis.
Defined.

Lemma analyze_narrative_consistent_witness :
  NotSignificantNote ∈ CorrelationResult.analysis_notes two_day_result <->
  CorrelationResult.significance_level two_day_result = "not significant".
Proof.
  apply (analyze_narrative_consistent unused_statistic unused_statistic
           approx_zscore storage_up "New York" "aapl" two_day_weather two_day_stock
           Temperature ClosePrice two_day_result two_day_analysis).
Defined.

(** ** Anomaly detector: how many points can be flagged *)

Lemma inject_Z_succ (k : nat) :
  (inject_Z (Z.of_nat (S k)) == inject_Z (Z.of_nat k) + 1)%Q.
Proof. rewrite Nat2Z.inj_succ, <- Z.add_1_r, inject_Z_plus. reflexivity. Qed.

(** Markov's counting argument: of values that are not negative, those
    above [c] number at most their sum over [c], and fewer if there is
    one. *)
Lemma count_above_le {A : Type} (f : A -> Q) (c : Q) (l : list A) :
  (0 <= c)%Q -> (forall x, (0 <= f x)%Q) ->
  (c * inject_Z (Z.of_nat (length (filter (fun x => Qlt_bool c (f x) = true) l)))
   <= Qsum (map f l))%Q.
Proof.
  intros Hc Hf. induction l as [|x l IH]; simpl.
  - change (c * 0 <= 0)%Q. lra.
  - rewrite filter_cons. change (Qsum (f x :: map f l)) with (f x + Qsum (map f l))%Q.
    specialize (Hf x). destruct (decide (Qlt_bool c (f x) = true)) as [Hx|Hx].
    + apply Qlt_bool_iff in Hx.
      change (length (x :: ?t)) with (S (length t)). rewrite inject_Z_succ. lra.
    + lra.
Qed.

Lemma count_above_lt {A : Type} (f : A -> Q) (c : Q) (l : list A) :
  (0 <= c)%Q -> (forall x, (0 <= f x)%Q) ->
  filter (fun x => Qlt_bool c (f x) = true) l <> [] ->
  (c * inject_Z (Z.of_nat (length (filter (fun x => Qlt_bool c (f x) = true) l)))
   < Qsum (map f l))%Q.
Proof.
  intros Hc Hf. induction l as [|x l IH]; simpl; [done|].
  rewrite filter_cons. change (Qsum (f x :: map f l)) with (f x + Qsum (map f l))%Q.
  pose proof (count_above_le f c l Hc Hf) as Hle.
  pose proof (Hf x) as Hfx.
  destruct (decide (Qlt_bool c (f x) = true)) as [Hx|Hx].
  - intros _. apply Qlt_bool_iff in Hx.
    change (length (x :: ?t)) with (S (length t)). rewrite inject_Z_succ. lra.
  - intros Hne. specialize (IH Hne). lra.
Qed.

Lemma length_dropna_le (s : Series) : (length (dropna s) <= length s)%nat.
Proof.
  induction s as [|[i v] s IH]; [reflexivity|].
  destruct v.
  - change (dropna ((i, NaN) :: s)) with (dropna s). simpl. lia.
  - change (dropna ((i, Fin q) :: s)) with ((i, q) :: dropna s). simpl. lia.
Qed.

Lemma map_on_values (g : Q -> Q) (l : list (nat * Q)) :
  map (fun e : nat * Q => g e.2) l = map g l.*2.
Proof. induction l as [|e l IH]; [reflexivity|]. simpl. f_equal. exact IH. Qed.

(** In exact arithmetic, the points of a sample with spread that lie beyond
    [c] standard deviations of divisor [n] number less than [n / c^2]. *)
Lemma far_few (c : Q) (series : list (nat * Q)) :
  (0 <= c)%Q -> (0 < variance 0 series.*2)%Q ->
  let far := filter (fun e => abs_zscore_gt 0 series.*2 c e.2 = true) series in
  far <> [] ->
  (c * c * inject_Z (Z.of_nat (length far)) < inject_Z (Z.of_nat (length series)))%Q.
Proof.
  intros Hc Hv far Hne. subst far.
  set (a := series.*2) in *.
  set (f := fun e : nat * Q => ((e.2 - mean a) * (e.2 - mean a))%Q).
  set (v := variance 0 a) in *.
  change (filter _ series)
    with (filter (fun e => Qlt_bool (c * c * v) (f e) = true) series) in *.
  assert (Hf : forall e, (0 <= f e)%Q) by (intros e; apply square_nonneg).
  assert (Hsum : Qsum (map f series)
                 = Qsum (map (fun x => (x - mean a) * (x - mean a))%Q a)).
  { f_equal. unfold f.
    apply (map_on_values (fun x => (x - mean a) * (x - mean a))%Q). }
  assert (Hlen : length a = length series) by (unfold a; apply length_fmap).
  set (S := Qsum (map f series)) in *.
  set (N := inject_Z (Z.of_nat (length series))).
  assert (HN : (0 < N)%Q).
  { unfold N. change 0%Q with (inject_Z 0). rewrite <- Zlt_Qlt.
    destruct series as [|e series]; [|simpl; lia].
    exfalso. vm_compute in Hv. discriminate Hv. }
  assert (HS : (S == v * N)%Q).
  { unfold v, variance. rewrite <- Hsum, Hlen, Nat.sub_0_r. fold S N. field. lra. }
  assert (Hthr : (0 <= c * c * v)%Q).
  { apply Qmult_le_0_compat; [apply square_nonneg|lra]. }
  pose proof (count_above_lt f (c * c * v) series Hthr Hf Hne) as Hlt.
  fold S in Hlt.
  set (K := inject_Z (Z.of_nat
              (length (filter (fun e => Qlt_bool (c * c * v) (f e) = true) series))))
    in *.
  destruct (Qlt_le_dec (c * c * K) N) as [Hok|Hbad]; [exact Hok|].
  exfalso. assert (0 <= v * (c * c * K - N))%Q by (apply Qmult_le_0_compat; lra).
  lra.
Qed.

(** The labels recorded for a column, under scores accurate to [delta]:
    there are at least 10 values, the column has spread, and the labels are
    at most as many as the points that lie, in exact arithmetic, beyond
    [3 - delta] standard deviations. *)
Lemma anomaly_indices_count (zscore : list Q -> nat -> score) (delta : Q)
    (full : Series) (indices : list nat) :
  (0 <= delta)%Q -> (delta <= 3)%Q ->
  accurate delta (dropna full).*2 (zscore (dropna full).*2) ->
  anomaly_indices zscore full = Some indices ->
  (10 <= length (dropna full))%nat
  /\ (1 <= length indices)%nat
  /\ (0 < variance 0 (dropna full).*2)%Q
  /\ (length indices
      <= length (filter (fun e => abs_zscore_gt 0 (dropna full).*2 (3 - delta) e.2 = true)
                   (dropna full)))%nat.
Proof.
  intros Hd Hd3 Hacc H.
  assert (Hfar : forall k e,
             dropna full !! k = Some e ->
             abs_gt (zscore (dropna full).*2 k) anomaly_threshold = true ->
             (0 < variance 0 (dropna full).*2)%Q
             /\ abs_zscore_gt 0 (dropna full).*2 (3 - delta) e.2 = true).
  { intros k e Hk Hz.
    destruct (accurate_flagged delta _ _ k e.2 Hd Hd3 Hacc) as [Hv Hx];
      [rewrite list_lookup_fmap, Hk; reflexivity|exact Hz|].
    split; [exact Hv|]. apply Qlt_bool_iff. exact Hx. }
  pose proof (anomaly_indices_Some zscore full indices H) as (Hlen & Hne & Hflag).
  split; [exact Hlen|].
  split; [destruct indices; [done|simpl; lia]|]. split.
  - destruct indices as [|l rest]; [done|].
    destruct (proj1 (Hflag l) (list_elem_of_here _ _)) as (k & x & Hk & Hz).
    exact (proj1 (Hfar k (l, x) Hk Hz)).
  - unfold anomaly_indices in H.
    destruct (length (dropna full) <? 10)%nat; [discriminate|].
    destruct ((boolean_index _ _).*1) as [|i0 rest] eqn:Ef; [discriminate|].
    injection H as <-. rewrite <- Ef, length_fmap.
    apply length_boolean_index_imap. intros k e Hk Hz.
    exact (proj2 (Hfar k e Hk Hz)).
Qed.

(** With [delta] at most a tenth, such points number less than an eighth of
    the sample. *)
Lemma far_eighth (delta : Q) (series : list (nat * Q)) (K : nat) :
  (0 <= delta)%Q -> (delta <= 1 # 10)%Q ->
  (0 < variance 0 series.*2)%Q ->
  (1 <= K)%nat ->
  (K <= length (filter (fun e => abs_zscore_gt 0 series.*2 (3 - delta) e.2 = true)
                  series))%nat ->
  (8 * K < length series)%nat.
Proof.
  intros Hd Hd1 Hv Hone Hcount.
  assert (Hc : (0 <= 3 - delta)%Q) by lra.
  pose proof (far_few (3 - delta) series Hc Hv) as Hfew. simpl in Hfew.
  set (far := filter _ series) in *.
  assert (Hne : far <> []).
  { intros Hnil. rewrite Hnil in Hcount. simpl in Hcount. lia. }
  specialize (Hfew Hne).
  set (F := inject_Z (Z.of_nat (length far))) in *.
  assert (HF : (0 <= F)%Q).
  { unfold F. change 0%Q with (inject_Z 0). rewrite <- Zle_Qle. lia. }
  assert (H8 : (8 * F < inject_Z (Z.of_nat (length series)))%Q).
  { assert (0 <= ((3 - delta) * (3 - delta) - 8) * F)%Q
      by (apply Qmult_le_0_compat; [nra|exact HF]).
    lra. }
  unfold F in H8. change 8%Q with (inject_Z 8) in H8.
  rewrite <- inject_Z_mult, <- Zlt_Qlt in H8. lia.
Qed.

(** X7.  Few points of a column are ever flagged.  When the scores that
    scipy returns for a column are accurate to a tenth and labels are
    recorded for it, the column has at least 10 values present and the
    labels number less than an eighth of them. *)
Theorem anomaly_indices_few (zscore : list Q -> nat -> score) (delta : Q)
    (full : Series) (indices : list nat) :
  (0 <= delta)%Q -> (delta <= 1 # 10)%Q ->
  accurate delta (dropna full).*2 (zscore (dropna full).*2) ->
  anomaly_indices zscore full = Some indices ->
  (10 <= length (dropna full))%nat
  /\ (8 * length indices < length (dropna full))%nat.
Proof.
  intros Hd Hd1 Hacc H.
  destruct (anomaly_indices_count zscore delta full indices Hd ltac:(lra) Hacc H)
    as (Hlen & Hone & Hv & Hcount).
  split; [exact Hlen|].
  exact (far_eighth delta (dropna full) (length indices) Hd Hd1 Hv Hone Hcount).
Qed.

(** Accuracy of the stand-in for scipy's scores on values that are given,
    position by position. *)
Ltac accurate_on_values :=
  let k := fresh "k" in
  let x := fresh "x" in
  let Hk := fresh "Hk" in
  intros k x Hk;
  repeat (destruct k as [|k];
          [injection Hk as <-;
           match goal with
           | |- context [approx_zscore ?a ?i] =>
               let v := eval vm_compute in (approx_zscore a i) in
               change (approx_zscore a i) with v
           end;
           cbv beta iota;
           split;
           [by_computation
           |first [left; by_computation | right; split; by_computation]]|]);
  discriminate Hk.

Lemma anomaly_indices_few_witness :
  (10 <= length (dropna (series_of spread_values)))%nat
  /\ (8 * length [10%nat] < length (dropna (series_of spread_values)))%nat.
Proof.
  apply (anomaly_indices_few approx_zscore (1 # 100) (series_of spread_values)
           [10%nat]).
  - by_computation.
  - by_computation.
  - exact approx_zscore_spread.
  - vm_compute. reflexivity.
Defined.

(** ** Orchestrator: the anomaly count *)

Lemma to_frame_column (df : AlignedFrame) (c : Column) :
  to_frame df !! column_name c = Some (column c df).
Proof. destruct c; reflexivity. Qed.

Lemma anomalies_count_two (zscore : list Q -> nat -> score)
    (data : gmap string Series) (c1 c2 : string) (M : nat) :
  (forall col full indices,
     col = c1 \/ col = c2 ->
     data !! col = Some full -> anomaly_indices zscore full = Some indices ->
     (length indices <= M)%nat) ->
  (map_fold (fun (_ : string) (indices : list nat) n => (length indices + n)%nat)
     0%nat (detect_anomalies zscore data [c1; c2]) <= 2 * M)%nat.
Proof.
  intros Hbound. unfold detect_anomalies. simpl.
  assert (Hcomm : forall (m : gmap string (list nat)) (j1 j2 : string)
                    (z1 z2 : list nat) (y : nat),
             j1 <> j2 -> m !! j1 = Some z1 -> m !! j2 = Some z2 ->
             (length z1 + (length z2 + y) = length z2 + (length z1 + y))%nat)
    by (intros; lia).
  pose proof (fun full indices => Hbound c1 full indices (or_introl eq_refl)) as Hb1.
  pose proof (fun full indices => Hbound c2 full indices (or_intror eq_refl)) as Hb2.
  destruct (data !! c1) as [full1|] eqn:E1;
    [destruct (anomaly_indices zscore full1) as [i1|] eqn:A1|];
    (destruct (data !! c2) as [full2|] eqn:E2;
     [destruct (anomaly_indices zscore full2) as [i2|] eqn:A2|]);
    rewrite ?map_fold_empty; try lia.
  - destruct (decide (c1 = c2)) as [->|Hne].
    + rewrite insert_insert_eq, map_fold_insert_L;
        [|apply Hcomm|apply lookup_empty].
      rewrite map_fold_empty. specialize (Hb2 _ _ eq_refl A2). lia.
    + rewrite map_fold_insert_L;
        [|apply Hcomm|rewrite lookup_insert_ne by done; apply lookup_empty].
      rewrite map_fold_insert_L; [|apply Hcomm|apply lookup_empty].
      rewrite map_fold_empty.
      specialize (Hb1 _ _ eq_refl A1). specialize (Hb2 _ _ eq_refl A2). lia.
  - rewrite map_fold_insert_L; [|apply Hcomm|apply lookup_empty].
    rewrite map_fold_empty. specialize (Hb1 _ _ eq_refl A1). lia.
  - rewrite map_fold_insert_L; [|apply Hcomm|apply lookup_empty].
    rewrite map_fold_empty. specialize (Hb1 _ _ eq_refl A1). lia.
  - rewrite map_fold_insert_L; [|apply Hcomm|apply lookup_empty].
    rewrite map_fold_empty. specialize (Hb2 _ _ eq_refl A2). lia.
  - rewrite map_fold_insert_L; [|apply Hcomm|apply lookup_empty].
    rewrite map_fold_empty. specialize (Hb2 _ _ eq_refl A2). lia.
Qed.

(** X8.  When the scores that scipy returns for the two variables are
    accurate to a tenth, the anomaly count of a returned record is below a
    quarter of its sample size (each of the two variables contributes less
    than an eighth); and it is 0 when there are fewer than 10 aligned
    rows, whatever the scores. *)
Theorem analyze_anomalies_bounded
    (pearson_statistic pearson_pvalue : list Q -> list Q -> Q)
    (zscore : list Q -> nat -> score) (commit : CorrelationResult.t -> bool)
    (city symbol : string)
    (ws : list WeatherData.t) (ss : list StockData.t) (wv sv : Column)
    (r : CorrelationResult.t) (delta : Q) :
  (0 <= delta)%Q -> (delta <= 1 # 10)%Q ->
  (forall c, c = wv \/ c = sv ->
     accurate delta (dropna (column c (align_time_series ws ss))).*2
       (zscore (dropna (column c (align_time_series ws ss))).*2)) ->
  analyze_correlation pearson_statistic pearson_pvalue zscore commit
    city symbol ws ss wv sv = Some r ->
  (4 * CorrelationResult.anomalies_detected r < CorrelationResult.sample_size r)%nat
  /\ ((CorrelationResult.sample_size r < 10)%nat ->
      CorrelationResult.anomalies_detected r = 0%nat).
Proof.
  intros Hd Hd1 Hacc H. apply analyze_correlation_Some in H. destruct H as [H _].
  pose proof (build_result_fields _ _ _ _ _ _ _ _ _ _ H) as Hf.
  destruct Hf as (_ & _ & _ & _ & _ & _ & Hcount).
  apply build_result_Some in H. destruct H as (Hne & Hsize & _).
  set (n := length (align_time_series ws ss)) in *.
  assert (Hn : (1 <= n)%nat).
  { unfold n. destruct (align_time_series ws ss); [done|simpl; lia]. }
  assert (Hle : (CorrelationResult.anomalies_detected r <= 2 * ((n - 1) / 8))%nat).
  { rewrite Hcount. apply anomalies_count_two. intros col full indices Hcol Hfull Hind.
    assert (Hc : exists c, (c = wv \/ c = sv)
                           /\ full = column c (align_time_series ws ss)).
    { destruct Hcol as [->| ->]; rewrite to_frame_column in Hfull;
        injection Hfull as <-; [exists wv|exists sv]; split; auto. }
    destruct Hc as (c & Hc & ->).
    destruct (anomaly_indices_count zscore delta _ indices Hd ltac:(lra)
                (Hacc c Hc) Hind) as (_ & Hone & Hv & Hfar).
    pose proof (far_eighth delta _ (length indices) Hd Hd1 Hv Hone Hfar) as Hfew.
    pose proof (length_dropna_le (column c (align_time_series ws ss))) as Hdrop.
    unfold column in Hdrop at 2. rewrite length_map in Hdrop. fold n in Hdrop.
    apply Nat.div_le_lower_bound; lia. }
  rewrite Hsize.
  pose proof (Nat.Div0.mul_div_le (n - 1) 8) as Hdiv.
  split; [lia|]. intros Hsmall.
  assert (Hzero : (CorrelationResult.anomalies_detected r <= 2 * 0)%nat); [|lia].
  rewrite Hcount. apply anomalies_count_two. intros col full indices Hcol Hfull Hind.
  exfalso.
  assert (Hc : exists c, full = column c (align_time_series ws ss)).
  { destruct Hcol as [->| ->]; rewrite to_frame_column in Hfull;
      injection Hfull as <-; eexists; reflexivity. }
  destruct Hc as (c & ->).
  apply anomaly_indices_Some in Hind. destruct Hind as [Hten _].
  pose proof (length_dropna_le (column c (align_time_series ws ss))) as Hdrop.
  unfold column in Hdrop at 2. rewrite length_map in Hdrop. fold n in Hdrop. lia.
Qed.

(** Eleven aligned rows, of which the last temperature is flagged. *)
Lemma analyze_anomalies_bounded_witness :
  exists r,
    analyze_correlation unused_statistic unused_statistic approx_zscore storage_up
      "New York" "aapl" eleven_day_weather eleven_day_stock Temperature ClosePrice
    = Some r
    /\ CorrelationResult.sample_size r = 11%nat
    /\ CorrelationResult.anomalies_detected r = 1%nat
    /\ (4 * CorrelationResult.anomalies_detected r
        < CorrelationResult.sample_size r)%nat.
Proof.
  eexists. split; [vm_compute; reflexivity|].
  split; [reflexivity|]. split; [reflexivity|].
  refine (proj1 (analyze_anomalies_bounded unused_statistic unused_statistic
                   approx_zscore storage_up "New York" "aapl"
                   eleven_day_weather eleven_day_stock Temperature ClosePrice
                   _ (1 # 100) _ _ _ _)).
  - by_computation.
  - by_computation.
  - intros c [->| ->];
      match goal with
      | |- accurate _ ?a _ =>
          let v := eval vm_compute in a in change a with v
      end;
      accurate_on_values.
  - vm_compute. reflexivity.
Defined.

(** ** Correlation calculator: the computed case *)

Lemma paired_labels (x y : Series) :
  x.*1 = y.*1 -> (paired x y).*1.*1 = (paired x y).*2.*1.
Proof.
  unfold paired. revert y.
  induction x as [|a x IH]; intros [|b y] H; try reflexivity; try discriminate H.
  injection H as Hab Hxy. simpl. rewrite filter_cons.
  destruct (decide (both_present (a, b))); simpl; [f_equal; [exact Hab|]|];
    apply IH, Hxy.
Qed.

(** X9.  For two series over one index, as the columns of one frame are:
    when both have at least 10 values, at least 10 pairs are left by paired
    removal and neither side of these pairs is constant,
    [calculate_correlation] returns scipy's statistic and p-value of the
    values of these pairs.  The two sides keep the same labels and so are as
    many: a value missing on one side removes the value at that index on the
    other side and nothing else. *)
Theorem calculate_correlation_computed
    (pearson_statistic pearson_pvalue : list Q -> list Q -> Q) (x y : Series) :
  x.*1 = y.*1 ->
  (10 <= length x)%nat -> (10 <= length y)%nat ->
  (10 <= length (paired x y))%nat ->
  is_constant (clean_x x y) = false ->
  is_constant (clean_y x y) = false ->
  calculate_correlation pearson_statistic pearson_pvalue x y
  = (Fin (pearson_statistic (clean_x x y) (clean_y x y)),
     Fin (pearson_pvalue (clean_x x y) (clean_y x y)))
  /\ (paired x y).*1.*1 = (paired x y).*2.*1
  /\ length (clean_x x y) = length (paired x y)
  /\ length (clean_y x y) = length (paired x y).
Proof.
  intros Hindex Hx Hy Hp Hcx Hcy.
  assert (Hlx : length (clean_x x y) = length (paired x y)).
  { unfold clean_x. rewrite length_fmap.
    rewrite (length_dropna_present _ (paired_present_l x y)). apply length_fmap. }
  assert (Hly : length (clean_y x y) = length (paired x y)).
  { unfold clean_y. rewrite length_fmap.
    rewrite (length_dropna_present _ (paired_present_r x y)). apply length_fmap. }
  split; [|split; [apply paired_labels, Hindex|split; assumption]].
  unfold calculate_correlation, min_sample_size.
  apply Nat.ltb_ge in Hx, Hy. rewrite Hx, Hy. simpl.
  rewrite boolean_index_paired_l, boolean_index_paired_r, length_fmap.
  apply Nat.ltb_ge in Hp. rewrite Hp. apply Nat.ltb_ge in Hp.
  fold (clean_x x y) (clean_y x y). unfold pearsonr.
  rewrite Hlx, Hly, Nat.eqb_refl, Hcx, Hcy. simpl.
  destruct (length (paired x y) <? 2)%nat eqn:E2;
    [apply Nat.ltb_lt in E2; lia|reflexivity].
Qed.

Lemma calculate_correlation_computed_witness :
  calculate_correlation unused_statistic unused_statistic
    (series_of rising_values) (series_of rising_values)
  = (Fin (unused_statistic rising_values rising_values),
     Fin (unused_statistic rising_values rising_values)).
Proof.
  apply (calculate_correlation_computed unused_statistic unused_statistic
           (series_of rising_values) (series_of rising_values)).
  - reflexivity.
  - vm_compute. lia.
  - vm_compute. lia.
  - vm_compute. lia.
  - vm_compute. reflexivity.
  - vm_compute. reflexivity.
Defined.

(** ** The market model *)

Lemma truthy_positive (q : Q) : (0 < q)%Q -> truthy (Some q) = true.
Proof.
  intros Hq. simpl. apply negb_true_iff.
  destruct (Qeq_bool q 0) eqn:E; [|reflexivity].
  apply Qeq_bool_iff in E. rewrite E in Hq. exfalso. exact (Qlt_irrefl 0 Hq).
Qed.

(** Exact arithmetic is one of the roundings. *)
Lemma exact_rounding : rounding no_rounding.
Proof.
  split; unfold no_rounding.
  - intros x y H. exact H.
  - intros n _. reflexivity.
  - intros x. reflexivity.
  - intros x. reflexivity.
  - intros x _ _. apply Qabs_Qle_condition.
    assert (0 <= Qabs x * (1 # 9007199254740992))%Q
      by (apply Qmult_le_0_compat; [apply Qabs_nonneg|discriminate]).
    split; lra.
Qed.

Section Rounding.

Variable fl : Q -> Q.
Hypothesis fl_rounding : rounding fl.

Lemma fl_zero : (fl 0 == 0)%Q.
Proof. exact (fl_integer fl fl_rounding 0 ltac:(lia)). Qed.

Lemma fl_nonneg (x : Q) : (0 <= x)%Q -> (0 <= fl x)%Q.
Proof.
  intros H. pose proof (fl_monotone fl fl_rounding 0 x H). pose proof fl_zero. lra.
Qed.

Lemma fl_nonpos (x : Q) : (x <= 0)%Q -> (fl x <= 0)%Q.
Proof.
  intros H. pose proof (fl_monotone fl fl_rounding x 0 H). pose proof fl_zero. lra.
Qed.

Lemma fl_positive (x : Q) :
  (min_normal <= x)%Q -> (x <= max_normal)%Q -> (0 < fl x)%Q.
Proof.
  intros Hmin Hmax.
  assert (H : (0 < x)%Q).
  { apply (Qlt_le_trans _ min_normal); [reflexivity|exact Hmin]. }
  pose proof (fl_error fl fl_rounding x) as He.
  rewrite (Qabs_pos x) in He by lra.
  specialize (He Hmin Hmax).
  apply Qabs_Qle_condition in He. destruct He as [He _].
  assert (x * (1 # 9007199254740992) < x)%Q; [|lra].
  assert (0 < x * (1 - (1 # 9007199254740992)))%Q; [|lra].
  apply Qmult_lt_0_compat; [exact H|reflexivity].
Qed.

(** A bound that is an integer is kept by rounding. *)
Lemma fl_ge_integer (n : Z) (x : Q) :
  Z.abs n <= 2 ^ 53 -> (inject_Z n <= x)%Q -> (inject_Z n <= fl x)%Q.
Proof.
  intros Hn H. pose proof (fl_monotone fl fl_rounding _ _ H).
  pose proof (fl_integer fl fl_rounding n Hn). lra.
Qed.

Lemma fl_le_integer (n : Z) (x : Q) :
  Z.abs n <= 2 ^ 53 -> (x <= inject_Z n)%Q -> (fl x <= inject_Z n)%Q.
Proof.
  intros Hn H. pose proof (fl_monotone fl fl_rounding _ _ H).
  pose proof (fl_integer fl fl_rounding n Hn). lra.
Qed.

End Rounding.

(** A positive value of a [Numeric(12, 4)] column is a normal binary64
    number, up to rounding. *)
Lemma numeric_normal (q : Q) :
  numeric_12_4 q -> (0 < q)%Q -> (min_normal <= q)%Q /\ (q <= max_normal)%Q.
Proof.
  intros (n & Hq & Hn) Hpos.
  assert (Hn0 : 0 < n).
  { destruct (Z_lt_le_dec 0 n) as [Hlt|Hle]; [exact Hlt|]. exfalso.
    rewrite Zle_Qle in Hle. change (inject_Z 0) with 0%Q in Hle.
    assert (inject_Z n / 10000 <= 0)%Q; [|lra].
    apply Qle_shift_div_r; [reflexivity|]. lra. }
  assert (H1 : (1 <= inject_Z n)%Q).
  { change 1%Q with (inject_Z 1). rewrite <- Zle_Qle. lia. }
  assert (H2 : (inject_Z n <= inject_Z (10 ^ 12))%Q).
  { rewrite <- Zle_Qle. lia. }
  assert (Hlow : (1 # 10000 <= q)%Q).
  { rewrite Hq. apply Qle_shift_div_l; [reflexivity|]. lra. }
  assert (Hhigh : (q <= inject_Z (10 ^ 8))%Q).
  { rewrite Hq. apply Qle_shift_div_r; [reflexivity|].
    assert (inject_Z (10 ^ 8) * 10000 == inject_Z (10 ^ 12))%Q by reflexivity.
    lra. }
  assert (Hmin : (min_normal <= 1 # 10000)%Q) by (vm_compute; discriminate).
  assert (Hmax : (inject_Z (10 ^ 8) <= max_normal)%Q) by (vm_compute; discriminate).
  split; lra.
Qed.

(** X10.  For a stored market sample, one that has values of the column type
    for its prices and satisfies the constraints of its table, and whatever
    the rounding of the floats: the volatility is not negative,
    the daily change lies within the volatility in absolute value, the
    daily change in percent is at least -100 and has the sign of close -
    open when it is not zero; and the row the sample gives in the data frame
    has its close price and its volatility, so the aligner never drops it
    for a missing close price.  [StockData.volatility] and
    [StockData.daily_change] are the exact differences of the decimals,
    which the properties convert to floats: [fl] of them is what the code
    returns. *)
Theorem stock_derived_quantities (fl : Q -> Q) (s : StockData.t) :
  rounding fl ->
  stock_columns_ok s ->
  stock_table_args_ok s = true ->
  (0 <= fl (StockData.volatility s))%Q
  /\ (Qabs (fl (StockData.daily_change s)) <= fl (StockData.volatility s))%Q
  /\ (-100 <= daily_change_percent fl s)%Q
  /\ (exists o c,
        StockData.open_price s = Some o /\ StockData.close_price s = Some c
        /\ ((0 < daily_change_percent fl s)%Q -> (o < c)%Q)
        /\ ((daily_change_percent fl s < 0)%Q -> (c < o)%Q))
  /\ isna (s_close_price (stock_row s)) = false
  /\ isna (s_volatility (stock_row s)) = false.
Proof.
  unfold stock_table_args_ok, stock_columns_ok. intros Hfl (Hnum & _) H.
  destruct (StockData.open_price s) as [o|] eqn:Eo; [|discriminate].
  simpl in Hnum.
  destruct (StockData.close_price s) as [c|] eqn:Ec; [|discriminate].
  destruct (StockData.high_price s) as [h|] eqn:Eh; [|discriminate].
  destruct (StockData.low_price s) as [l|] eqn:El; [|discriminate].
  destruct (StockData.volume s) as [v|] eqn:Ev; [|discriminate].
  repeat (apply andb_prop in H; destruct H as [H ?]).
  repeat match goal with
         | K : Qlt_bool _ _ = true |- _ => apply Qlt_bool_iff in K
         | K : Qle_bool _ _ = true |- _ => apply Qle_bool_iff in K
         end.
  assert (Hvol : StockData.volatility s = (h - l)%Q).
  { unfold StockData.volatility. rewrite Eh, El.
    now rewrite !truthy_positive by assumption. }
  assert (Hchg : StockData.daily_change s = (c - o)%Q).
  { unfold StockData.daily_change. rewrite Ec, Eo.
    now rewrite !truthy_positive by assumption. }
  assert (Hpct : daily_change_percent fl s
                 = fl (fl (fl (fl c - fl o) / fl o) * 100)%Q).
  { unfold daily_change_percent. rewrite Eo, Ec.
    rewrite !truthy_positive by assumption.
    assert (Ho : Qlt_bool 0 o = true) by now apply Qlt_bool_iff.
    now rewrite Ho. }
  destruct (numeric_normal o Hnum ltac:(assumption)) as [Hmin Hmax].
  pose proof (fl_positive fl Hfl o Hmin Hmax) as Hb.
  pose proof (fl_nonneg fl Hfl c ltac:(lra)) as Ha.
  set (a := fl c) in *. set (b := fl o) in *.
  rewrite Hvol, Hchg, Hpct.
  split; [apply (fl_nonneg fl Hfl); lra|]. split; [|split; [|split; [|split]]].
  - apply Qabs_Qle_condition. split.
    + pose proof (fl_opp fl Hfl (h - l)) as Hopp.
      pose proof (fl_monotone fl Hfl (- (h - l)) (c - o) ltac:(lra)). lra.
    + apply (fl_monotone fl Hfl). lra.
  - apply (fl_ge_integer fl Hfl (-100)); [lia|].
    change (inject_Z (-100)) with (-100)%Q.
    assert (Hq : (-1 <= fl (fl (a - b) / b))%Q).
    { apply (fl_ge_integer fl Hfl (-1)); [lia|].
      change (inject_Z (-1)) with (-1)%Q.
      apply Qle_shift_div_l; [exact Hb|].
      pose proof (fl_monotone fl Hfl (- b) (a - b) ltac:(lra)) as Hm.
      pose proof (fl_opp fl Hfl b) as Hopp.
      pose proof (fl_idempotent fl Hfl o) as Hid. fold b in Hid. lra. }
    lra.
  - exists o, c. split; [reflexivity|]. split; [reflexivity|]. split.
    + intros Hpos. destruct (Qlt_le_dec o c) as [Hlt|Hle]; [exact Hlt|]. exfalso.
      pose proof (fl_monotone fl Hfl c o Hle) as Hab. fold a b in Hab.
      pose proof (fl_nonpos fl Hfl (a - b) ltac:(lra)) as He.
      assert (Hq : (fl (fl (a - b) / b) <= 0)%Q).
      { apply (fl_nonpos fl Hfl). apply Qle_shift_div_r; [exact Hb|]. lra. }
      pose proof (fl_nonpos fl Hfl (fl (fl (a - b) / b) * 100)%Q ltac:(lra)). lra.
    + intros Hneg. destruct (Qlt_le_dec c o) as [Hlt|Hle]; [exact Hlt|]. exfalso.
      pose proof (fl_monotone fl Hfl o c Hle) as Hab. fold a b in Hab.
      pose proof (fl_nonneg fl Hfl (a - b) ltac:(lra)) as He.
      assert (Hq : (0 <= fl (fl (a - b) / b))%Q).
      { apply (fl_nonneg fl Hfl). apply Qle_shift_div_l; [exact Hb|]. lra. }
      pose proof (fl_nonneg fl Hfl (fl (fl (a - b) / b) * 100)%Q ltac:(lra)). lra.
  - unfold stock_row. simpl. unfold float_if_truthy. rewrite Ec.
    now rewrite truthy_positive by assumption.
  - reflexivity.
Qed.

(** A sample that opens at 1 and closes at 1/2, in exact arithmetic. *)
Lemma stock_derived_quantities_witness :
  (-100 <= daily_change_percent no_rounding falling_stock)%Q.
Proof.
  destruct (stock_derived_quantities no_rounding falling_stock exact_rounding)
    as (_ & _ & Hpct & _).
  - repeat split; simpl;
      [exists 10000|exists 5000|exists 10000|exists 5000]; split;
      first [reflexivity | lia].
  - vm_compute. reflexivity.
  - exact Hpct.
Defined.

(** ** Labels of the narrative and labels of the record *)

(** X11.  For one coefficient and one p-value the narrative of
    [generate_insights], the label stored in [significance_level] and the
    three categories computed by the record always agree: the strengths and
    the directions correspond one to one ("very weak" to "very_weak",
    "negligible" to "none"), and the stored level names the category, "not
    significant" standing for both "low" and "none". *)
Theorem labels_agree (c p : pyfloat) :
  (strength_of c = "strong" <->
   CorrelationResult.get_correlation_strength (Some c) = "strong")
  /\ (strength_of c = "moderate" <->
      CorrelationResult.get_correlation_strength (Some c) = "moderate")
  /\ (strength_of c = "weak" <->
      CorrelationResult.get_correlation_strength (Some c) = "weak")
  /\ (strength_of c = "very weak" <->
      CorrelationResult.get_correlation_strength (Some c) = "very_weak")
  /\ ((direction_of c).1 = "positive" <->
      CorrelationResult.get_correlation_direction (Some c) = "positive")
  /\ ((direction_of c).1 = "negative" <->
      CorrelationResult.get_correlation_direction (Some c) = "negative")
  /\ ((direction_of c).1 = "negligible" <->
      CorrelationResult.get_correlation_direction (Some c) = "none")
  /\ (significance_level_of p = "p < 0.001" <->
      CorrelationResult.get_significance_category (Some p) = "very_high")
  /\ (significance_level_of p = "p < 0.01" <->
      CorrelationResult.get_significance_category (Some p) = "high")
  /\ (significance_level_of p = "p < 0.05" <->
      CorrelationResult.get_significance_category (Some p) = "medium")
  /\ (significance_level_of p = "not significant" <->
      CorrelationResult.get_significance_category (Some p) = "low"
      \/ CorrelationResult.get_significance_category (Some p) = "none").
Proof.
  unfold strength_of, direction_of, significance_level_of,
    CorrelationResult.get_correlation_strength,
    CorrelationResult.get_correlation_direction,
    CorrelationResult.get_significance_category.
  destruct (flt_ge (flt_abs c) (Fin (7 # 10))),
           (flt_ge (flt_abs c) (Fin (4 # 10))),
           (flt_ge (flt_abs c) (Fin (2 # 10))),
           (flt_gt c (Fin (5 # 100))),
           (flt_lt c (Fin (- (5 # 100))));
    destruct (flt_lt p (Fin (1 # 1000))),
             (flt_lt p (Fin (1 # 100))),
             (flt_lt p (Fin (5 # 100))),
             (flt_lt p (Fin (1 # 10)));
    simpl; repeat split; intros H;
    first [reflexivity | discriminate H
          | destruct H as [H|H]; discriminate H
          | (left; reflexivity) | (right; reflexivity)].
Qed.

(** ** The rule-based insight against the narrative *)

(** [case_order], in the hypotheses as well. *)
Ltac case_order_all :=
  repeat match goal with
    | |- context [Qle_bool ?a ?b] =>
        let E := fresh "E" in
        destruct (Qle_bool a b) eqn:E;
        [apply Qle_bool_iff in E | apply Qle_bool_false_iff in E]
    | H : context [Qle_bool ?a ?b] |- _ =>
        let E := fresh "E" in
        destruct (Qle_bool a b) eqn:E;
        [apply Qle_bool_iff in E | apply Qle_bool_false_iff in E]
    end.

(** X12.  The rule-based insight and the narrative of the analysis classify
    one coefficient r differently at the edges.  Its strength thresholds are
    exclusive: the two strengths agree unless |r| is exactly 0.7, 0.4 or
    0.2, where the insight gives the weaker label.  Its direction has no
    dead band: it is "positive" for r > 0 and "negative" otherwise, also for
    r = 0, where the narrative says "negligible" for every r between -0.05
    and 0.05. *)
Theorem fallback_insight_labels (data : InsightData) (r : Q) :
  d_correlation_value data = Some (Fin r) ->
  let text := statistical (generate_fallback_insight data) in
  (stated_strength text = strength_of (Fin r) <->
   ~ (Qabs r == 7 # 10)%Q /\ ~ (Qabs r == 4 # 10)%Q /\ ~ (Qabs r == 2 # 10)%Q)
  /\ ((Qabs r == 7 # 10)%Q ->
      stated_strength text = "moderate" /\ strength_of (Fin r) = "strong")
  /\ ((Qabs r == 4 # 10)%Q ->
      stated_strength text = "weak" /\ strength_of (Fin r) = "moderate")
  /\ ((Qabs r == 2 # 10)%Q ->
      stated_strength text = "very weak" /\ strength_of (Fin r) = "weak")
  /\ (stated_direction text = "positive" <-> (0 < r)%Q)
  /\ (stated_direction text = "negative" <-> (r <= 0)%Q)
  /\ ((-(5 # 100) <= r)%Q /\ (r <= 5 # 100)%Q ->
      (direction_of (Fin r)).1 = "negligible").
Proof.
  intros Hr text. subst text. unfold generate_fallback_insight. rewrite Hr.
  simpl. unfold strength_of, direction_of, flt_gt, flt_ge, flt_lt, flt_abs, Qlt_bool.
  split; [|split; [|split; [|split; [|split; [|split]]]]].
  - split.
    + intros H. repeat split; intros Heq; case_order_all; simpl in *;
        first [discriminate H | (exfalso; lra)].
    + intros (H7 & H4 & H2). case_order_all; simpl; try reflexivity; exfalso;
        first [lra | (apply H7; lra) | (apply H4; lra) | (apply H2; lra)].
  - intros Heq. split; case_order_all; simpl; try reflexivity; exfalso; lra.
  - intros Heq. split; case_order_all; simpl; try reflexivity; exfalso; lra.
  - intros Heq. split; case_order_all; simpl; try reflexivity; exfalso; lra.
  - split; intros H; case_order_all; simpl in *;
      first [reflexivity | discriminate H | lra | (exfalso; lra)].
  - split; intros H; case_order_all; simpl in *;
      first [reflexivity | discriminate H | lra | (exfalso; lra)].
  - intros [Hlo Hhi]. case_order_all; simpl in *; try reflexivity; exfalso; lra.
Qed.

Lemma fallback_insight_labels_witness :
  stated_strength
    (statistical (generate_fallback_insight
       (mkInsightData (Some (Fin (7 # 10))) (Some (Fin (1 # 100))) (Some 45%nat)
          (Some "New York") (Some "AAPL") (Some "temperature") (Some "close_price"))))
  = "moderate"
  /\ strength_of (Fin (7 # 10)) = "strong".
Proof.
  apply (fallback_insight_labels
           (mkInsightData (Some (Fin (7 # 10))) (Some (Fin (1 # 100))) (Some 45%nat)
              (Some "New York") (Some "AAPL") (Some "temperature") (Some "close_price"))
           (7 # 10) eq_refl).
  reflexivity.
Defined.

(** ** The MCP client: retries and their shared counter *)

Section ClientFacts.

Import MCPClient.

Context {V : Type} (empty_list : V) (sized : V -> bool).
Context (config : gmap string ServerConfig).
Context (run : nat -> ServerConfig -> string -> list (string * string) ->
               option (Result V)).
Context (isoformat : Z -> string).

Abbreviation fetch := (get_data V empty_list sized config run).

Lemma pow2_le_16 (c : nat) : (c <= 3 -> 2 ^ S c <= 16)%nat.
Proof.
  intros Hc. destruct c as [|[|[|[|c]]]]; simpl; lia.
Qed.

Lemma pow2_double (c : nat) : (2 ^ S (S c) = 2 * 2 ^ S c)%nat.
Proof. simpl. lia. Qed.

Lemma pow2_ge_2 (c : nat) : (2 <= 2 ^ S c)%nat.
Proof. induction c as [|c IH]; [simpl; lia|]. rewrite pow2_double. lia. Qed.

Local Opaque Nat.pow.

(** Whatever the replies, a call ends, within 4 attempts and 14 seconds. *)
Lemma get_data_bounded (server method : string) (params : list (string * string))
    (fuel : nat) (st : State) :
  (retry_count st <= max_retries)%nat ->
  (max_retries - retry_count st < fuel)%nat ->
  exists res st',
    fetch fuel server method params st = Some (res, st')
    /\ (retry_count st' <= max_retries)%nat
    /\ (clock st <= clock st')%nat
    /\ (clock st' + 2 ^ S (retry_count st) <= clock st + 16)%nat
    /\ (commands st <= commands st')%nat
    /\ (commands st' + retry_count st <= commands st + 4)%nat.
Proof.
  unfold max_retries. revert st.
  induction fuel as [|fuel IH]; intros st Hc Hfuel; [lia|].
  pose proof (pow2_le_16 _ Hc) as Hpow. simpl.
  unfold execute_mcp_command, get_server_config.
  destruct (config !! server) as [sc|].
  - destruct (usable V (run (commands st) sc method params)) as [r|].
    + eexists _, _. split; [reflexivity|]. simpl. lia.
    + simpl. destruct (retry_count st <? max_retries)%nat eqn:E.
      * apply Nat.ltb_lt in E. unfold max_retries in E.
        destruct (IH (mkState (S (retry_count st))
                        (clock st + 2 ^ S (retry_count st)) (S (commands st))))
          as (res & st' & Heq & H1 & H2 & H3 & H4 & H5); simpl; try lia.
        exists res, st'. split; [exact Heq|]. simpl in *.
        pose proof (pow2_double (retry_count st)). lia.
      * eexists _, _. split; [reflexivity|]. simpl. lia.
  - simpl. destruct (retry_count st <? max_retries)%nat eqn:E.
    + apply Nat.ltb_lt in E. unfold max_retries in E.
      destruct (IH (mkState (S (retry_count st))
                      (clock st + 2 ^ S (retry_count st)) (commands st)))
        as (res & st' & Heq & H1 & H2 & H3 & H4 & H5); simpl; try lia.
      exists res, st'. split; [exact Heq|]. simpl in *.
      pose proof (pow2_double (retry_count st)). lia.
    + eexists _, _. split; [reflexivity|]. simpl. lia.
Qed.

(** X13.  A call of [get_weather_data] or [get_stock_data] always ends, by a
    return or by an exception: whatever the server replies, it starts at
    most 4 subprocesses, sleeps at most 14 seconds in all, and leaves the
    retry counter at 3 or less. *)
Theorem mcp_call_bounded (name : string) (start_date end_date : Z) (st : State) :
  (retry_count st <= max_retries)%nat ->
  (exists res st',
     get_weather_data V empty_list sized config run isoformat
       name start_date end_date st = Some (res, st')
     /\ (retry_count st' <= max_retries)%nat
     /\ (clock st <= clock st' <= clock st + 14)%nat
     /\ (commands st <= commands st' <= commands st + 4)%nat)
  /\ (exists res st',
        get_stock_data V empty_list sized config run isoformat
          name start_date end_date st = Some (res, st')
        /\ (retry_count st' <= max_retries)%nat
        /\ (clock st <= clock st' <= clock st + 14)%nat
        /\ (commands st <= commands st' <= commands st + 4)%nat).
Proof.
  intros Hc. split.
  - destruct (get_data_bounded "weather" "get_weather"
                [("city", name); ("start_date", isoformat start_date);
                 ("end_date", isoformat end_date)] (S max_retries) st Hc)
      as (res & st' & Heq & H1 & H2 & H3 & H4 & H5); [lia|].
    exists res, st'. split; [exact Heq|].
    pose proof (pow2_ge_2 (retry_count st)). lia.
  - destruct (get_data_bounded "stock" "get_stock"
                [("symbol", upper name); ("start_date", isoformat start_date);
                 ("end_date", isoformat end_date)] (S max_retries) st Hc)
      as (res & st' & Heq & H1 & H2 & H3 & H4 & H5); [lia|].
    exists res, st'. split; [exact Heq|].
    pose proof (pow2_ge_2 (retry_count st)). lia.
Qed.

(** When every attempt fails, with a configured server. *)
Lemma get_data_fail (server method : string) (params : list (string * string))
    (sc : ServerConfig) (fuel : nat) (st : State) :
  config !! server = Some sc ->
  (forall j, usable V (run (commands st + j) sc method params) = None) ->
  (retry_count st <= max_retries)%nat ->
  (max_retries - retry_count st < fuel)%nat ->
  fetch fuel server method params st
  = Some (Return None,
          mkState 0
            (clock st + backoff (retry_count st) (max_retries - retry_count st))
            (commands st + S (max_retries - retry_count st))).
Proof.
  unfold max_retries. intros Hsc. revert st.
  induction fuel as [|fuel IH]; intros st Hfail Hc Hfuel; [lia|].
  simpl. unfold execute_mcp_command, get_server_config. rewrite Hsc.
  pose proof (Hfail 0%nat) as H0. rewrite Nat.add_0_r in H0. rewrite H0. simpl.
  destruct (retry_count st <? max_retries)%nat eqn:E.
  - apply Nat.ltb_lt in E. unfold max_retries in E.
    rewrite IH; simpl; try lia.
    + replace (3 - retry_count st)%nat with (S (3 - S (retry_count st))) by lia.
      simpl. do 2 f_equal. f_equal; lia.
    + intros j. rewrite <- Nat.add_succ_r. apply Hfail.
  - apply Nat.ltb_ge in E. unfold max_retries in E.
    replace (3 - retry_count st)%nat with 0%nat by lia. simpl.
    do 2 f_equal. f_equal; lia.
Qed.

(** When the server has no configuration. *)
Lemma get_data_unconfigured (server method : string)
    (params : list (string * string)) (fuel : nat) (st : State) :
  config !! server = None ->
  (retry_count st <= max_retries)%nat ->
  (max_retries - retry_count st < fuel)%nat ->
  fetch fuel server method params st
  = Some (Return None,
          mkState 0
            (clock st + backoff (retry_count st) (max_retries - retry_count st))
            (commands st)).
Proof.
  unfold max_retries. intros Hsc. revert st.
  induction fuel as [|fuel IH]; intros st Hc Hfuel; [lia|].
  simpl. unfold execute_mcp_command, get_server_config. rewrite Hsc. simpl.
  destruct (retry_count st <? max_retries)%nat eqn:E.
  - apply Nat.ltb_lt in E. unfold max_retries in E.
    rewrite IH; simpl; try lia.
    replace (3 - retry_count st)%nat with (S (3 - S (retry_count st))) by lia.
    simpl. do 2 f_equal. f_equal; lia.
  - apply Nat.ltb_ge in E. unfold max_retries in E.
    replace (3 - retry_count st)%nat with 0%nat by lia. simpl.
    do 2 f_equal. f_equal; lia.
Qed.

(** When the first [k] attempts fail and the next one has a true result. *)
Lemma get_data_succeed (server method : string) (params : list (string * string))
    (sc : ServerConfig) (r : Result V) (k fuel : nat) (st : State) :
  config !! server = Some sc ->
  (forall j, (j < k)%nat -> usable V (run (commands st + j) sc method params) = None) ->
  usable V (run (commands st + k) sc method params) = Some r ->
  (retry_count st + k <= max_retries)%nat ->
  (k < fuel)%nat ->
  fetch fuel server method params st
  = Some (deliver V empty_list sized r,
          mkState (retry_count st + k) (clock st + backoff (retry_count st) k)
                  (commands st + S k)).
Proof.
  unfold max_retries. intros Hsc. revert fuel st.
  induction k as [|k IH]; intros fuel st Hfail Hok Hc Hfuel;
    (destruct fuel as [|fuel]; [lia|]);
    simpl; unfold execute_mcp_command, get_server_config; rewrite Hsc.
  - rewrite Nat.add_0_r in Hok. rewrite Hok. do 2 f_equal. f_equal; lia.
  - pose proof (Hfail 0%nat ltac:(lia)) as H0. rewrite Nat.add_0_r in H0.
    rewrite H0. simpl.
    assert (E : (retry_count st <? max_retries)%nat = true)
      by (apply Nat.ltb_lt; unfold max_retries; lia).
    rewrite E. rewrite (IH fuel); simpl; try lia.
    + do 2 f_equal. f_equal; lia.
    + intros j Hj. rewrite <- Nat.add_succ_r. apply Hfail. lia.
    + rewrite <- Nat.add_succ_r. exact Hok.
Qed.

(** The data of an object whose [data] member, if any, has a length. *)
Lemma deliver_data (r : gmap string V) :
  from_option sized true (r !! "data") = true ->
  deliver V empty_list sized (Object r)
  = Return (Some (default empty_list (r !! "data"))).
Proof.
  unfold deliver. destruct (r !! "data") as [d|]; simpl; [|reflexivity].
  intros ->. reflexivity.
Qed.

Abbreviation weather_params city start_date end_date :=
  [("city", city); ("start_date", isoformat start_date);
   ("end_date", isoformat end_date)].
Abbreviation stock_params symbol start_date end_date :=
  [("symbol", upper symbol); ("start_date", isoformat start_date);
   ("end_date", isoformat end_date)].

(** X14.  When no attempt gives a true result, [get_weather_data] returns
    [None] with the counter back at 0, after [3 - retry_count] retries and
    the sleeps between them, 2 + 4 + 8 = 14 seconds from a counter at 0.
    Without a configuration for the weather server this happens without any
    subprocess being started; with one, [4 - retry_count] are started. *)
Theorem mcp_failure_backoff (city : string) (start_date end_date : Z) (st : State) :
  (retry_count st <= max_retries)%nat ->
  let slept := backoff (retry_count st) (max_retries - retry_count st) in
  (config !! "weather" = None ->
   get_weather_data V empty_list sized config run isoformat
     city start_date end_date st
   = Some (Return None, mkState 0 (clock st + slept) (commands st)))
  /\ (forall sc,
        config !! "weather" = Some sc ->
        (forall j, usable V (run (commands st + j) sc "get_weather"
                               (weather_params city start_date end_date)) = None) ->
        get_weather_data V empty_list sized config run isoformat
          city start_date end_date st
        = Some (Return None,
                mkState 0 (clock st + slept)
                  (commands st + S (max_retries - retry_count st))))
  /\ (retry_count st = 0%nat -> slept = 14%nat).
Proof.
  intros Hc slept. split; [|split].
  - intros Hnone. apply get_data_unconfigured; [exact Hnone|exact Hc|lia].
  - intros sc Hsc Hfail. apply (get_data_fail _ _ _ sc); [exact Hsc|exact Hfail|exact Hc|lia].
  - intros H0. subst slept. rewrite H0. vm_compute. reflexivity.
Qed.

(** X15.  A success does not reset the retry counter: when the first [k]
    attempts of [get_weather_data] fail and the next one gives a non-empty
    object whose [data], if present, has a length, the call returns that
    [data] (the empty list when the object has none) and leaves the counter
    [k] higher than it found it. *)
Theorem mcp_success_keeps_count (city : string) (start_date end_date : Z)
    (sc : ServerConfig) (r : gmap string V) (k : nat) (st : State) :
  config !! "weather" = Some sc ->
  (forall j, (j < k)%nat ->
     usable V (run (commands st + j) sc "get_weather"
                 (weather_params city start_date end_date)) = None) ->
  usable V (run (commands st + k) sc "get_weather"
              (weather_params city start_date end_date)) = Some (Object r) ->
  from_option sized true (r !! "data") = true ->
  (retry_count st + k <= max_retries)%nat ->
  get_weather_data V empty_list sized config run isoformat
    city start_date end_date st
  = Some (Return (Some (default empty_list (r !! "data"))),
          mkState (retry_count st + k) (clock st + backoff (retry_count st) k)
                  (commands st + S k)).
Proof.
  intros Hsc Hfail Hok Hsized Hc.
  rewrite <- (deliver_data r Hsized).
  apply (get_data_succeed _ _ _ sc (Object r) k); try assumption.
  unfold max_retries in *. lia.
Qed.

(** X16.  The two calls share one retry budget.  On a client whose counter
    is at 0, let [get_weather_data] succeed after [k] failed attempts, and
    let every attempt of the [get_stock_data] that follows fail: the second
    call is left with [3 - k] retries only, so it starts [4 - k]
    subprocesses and, for [k = 3], gives up after its first attempt without
    sleeping. *)
Theorem mcp_retry_budget_shared (city symbol : string) (start_date end_date : Z)
    (weather_server stock_server : ServerConfig) (r : gmap string V)
    (k : nat) (st : State) :
  retry_count st = 0%nat ->
  (k <= max_retries)%nat ->
  config !! "weather" = Some weather_server ->
  config !! "stock" = Some stock_server ->
  (forall j, (j < k)%nat ->
     usable V (run (commands st + j) weather_server "get_weather"
                 (weather_params city start_date end_date)) = None) ->
  usable V (run (commands st + k) weather_server "get_weather"
              (weather_params city start_date end_date)) = Some (Object r) ->
  from_option sized true (r !! "data") = true ->
  (forall j,
     usable V (run (commands st + S k + j) stock_server "get_stock"
                 (stock_params symbol start_date end_date)) = None) ->
  exists st1,
    get_weather_data V empty_list sized config run isoformat
      city start_date end_date st
    = Some (Return (Some (default empty_list (r !! "data"))), st1)
    /\ retry_count st1 = k
    /\ get_stock_data V empty_list sized config run isoformat
         symbol start_date end_date st1
       = Some (Return None,
               mkState 0 (clock st1 + backoff k (max_retries - k))
                 (commands st1 + S (max_retries - k)))
    /\ (k = max_retries ->
        get_stock_data V empty_list sized config run isoformat
          symbol start_date end_date st1
        = Some (Return None, mkState 0 (clock st1) (S (commands st1)))).
Proof.
  intros H0 Hk Hw Hs Hfail Hok Hsized Hstock.
  set (st1 := mkState (retry_count st + k) (clock st + backoff (retry_count st) k)
                (commands st + S k)).
  assert (Hweather :
    get_weather_data V empty_list sized config run isoformat
      city start_date end_date st
    = Some (Return (Some (default empty_list (r !! "data"))), st1)).
  { rewrite <- (deliver_data r Hsized).
    apply (get_data_succeed _ _ _ weather_server (Object r) k); try assumption;
      unfold max_retries in *; lia. }
  assert (Hcount : retry_count st1 = k) by (simpl; lia).
  assert (Hstock' :
    get_stock_data V empty_list sized config run isoformat
      symbol start_date end_date st1
    = Some (Return None,
            mkState 0 (clock st1 + backoff k (max_retries - k))
              (commands st1 + S (max_retries - k)))).
  { pose proof (get_data_fail "stock" "get_stock"
                  (stock_params symbol start_date end_date) stock_server
                  (S max_retries) st1 Hs Hstock) as Hfetch.
    rewrite Hcount in Hfetch. apply Hfetch; [exact Hk|lia]. }
  exists st1. repeat split; try assumption.
  intros ->. rewrite Hstock'. unfold max_retries. simpl.
  do 2 f_equal. f_equal; lia.
Qed.

(** X17.  A true result of the wrong shape escapes the retry logic as an
    exception.  When the first [k] attempts of [get_stock_data] fail and the
    next result is true, the call raises [AttributeError] if that result is
    not an object, and [TypeError] if it is an object whose [data] has no
    length; it returns otherwise.  No further attempt is made and the retry
    counter stays at the [k] retries made so far. *)
Theorem mcp_malformed_result_raises (symbol : string) (start_date end_date : Z)
    (sc : ServerConfig) (result : Result V) (k : nat) (st : State) :
  config !! "stock" = Some sc ->
  (forall j, (j < k)%nat ->
     usable V (run (commands st + j) sc "get_stock"
                 (stock_params symbol start_date end_date)) = None) ->
  usable V (run (commands st + k) sc "get_stock"
              (stock_params symbol start_date end_date)) = Some result ->
  (retry_count st + k <= max_retries)%nat ->
  exists res,
    get_stock_data V empty_list sized config run isoformat
      symbol start_date end_date st
    = Some (res,
            mkState (retry_count st + k) (clock st + backoff (retry_count st) k)
                    (commands st + S k))
    /\ (res = Raise AttributeError <-> exists b, result = Value b)
    /\ (res = Raise TypeError <->
        exists r d, result = Object r /\ r !! "data" = Some d /\ sized d = false)
    /\ res <> Return None
    /\ (forall d, res = Return (Some d) ->
          exists r, result = Object r
                    /\ (r !! "data" = Some d
                        \/ (r !! "data" = None /\ d = empty_list))).
Proof.
  intros Hsc Hfail Hok Hc.
  exists (deliver V empty_list sized result). split.
  - apply (get_data_succeed _ _ _ sc result k); try assumption.
    unfold max_retries in *. lia.
  - unfold deliver. destruct result as [r|b].
    + destruct (r !! "data") as [d|] eqn:Hd; [destruct (sized d) eqn:Hs|].
      * split; [|split; [|split]].
        -- split; [discriminate|]. intros [b Hb]. discriminate.
        -- split; [discriminate|]. intros (r' & d' & Hr & Hd' & Hs').
           injection Hr as <-. rewrite Hd in Hd'. injection Hd' as <-. congruence.
        -- discriminate.
        -- intros d' Hret. injection Hret as <-.
           exists r. split; [reflexivity|]. left. exact Hd.
      * split; [|split; [|split]].
        -- split; [discriminate|]. intros [b Hb]. discriminate.
        -- split; [|reflexivity]. intros _. exists r, d. auto.
        -- discriminate.
        -- intros d'. discriminate.
      * split; [|split; [|split]].
        -- split; [discriminate|]. intros [b Hb]. discriminate.
        -- split; [discriminate|]. intros (r' & d' & Hr & Hd' & Hs').
           injection Hr as <-. rewrite Hd in Hd'. discriminate.
        -- discriminate.
        -- intros d' Hret. injection Hret as <-.
           exists r. split; [reflexivity|]. right. auto.
    + split; [|split; [|split]].
      * split; [|reflexivity]. intros _. exists b. reflexivity.
      * split; [discriminate|]. intros (r' & d' & Hr & _). discriminate.
      * discriminate.
      * intros d'. discriminate.
Qed.

End ClientFacts.

(** A fresh client in a world where only the fourth subprocess answers. *)
Lemma mcp_call_bounded_witness :
  exists res st',
    MCPClient.get_weather_data SampleValue (Array []) sample_sized sample_config
      flaky_run plain_isoformat "New York" 0 86400 fresh_client = Some (res, st')
    /\ (MCPClient.retry_count st' <= MCPClient.max_retries)%nat
    /\ (MCPClient.clock fresh_client <= MCPClient.clock st'
        <= MCPClient.clock fresh_client + 14)%nat
    /\ (MCPClient.commands fresh_client <= MCPClient.commands st'
        <= MCPClient.commands fresh_client + 4)%nat.
Proof.
  apply (mcp_call_bounded (Array []) sample_sized sample_config flaky_run
           plain_isoformat "New York" 0 86400 fresh_client).
  unfold fresh_client, MCPClient.max_retries. simpl. lia.
Defined.

(** A fresh client without any configured server. *)
Lemma mcp_failure_backoff_witness :
  MCPClient.get_weather_data SampleValue (Array []) sample_sized ∅
    flaky_run plain_isoformat "New York" 0 86400 fresh_client
  = Some (MCPClient.Return None, MCPClient.mkState 0 14 0).
Proof.
  destruct (mcp_failure_backoff (Array []) sample_sized ∅ flaky_run plain_isoformat
              "New York" 0 86400 fresh_client) as [Hnone _].
  - unfold fresh_client, MCPClient.max_retries. simpl. lia.
  - apply Hnone. reflexivity.
Defined.

(** Three failures, then the answer: the counter is left at 3. *)
Lemma mcp_success_keeps_count_witness :
  MCPClient.get_weather_data SampleValue (Array []) sample_sized sample_config
    flaky_run plain_isoformat "New York" 0 86400 fresh_client
  = Some (MCPClient.Return (Some (Array [7%nat])), MCPClient.mkState 3 14 4).
Proof.
  apply (mcp_success_keeps_count (Array []) sample_sized sample_config flaky_run
           plain_isoformat "New York" 0 86400 sample_server sample_reply 3
           fresh_client).
  - reflexivity.
  - intros j Hj. simpl. unfold flaky_run.
    destruct j as [|[|[|j]]]; [reflexivity..|lia].
  - reflexivity.
  - reflexivity.
  - unfold fresh_client, MCPClient.max_retries. simpl. lia.
Defined.

(** The stock call that follows is left without any retry. *)
Lemma mcp_retry_budget_shared_witness :
  exists st1,
    MCPClient.get_weather_data SampleValue (Array []) sample_sized sample_config
      flaky_run plain_isoformat "New York" 0 86400 fresh_client
    = Some (MCPClient.Return (Some (Array [7%nat])), st1)
    /\ MCPClient.retry_count st1 = 3%nat
    /\ MCPClient.get_stock_data SampleValue (Array []) sample_sized sample_config
         flaky_run plain_isoformat "aapl" 0 86400 st1
       = Some (MCPClient.Return None,
               MCPClient.mkState 0 (MCPClient.clock st1)
                 (S (MCPClient.commands st1))).
Proof.
  destruct (mcp_retry_budget_shared (Array []) sample_sized sample_config flaky_run
              plain_isoformat "New York" "aapl" 0 86400 sample_server sample_server
              sample_reply 3 fresh_client)
    as (st1 & Hweather & Hcount & _ & Hstock).
  - reflexivity.
  - unfold MCPClient.max_retries. lia.
  - reflexivity.
  - reflexivity.
  - intros j Hj. simpl. unfold flaky_run.
    destruct j as [|[|[|j]]]; [reflexivity..|lia].
  - reflexivity.
  - reflexivity.
  - intros j. reflexivity.
  - exists st1. split; [exact Hweather|]. split; [exact Hcount|].
    apply Hstock. reflexivity.
Defined.

(** A server that answers with a number for [data]: the first call raises. *)
Lemma mcp_malformed_result_raises_witness :
  MCPClient.get_stock_data SampleValue (Array []) sample_sized sample_config
    count_run plain_isoformat "aapl" 0 86400 fresh_client
  = Some (MCPClient.Raise MCPClient.TypeError, MCPClient.mkState 0 0 1).
Proof.
  destruct (mcp_malformed_result_raises (Array []) sample_sized sample_config
              count_run plain_isoformat "aapl" 0 86400 sample_server
              (MCPClient.Object {[ "data" := Number 7 ]}) 0 fresh_client)
    as (res & Hcall & _ & [_ Htype] & _ & _).
  - reflexivity.
  - intros j Hj. lia.
  - reflexivity.
  - unfold fresh_client, MCPClient.max_retries. simpl. lia.
  - rewrite Hcall. rewrite Htype; [reflexivity|].
    exists {[ "data" := Number 7 ]}, (Number 7). repeat split.
Defined.

(** ** Fetching and validating *)

Lemma range_lookup (n : Z) (i : nat) (z : Z) :
  DirectAPIClient.range n !! i = Some z -> z = Z.of_nat i /\ Z.of_nat i < n.
Proof.
  unfold DirectAPIClient.range. rewrite list_lookup_fmap.
  destruct (seq 0 (Z.to_nat n) !! i) as [j|] eqn:Hj; [|discriminate].
  apply lookup_seq in Hj as [-> Hlt]. simpl. intros [= <-]. lia.
Qed.

Lemma temp_variation_bounds (i : Z) :
  -6 <= DirectAPIClient.temp_variation i <= 6.
Proof.
  unfold DirectAPIClient.temp_variation.
  pose proof (Z.mod_pos_bound i 7 ltac:(lia)). lia.
Qed.

Lemma temp_variation_week (i : Z) :
  DirectAPIClient.temp_variation (i + 7) = DirectAPIClient.temp_variation i.
Proof.
  unfold DirectAPIClient.temp_variation.
  replace (i + 7) with (i + 1 * 7) by lia. rewrite Z.mod_add by lia. reflexivity.
Qed.

(** The records of the direct client, by index. *)
Lemma direct_weather_lookup (fl : Q -> Q) (key : option string)
    (requests_get : string -> string -> option DirectAPIClient.CurrentWeather)
    (city : string) (start_date end_date : Z) (i : nat) (item : WeatherItem) :
  DirectAPIClient.get_weather_data fl key requests_get city start_date end_date !! i
  = Some item ->
  exists k data,
    key = Some k /\ requests_get city k = Some data
    /\ item = DirectAPIClient.weather_record fl data start_date (Z.of_nat i)
    /\ Z.of_nat i < Z.min (days (end_date - start_date)) 30.
Proof.
  unfold DirectAPIClient.get_weather_data.
  destruct key as [k|]; [|discriminate].
  destruct (String.eqb k ""); [discriminate|].
  destruct (requests_get city k) as [data|] eqn:Hget; [|discriminate].
  cbv zeta. rewrite list_lookup_fmap.
  destruct (DirectAPIClient.range _ !! i) as [z|] eqn:Hz; [|discriminate].
  apply range_lookup in Hz as [-> Hlt]. simpl. intros [= <-].
  exists k, data. auto.
Qed.

(** A sum of a float and of a variation of at most 6, once rounded: it lies
    between the floats nearest to 6 below and to 6 above; and within 6 and
    one rounding error when it is a normal number. *)
Lemma fl_sum_near (fl : Q -> Q) (T : Q) (v : Z) :
  rounding fl -> -6 <= v <= 6 ->
  (fl (T - 6) <= fl (T + inject_Z v))%Q
  /\ (fl (T + inject_Z v) <= fl (T + 6))%Q
  /\ ((min_normal <= Qabs (T + inject_Z v))%Q ->
      (Qabs (T + inject_Z v) <= max_normal)%Q ->
      (Qabs (fl (T + inject_Z v) - T)
       <= 6 + (Qabs T + 6) * (1 # 9007199254740992))%Q).
Proof.
  intros Hfl [Hlo Hhi].
  rewrite Zle_Qle in Hlo, Hhi.
  change (inject_Z (-6)) with (-6)%Q in Hlo.
  change (inject_Z 6) with 6%Q in Hhi.
  set (w := inject_Z v) in *.
  split; [apply (fl_monotone fl Hfl); lra|].
  split; [apply (fl_monotone fl Hfl); lra|].
  intros Hmin Hmax.
  pose proof (fl_error fl Hfl (T + w) Hmin Hmax) as He.
  apply Qabs_Qle_condition in He. destruct He as [He1 He2].
  assert (Hx : (Qabs (T + w) <= Qabs T + 6)%Q).
  { pose proof (Qabs_triangle T w) as Ht.
    assert (Qabs w <= 6)%Q by (apply Qabs_Qle_condition; split; lra). lra. }
  assert (Hm : (Qabs (T + w) * (1 # 9007199254740992)
                <= (Qabs T + 6) * (1 # 9007199254740992))%Q)
    by (apply Qmult_le_compat_r; [exact Hx|discriminate]).
  apply Qabs_Qle_condition. split; lra.
Qed.

(** X18.  The weather history of the direct client is synthetic.  It has at
    most 30 points and at most one per whole day of the range asked for;
    point [i] lies [i] days after the start, before the end; its temperature
    is the current temperature of the reply plus a variation of at most 6
    degrees, rounded: it lies between the floats nearest to 6 degrees below
    and 6 degrees above, within 6 degrees and one rounding error of the
    current temperature when the sum is a normal number, and it is that of
    the point a week later; and all points have the same humidity,
    precipitation, wind speed and condition. *)
Theorem direct_weather_series (fl : Q -> Q) (key : option string)
    (requests_get : string -> string -> option DirectAPIClient.CurrentWeather)
    (city : string) (start_date end_date : Z) :
  rounding fl ->
  let records :=
    DirectAPIClient.get_weather_data fl key requests_get city start_date end_date in
  (length records <= 30)%nat
  /\ Z.of_nat (length records) * 86400 <= Z.max 0 (end_date - start_date)
  /\ (forall i item, records !! i = Some item ->
        exists data t,
          i_timestamp item = Some (start_date + Z.of_nat i * 86400)
          /\ start_date + Z.of_nat i * 86400 < end_date
          /\ i_temperature item = Some t
          /\ (fl (DirectAPIClient.main_temp data - 6) <= t)%Q
          /\ (t <= fl (DirectAPIClient.main_temp data + 6))%Q
          /\ (let sum :=
                (DirectAPIClient.main_temp data
                 + inject_Z (DirectAPIClient.temp_variation (Z.of_nat i)))%Q in
              (min_normal <= Qabs sum)%Q -> (Qabs sum <= max_normal)%Q ->
              (Qabs (t - DirectAPIClient.main_temp data)
               <= 6 + (Qabs (DirectAPIClient.main_temp data) + 6)
                      * (1 # 9007199254740992))%Q)
          /\ (forall item', records !! (i + 7)%nat = Some item' ->
                i_temperature item' = Some t))
  /\ (forall i j item item',
        records !! i = Some item -> records !! j = Some item' ->
        i_humidity item' = i_humidity item
        /\ i_precipitation item' = i_precipitation item
        /\ i_wind_speed item' = i_wind_speed item
        /\ i_condition item' = i_condition item).
Proof.
  intros Hfl records.
  assert (Hdays : days (end_date - start_date) * 86400 <= end_date - start_date).
  { unfold days. rewrite Z.mul_comm. apply Z.mul_div_le. lia. }
  assert (Hlen : Z.of_nat (length records)
                 <= Z.max 0 (Z.min (days (end_date - start_date)) 30)).
  { subst records. unfold DirectAPIClient.get_weather_data.
    destruct key as [k|]; [|simpl; lia].
    destruct (String.eqb k ""); [simpl; lia|].
    destruct (requests_get city k) as [data|]; [|simpl; lia].
    cbv zeta. unfold DirectAPIClient.range.
    rewrite !length_fmap, length_seq. lia. }
  split; [lia|]. split; [lia|]. split.
  - intros i item Hi.
    destruct (direct_weather_lookup _ _ _ _ _ _ _ _ Hi)
      as (k & data & -> & Hget & -> & Hlt).
    exists data,
      (fl (DirectAPIClient.main_temp data
           + inject_Z (DirectAPIClient.temp_variation (Z.of_nat i))))%Q.
    split; [reflexivity|]. split; [lia|]. split; [reflexivity|].
    destruct (fl_sum_near fl (DirectAPIClient.main_temp data)
                (DirectAPIClient.temp_variation (Z.of_nat i)) Hfl
                (temp_variation_bounds (Z.of_nat i))) as (H1 & H2 & H3).
    split; [exact H1|]. split; [exact H2|]. split; [exact H3|].
    intros item' Hi'.
    destruct (direct_weather_lookup _ _ _ _ _ _ _ _ Hi')
      as (k' & data' & Hk & Hget' & -> & _).
    injection Hk as <-. rewrite Hget in Hget'. injection Hget' as <-.
    simpl. rewrite Nat2Z.inj_add. simpl Z.of_nat at 2.
    rewrite temp_variation_week. reflexivity.
  - intros i j item item' Hi Hj.
    destruct (direct_weather_lookup _ _ _ _ _ _ _ _ Hi)
      as (k & data & -> & Hget & -> & _).
    destruct (direct_weather_lookup _ _ _ _ _ _ _ _ Hj)
      as (k' & data' & Hk & Hget' & -> & _).
    injection Hk as <-. rewrite Hget in Hget'. injection Hget' as <-.
    auto.
Qed.

(** Forty days asked for, in exact arithmetic: thirty points. *)
Lemma direct_weather_series_witness :
  (length (DirectAPIClient.get_weather_data no_rounding (Some "key") sample_requests_get
             "New York" 0 (40 * 86400)) <= 30)%nat.
Proof.
  destruct (direct_weather_series no_rounding (Some "key") sample_requests_get
              "New York" 0 (40 * 86400) exact_rounding) as [H _].
  exact H.
Defined.

(** X19.  The validator of weather points does not look at the
    precipitation.  A point it accepts has all the members read when the
    record is created, and the record satisfies the constraints of the
    [weather_data] table exactly when the precipitation of the point is
    absent or not negative. *)
Theorem validated_weather_storable (city : string) (item : WeatherItem) :
  DataService.validate_weather_data item = true ->
  exists w,
    DataService.new_weather city item = Some w
    /\ WeatherData.city w = city
    /\ (weather_table_args_ok w = true <->
        (0 <= default 0 (i_precipitation item))%Q).
Proof.
  unfold DataService.validate_weather_data, DataService.new_weather.
  destruct (i_timestamp item) as [ts|]; [|discriminate].
  destruct (i_temperature item) as [t|]; [|discriminate].
  destruct (i_humidity item) as [h|]; [|discriminate].
  destruct (i_wind_speed item) as [ws|]; [|discriminate].
  destruct (i_condition item) as [c|]; [|discriminate].
  destruct (Qle_bool (-100) t && Qle_bool t 60); [|discriminate].
  destruct ((0 <=? h) && (h <=? 100)) eqn:Hh; [|discriminate].
  destruct (Qle_bool 0 ws && Qle_bool ws 200) eqn:Hw; [|discriminate].
  intros _. eexists. split; [reflexivity|]. split; [reflexivity|].
  unfold weather_table_args_ok. simpl. rewrite Hh.
  apply andb_prop in Hw as [-> _]. simpl.
  rewrite andb_true_r. apply Qle_bool_iff.
Qed.

Lemma validated_weather_storable_witness :
  exists w,
    DataService.new_weather "New York" sample_weather_item = Some w
    /\ WeatherData.city w = "New York"
    /\ (weather_table_args_ok w = true <->
        (0 <= default 0 (i_precipitation sample_weather_item))%Q).
Proof.
  apply (validated_weather_storable "New York" sample_weather_item).
  reflexivity.
Defined.

Lemma Qle_bool_false (x y : Q) : Qle_bool x y = false -> ~ (x <= y)%Q.
Proof.
  intros E H. apply Qle_bool_iff in H. congruence.
Qed.

(** X20.  The validator of market points checks the order of the prices and
    the volume, not the sign of the prices.  A point it accepts has all the
    members read when the record is created; and the record created from a
    point satisfies the constraints of the [stock_data] table exactly when
    the validator accepts the point and its low price is positive. *)
Theorem stock_validation_and_constraints (symbol : string) (item : StockItem) :
  (DataService.validate_stock_data item = true ->
   exists s, DataService.new_stock symbol item = Some s)
  /\ (forall s,
        DataService.new_stock symbol item = Some s ->
        (stock_table_args_ok s = true <->
         DataService.validate_stock_data item = true
         /\ exists l, k_low_price item = Some l /\ (0 < l)%Q)).
Proof.
  unfold DataService.validate_stock_data, DataService.new_stock.
  destruct (k_timestamp item) as [ts|]; [|split; [discriminate|intros s; discriminate]].
  destruct (k_open_price item) as [o|]; [|split; [discriminate|intros s; discriminate]].
  destruct (k_close_price item) as [c|]; [|split; [discriminate|intros s; discriminate]].
  destruct (k_high_price item) as [h|]; [|split; [discriminate|intros s; discriminate]].
  destruct (k_low_price item) as [l|]; [|split; [discriminate|intros s; discriminate]].
  destruct (k_volume item) as [v|]; [|split; [discriminate|intros s; discriminate]].
  split; [intros _; eexists; reflexivity|].
  intros s [= <-]. unfold stock_table_args_ok. simpl.
  rewrite !andb_true_iff, !Qlt_bool_iff, !Qle_bool_iff, Z.leb_le.
  destruct (Qle_bool l o && Qle_bool o h) eqn:E1; simpl;
    [apply andb_prop in E1 as [E1 E1']; apply Qle_bool_iff in E1, E1'|].
  - destruct (Qle_bool l c && Qle_bool c h) eqn:E2; simpl;
      [apply andb_prop in E2 as [E2 E2']; apply Qle_bool_iff in E2, E2'|].
    + destruct (v <? 0) eqn:E3; [apply Z.ltb_lt in E3|apply Z.ltb_ge in E3].
      * split; [intros H; lia|intros [H _]; discriminate].
      * split.
        -- intros H. split; [reflexivity|]. exists l. split; [reflexivity|tauto].
        -- intros [_ (l' & [= <-] & Hl)].
           repeat split; try assumption; lra.
    + split; [|intros [H _]; discriminate].
      intros H. exfalso.
      apply andb_false_iff in E2 as [E|E]; apply Qle_bool_false in E; tauto.
  - split; [|intros [H _]; discriminate].
    intros H. exfalso.
    apply andb_false_iff in E1 as [E|E]; apply Qle_bool_false in E; tauto.
Qed.

(** X21.  In ordinary weather every point of the direct client is accepted
    and can be stored, whatever the rounding of the floats: when the reply
    has a temperature between -94 and 54 degrees, a humidity between 0 and
    100, a wind between 0 and 55 m/s and no negative rain, each point passes
    the validator and gives a record that satisfies the constraints of the
    table. *)
Theorem direct_weather_accepted (fl : Q -> Q) (key city : string)
    (requests_get : string -> string -> option DirectAPIClient.CurrentWeather)
    (data : DirectAPIClient.CurrentWeather) (start_date end_date : Z) :
  rounding fl ->
  requests_get city key = Some data ->
  (-94 <= DirectAPIClient.main_temp data)%Q ->
  (DirectAPIClient.main_temp data <= 54)%Q ->
  0 <= DirectAPIClient.main_humidity data <= 100 ->
  (0 <= DirectAPIClient.wind_speed data)%Q ->
  (DirectAPIClient.wind_speed data <= 55)%Q ->
  (0 <= default 0 (DirectAPIClient.rain_1h data))%Q ->
  forall item,
    item ∈ DirectAPIClient.get_weather_data fl (Some key) requests_get city
             start_date end_date ->
    DataService.validate_weather_data item = true
    /\ exists w,
         DataService.new_weather city item = Some w
         /\ weather_table_args_ok w = true.
Proof.
  intros Hfl Hget Hlo Hhi Hhum Hw0 Hw1 Hrain item Hin.
  apply list_elem_of_lookup in Hin as [i Hi].
  destruct (direct_weather_lookup _ _ _ _ _ _ _ _ Hi)
    as (k & data' & [= <-] & Hget' & -> & _).
  rewrite Hget in Hget'. injection Hget' as <-.
  pose proof (temp_variation_bounds (Z.of_nat i)) as [Hvlo Hvhi].
  rewrite Zle_Qle in Hvlo, Hvhi.
  change (inject_Z (-6)) with (-6)%Q in Hvlo.
  change (inject_Z 6) with 6%Q in Hvhi.
  set (t := fl (DirectAPIClient.main_temp data
                + inject_Z (DirectAPIClient.temp_variation (Z.of_nat i)))%Q).
  set (c := fl (36 # 10)).
  set (ws := fl (DirectAPIClient.wind_speed data * c)%Q).
  assert (Ht1 : (-100 <= t)%Q).
  { apply (fl_ge_integer fl Hfl (-100)); [lia|].
    change (inject_Z (-100)) with (-100)%Q. lra. }
  assert (Ht2 : (t <= 60)%Q).
  { apply (fl_le_integer fl Hfl 60); [lia|].
    change (inject_Z 60) with 60%Q. lra. }
  assert (Hc0 : (0 <= c)%Q) by (apply (fl_nonneg fl Hfl); discriminate).
  assert (Hc1 : (c <= 361 # 100)%Q).
  { pose proof (fl_error fl Hfl (36 # 10)) as He. fold c in He.
    specialize (He ltac:(vm_compute; discriminate) ltac:(vm_compute; discriminate)).
    apply Qabs_Qle_condition in He. destruct He as [_ He].
    change (Qabs (36 # 10)) with (36 # 10)%Q in He.
    assert ((36 # 10) * (1 # 9007199254740992) <= 1 # 100)%Q by discriminate.
    lra. }
  assert (Hws0 : (0 <= ws)%Q).
  { apply (fl_nonneg fl Hfl). apply Qmult_le_0_compat; assumption. }
  assert (Hws1 : (ws <= 200)%Q).
  { apply (fl_le_integer fl Hfl 200); [lia|].
    change (inject_Z 200) with 200%Q.
    assert (DirectAPIClient.wind_speed data * c <= 55 * (361 # 100))%Q; [|lra].
    apply Qmult_le_compat_nonneg; split; assumption. }
  unfold DataService.validate_weather_data, DataService.new_weather,
    weather_table_args_ok, DirectAPIClient.weather_record. simpl.
  fold c. fold ws. fold t.
  assert (H1 : Qle_bool (-100) t = true) by (apply Qle_bool_iff; exact Ht1).
  assert (H2 : Qle_bool t 60 = true) by (apply Qle_bool_iff; exact Ht2).
  assert (H3 : (0 <=? DirectAPIClient.main_humidity data) = true)
    by (apply Z.leb_le; lia).
  assert (H4 : (DirectAPIClient.main_humidity data <=? 100) = true)
    by (apply Z.leb_le; lia).
  assert (H5 : Qle_bool 0 ws = true) by (apply Qle_bool_iff; exact Hws0).
  assert (H6 : Qle_bool ws 200 = true) by (apply Qle_bool_iff; exact Hws1).
  assert (H7 : Qle_bool 0 (default 0%Q (DirectAPIClient.rain_1h data)) = true)
    by (apply Qle_bool_iff; exact Hrain).
  rewrite H1, H2, H3, H4, H5, H6. simpl.
  split; [reflexivity|]. eexists. split; [reflexivity|].
  simpl. rewrite H3, H4, H5, H7. reflexivity.
Qed.

Lemma direct_weather_accepted_witness :
  DataService.validate_weather_data
    (DirectAPIClient.weather_record no_rounding sample_current 0 2) = true
  /\ exists w,
       DataService.new_weather "New York"
         (DirectAPIClient.weather_record no_rounding sample_current 0 2) = Some w
       /\ weather_table_args_ok w = true.
Proof.
  apply (direct_weather_accepted no_rounding "key" "New York" sample_requests_get
           sample_current 0 (40 * 86400)).
  - exact exact_rounding.
  - reflexivity.
  - unfold sample_current. simpl. lra.
  - unfold sample_current. simpl. lra.
  - unfold sample_current. simpl. lia.
  - unfold sample_current. simpl. lra.
  - unfold sample_current. simpl. lra.
  - unfold sample_current. simpl. lra.
  - apply list_elem_of_lookup. exists 2%nat. reflexivity.
Defined.
